(** * Calorie Calculator: record store, navigation and forms

    A shallow embedding of the C++ sources (food.h, data_manager.h/.cpp,
    ui_manager.h/.cpp) together with the properties of the specification
    that were checked against it.

    Conventions of the embedding.
    - [int] is a 32-bit two's complement integer, held in [Z]; arithmetic
      that can leave the range goes through [wrap].
    - [std::string] is [string]; a stream over a string is the text that is
      still to be read.
    - [std::vector] is [list]; a reference into a vector is a position.
    - A C++ function that can throw, call [exit] or be stopped by the C
      runtime returns an [outcome]. *)

From Stdlib Require Import ZArith List String Ascii Bool Lia DecimalString DecimalPos.
From Stdlib Require DecimalFacts.
From Stdlib Require Import Sorting.Sorted Sorting.Permutation.
Import ListNotations.
Local Open Scope string_scope.
Local Open Scope Z_scope.

(* ===================================================================== *)
(** ** Machine integers *)
(* ===================================================================== *)

Definition INT_MIN : Z := -2147483648.
Definition INT_MAX : Z := 2147483647.

Definition in_int (z : Z) : bool := (INT_MIN <=? z) && (z <=? INT_MAX).

(** Reduction of a mathematical integer to the 32-bit signed range. *)
Definition wrap (z : Z) : Z := (z + 2147483648) mod 4294967296 - 2147483648.

Definition int_add (a b : Z) : Z := wrap (a + b).
Definition int_sub (a b : Z) : Z := wrap (a - b).
Definition int_mul (a b : Z) : Z := wrap (a * b).
(** [/] and [%] on [int] truncate towards zero. *)
Definition int_div (a b : Z) : Z := wrap (Z.quot a b).
Definition int_rem (a b : Z) : Z := Z.rem a b.

(* ===================================================================== *)
(** ** Outcomes of a call *)
(* ===================================================================== *)

Inductive exn : Type :=
| invalid_argument   (* std::invalid_argument *)
| out_of_range.      (* std::out_of_range *)

Inductive outcome (A : Type) : Type :=
| Returns (a : A)          (* the call returns normally *)
| Throws (e : exn)         (* an exception leaves the call *)
| Exits (code : Z)         (* exit(code) was called *)
| Stops                    (* the C runtime stops the process, or the
                              call reads a variable that was never set *)
| Waits.                   (* the call is blocked on input that the
                              keyboard has not delivered yet *)
Arguments Returns {A} a.
Arguments Throws {A} e.
Arguments Exits {A} code.
Arguments Stops {A}.
Arguments Waits {A}.

Definition bind {A B : Type} (m : outcome A) (k : A -> outcome B) : outcome B :=
  match m with
  | Returns a => k a
  | Throws e => Throws e
  | Exits c => Exits c
  | Stops => Stops
  | Waits => Waits
  end.

Notation "x <- m ;; k" := (bind m (fun x => k))
  (at level 61, m at next level, right associativity).
Notation "' pat <- m ;; k" := (bind m (fun x => match x with pat => k end))
  (at level 61, pat pattern, m at next level, right associativity).

(** [try { body } catch (...) { handler }] *)
Definition try_catch {A : Type} (body : outcome A) (handler : outcome A) : outcome A :=
  match body with
  | Throws _ => handler
  | other => other
  end.

(* ===================================================================== *)
(** ** Characters and strings *)
(* ===================================================================== *)

Definition newline : ascii := "010"%char.
Definition tab : ascii := "009"%char.
Definition cr : ascii := "013"%char.

(** [isspace] in the "C" locale: space, and the controls 9 to 13. *)
Definition isspace (c : ascii) : bool :=
  let n := nat_of_ascii c in
  Nat.eqb n 32 || (Nat.leb 9 n && Nat.leb n 13).

Definition isdigit (c : ascii) : bool :=
  let n := nat_of_ascii c in
  Nat.leb 48 n && Nat.leb n 57.

Definition digit_value (c : ascii) : Z := Z.of_nat (nat_of_ascii c) - 48.

Fixpoint skip_while (p : ascii -> bool) (s : string) : string :=
  match s with
  | String c r => if p c then skip_while p r else s
  | EmptyString => EmptyString
  end.

Fixpoint take_while (p : ascii -> bool) (s : string) : string :=
  match s with
  | String c r => if p c then String c (take_while p r) else EmptyString
  | EmptyString => EmptyString
  end.

(** [s.substr(n)] for [n <= s.size()]: the text from position [n] on. *)
Fixpoint substr_from (n : nat) (s : string) : string :=
  match n, s with
  | O, _ => s
  | S n', String _ r => substr_from n' r
  | S _, EmptyString => EmptyString
  end.

(** [s.substr(0, n)]: at most the first [n] characters. *)
Fixpoint substr_to (n : nat) (s : string) : string :=
  match n, s with
  | O, _ => EmptyString
  | S n', String c r => String c (substr_to n' r)
  | S _, EmptyString => EmptyString
  end.

(** [s.find(p) == 0] *)
Definition starts_with (p s : string) : bool := String.prefix p s.

(** [std::replace(s.begin(), s.end(), a, b)] *)
Fixpoint replace_char (a b : ascii) (s : string) : string :=
  match s with
  | String c r => String (if Ascii.eqb c a then b else c) (replace_char a b r)
  | EmptyString => EmptyString
  end.

(** Value of a run of decimal digits, most significant first. *)
Fixpoint digits_value (acc : Z) (s : string) : Z :=
  match s with
  | String c r => digits_value (10 * acc + digit_value c) r
  | EmptyString => acc
  end.

(** [std::getline(stream, token, delim)] on the text [s] still to be read:
    fails when nothing is left; otherwise yields the text before the first
    [delim] (or all of it) and what follows the delimiter. *)
Fixpoint split_at (delim : ascii) (s : string) : string * string :=
  match s with
  | String c r =>
      if Ascii.eqb c delim then (EmptyString, r)
      else let (tok, rest) := split_at delim r in (String c tok, rest)
  | EmptyString => (EmptyString, EmptyString)
  end.

Definition getline (delim : ascii) (s : string) : option (string * string) :=
  match s with
  | EmptyString => None
  | _ => Some (split_at delim s)
  end.

(** Optional sign in front of a number: the sign and the text after it. *)
Definition read_sign (s : string) : bool * string :=
  match s with
  | String "-" r => (true, r)
  | String "+" r => (false, r)
  | _ => (false, s)
  end.

(** [std::stoi(s)]: leading white space, an optional sign, then decimal
    digits; what follows the digits is ignored.  No digit:
    [std::invalid_argument].  Value outside [int]: [std::out_of_range]. *)
Definition stoi (s : string) : outcome Z :=
  let (neg, body) := read_sign (skip_while isspace s) in
  match take_while isdigit body with
  | EmptyString => Throws invalid_argument
  | ds =>
      let v := digits_value 0 ds in
      let v := if neg then - v else v in
      if in_int v then Returns v else Throws out_of_range
  end.

(** [stream << n] for an [int]. *)
Definition to_string (n : Z) : string := NilZero.string_of_int (Z.to_int n).

(** An [std::istringstream] read with [>>]: the text left and the fail bit. *)
Record istream : Type := mk_istream { is_buf : string; is_fail : bool }.

(** [stream >> n] for an [int] holding [old].  A stream that already failed
    leaves [n] alone, and so does one with nothing but white space left.
    No digit stores 0; a value outside [int] stores the nearest bound; both
    set the fail bit. *)
Definition extract_int (st : istream) (old : Z) : istream * Z :=
  if is_fail st then (st, old)
  else
    match skip_while isspace (is_buf st) with
    | EmptyString => (mk_istream EmptyString true, old)
    | s =>
        let (neg, body) := read_sign s in
        match take_while isdigit body with
        | EmptyString => (mk_istream body true, 0)
        | ds =>
            let v := digits_value 0 ds in
            let v := if neg then - v else v in
            let rest := skip_while isdigit body in
            if v <? INT_MIN then (mk_istream rest true, INT_MIN)
            else if INT_MAX <? v then (mk_istream rest true, INT_MAX)
            else (mk_istream rest false, v)
        end
    end.

(* ===================================================================== *)
(** ** food.h and data_manager.h: the data model *)
(* ===================================================================== *)

Record Food : Type := mkFood {
  name : string;
  calories : Z;
  carbs : Z;
  protein : Z;
  fat : Z;
  grams : Z
}.

(** [Food()] *)
Definition Food_default : Food := mkFood "" 0 0 0 0 0.

Module DailyGoals.
Record t : Type := mk { calories : Z; carbs : Z; protein : Z; fat : Z }.
End DailyGoals.

Record DailyRecord : Type := mkDailyRecord {
  date : string;
  foods : list Food
}.

Record DataManager : Type := mkDataManager {
  dailyGoals : DailyGoals.t;
  records : list DailyRecord;
  firstRun : bool
}.

(** [DataManager::DataManager()] *)
Definition DataManager_new : DataManager :=
  mkDataManager (DailyGoals.mk 2000 250 150 70) [] false.

Definition setDailyGoals (goals : DailyGoals.t) (dm : DataManager) : DataManager :=
  mkDataManager goals (records dm) (firstRun dm).

Definition getDailyGoals (dm : DataManager) : DailyGoals.t := dailyGoals dm.

(** Position of the first record with the given date. *)
Fixpoint find_record (d : string) (rs : list DailyRecord) : option nat :=
  match rs with
  | [] => None
  | r :: rest =>
      if String.eqb (date r) d then Some O
      else option_map S (find_record d rest)
  end.

(** [DataManager::getRecord]: the record of that date, appended empty when
    there is none.  The reference it returns is the record's position. *)
Definition getRecord (d : string) (dm : DataManager) : DataManager * nat :=
  match find_record d (records dm) with
  | Some i => (dm, i)
  | None =>
      (mkDataManager (dailyGoals dm) (records dm ++ [mkDailyRecord d []]) (firstRun dm),
       List.length (records dm))
  end.

(** The foods behind a record reference. *)
Definition foods_at (i : nat) (dm : DataManager) : list Food :=
  match nth_error (records dm) i with
  | Some r => foods r
  | None => []
  end.

Fixpoint update_nth {A : Type} (i : nat) (f : A -> A) (l : list A) : list A :=
  match i, l with
  | O, x :: r => f x :: r
  | S i', x :: r => x :: update_nth i' f r
  | _, [] => []
  end.

(** Assignment to [record.foods] through a record reference. *)
Definition set_foods_at (i : nat) (fs : list Food) (dm : DataManager) : DataManager :=
  mkDataManager (dailyGoals dm)
    (update_nth i (fun r => mkDailyRecord (date r) fs) (records dm))
    (firstRun dm).

(* ===================================================================== *)
(** ** data_manager.cpp: persistence *)
(* ===================================================================== *)

(** The file [DATA_FILE] as the program sees it: its text when it exists
    (as a text-mode stream delivers it), and whether it can be opened for
    writing. *)
Record Disk : Type := mkDisk { content : option string; writable : bool }.

(** The lines that [while (std::getline(inFile, line))] goes through. *)
Fixpoint file_lines (s : string) : list string :=
  match s with
  | EmptyString => []
  | String c r =>
      if Ascii.eqb c newline then EmptyString :: file_lines r
      else match file_lines r with
           | [] => [String c EmptyString]
           | l :: ls => String c l :: ls
           end
  end.

(** One [if (std::getline(iss, token, '|')) field = ...;] of the food
    parser: [store] is the assignment, [st] the food so far and the text
    left in [iss]. *)
Definition food_field (store : Food -> string -> outcome Food)
    (st : Food * string) : outcome (Food * string) :=
  let (food, iss) := st in
  match getline "|" iss with
  | Some (token, rest) => food' <- store food token ;; Returns (food', rest)
  | None => Returns (food, EmptyString)
  end.

Definition store_name (f : Food) (token : string) : outcome Food :=
  Returns (mkFood token (calories f) (carbs f) (protein f) (fat f) (grams f)).
Definition store_calories (f : Food) (token : string) : outcome Food :=
  v <- stoi token ;; Returns (mkFood (name f) v (carbs f) (protein f) (fat f) (grams f)).
Definition store_carbs (f : Food) (token : string) : outcome Food :=
  v <- stoi token ;; Returns (mkFood (name f) (calories f) v (protein f) (fat f) (grams f)).
Definition store_protein (f : Food) (token : string) : outcome Food :=
  v <- stoi token ;; Returns (mkFood (name f) (calories f) (carbs f) v (fat f) (grams f)).
Definition store_fat (f : Food) (token : string) : outcome Food :=
  v <- stoi token ;; Returns (mkFood (name f) (calories f) (carbs f) (protein f) v (grams f)).
Definition store_grams (f : Food) (token : string) : outcome Food :=
  v <- stoi token ;; Returns (mkFood (name f) (calories f) (carbs f) (protein f) (fat f) v).

(** The body of the [FOOD:] branch up to [push_back]: [foodStr] is the
    line without its label. *)
Definition parse_food (foodStr : string) : outcome Food :=
  st <- food_field store_name (Food_default, foodStr) ;;
  st <- food_field store_calories st ;;
  st <- food_field store_carbs st ;;
  st <- food_field store_protein st ;;
  st <- food_field store_fat st ;;
  st <- food_field store_grams st ;;
  Returns (fst st).

(** The body of the [DAILY_GOALS:] branch. *)
Definition parse_goals (goalsStr : string) (g : DailyGoals.t) : DailyGoals.t :=
  let iss := mk_istream (replace_char "," " " goalsStr) false in
  let (iss, cal) := extract_int iss (DailyGoals.calories g) in
  let (iss, cb) := extract_int iss (DailyGoals.carbs g) in
  let (iss, pr) := extract_int iss (DailyGoals.protein g) in
  let (iss, ft) := extract_int iss (DailyGoals.fat g) in
  DailyGoals.mk cal cb pr ft.

(** [dateStr.erase(0, dateStr.find_first_not_of(" \t"))] *)
Definition trim_leading (s : string) : string :=
  skip_while (fun c => Ascii.eqb c " " || Ascii.eqb c tab) s.

(** [currentRecord->foods.push_back(food)] *)
Definition push_food (i : nat) (food : Food) (dm : DataManager) : DataManager :=
  set_foods_at i (foods_at i dm ++ [food]) dm.

(** One turn of the reading loop of [loadData]; the state is the manager
    and [currentRecord] ([None] is [nullptr]). *)
Definition load_line (line : string) (st : DataManager * option nat)
    : outcome (DataManager * option nat) :=
  let (dm, currentRecord) := st in
  if starts_with "DAILY_GOALS:" line then
    let goals := parse_goals (substr_from 12 line) (dailyGoals dm) in
    Returns (setDailyGoals goals dm, currentRecord)
  else if starts_with "DATE:" line then
    let dateStr := trim_leading (substr_from 5 line) in
    let (dm', i) := getRecord dateStr dm in
    Returns (dm', Some i)
  else if starts_with "FOOD:" line then
    match currentRecord with
    | Some i =>
        food <- parse_food (substr_from 5 line) ;;
        Returns (push_food i food dm, currentRecord)
    | None => Returns st
    end
  else Returns st.

Fixpoint load_lines (ls : list string) (st : DataManager * option nat)
    : outcome (DataManager * option nat) :=
  match ls with
  | [] => Returns st
  | line :: rest => st' <- load_line line st ;; load_lines rest st'
  end.

(** [DataManager::loadData] *)
Definition loadData (disk : Disk) (dm : DataManager) : outcome (bool * DataManager) :=
  match content disk with
  | None => Returns (false, mkDataManager (dailyGoals dm) (records dm) true)
  | Some text =>
      st <- load_lines (file_lines text) (dm, None) ;;
      Returns (true, fst st)
  end.

Definition endl : string := String newline EmptyString.

Definition food_text (f : Food) : string :=
  "FOOD: " ++ name f ++ "|" ++ to_string (calories f) ++ "|"
    ++ to_string (carbs f) ++ "|" ++ to_string (protein f) ++ "|"
    ++ to_string (fat f) ++ "|" ++ to_string (grams f) ++ endl.

Definition record_text (r : DailyRecord) : string :=
  "DATE: " ++ date r ++ endl ++ String.concat "" (map food_text (foods r)).

Definition goals_text (g : DailyGoals.t) : string :=
  "DAILY_GOALS: " ++ to_string (DailyGoals.calories g) ++ ","
    ++ to_string (DailyGoals.carbs g) ++ "," ++ to_string (DailyGoals.protein g) ++ ","
    ++ to_string (DailyGoals.fat g) ++ endl.

(** What [saveData] writes. *)
Definition save_text (dm : DataManager) : string :=
  goals_text (dailyGoals dm) ++ String.concat "" (map record_text (records dm)).

(** [DataManager::saveData]: the file is replaced as a whole. *)
Definition saveData (dm : DataManager) (disk : Disk) : bool * Disk :=
  if writable disk then (true, mkDisk (Some (save_text dm)) true)
  else (false, disk).

(** The public mutations of the store: goals, record creation, and the
    three changes the interface makes to a record's foods. *)
Inductive mutation : Type :=
| SetGoals (g : DailyGoals.t)
| GetRecord (d : string)
| AddFood (d : string) (f : Food)
| EditFood (d : string) (i : nat) (f : Food)
| DeleteFood (d : string) (i : nat).

Fixpoint erase_nth {A : Type} (i : nat) (l : list A) : list A :=
  match i, l with
  | O, _ :: r => r
  | S i', x :: r => x :: erase_nth i' r
  | _, [] => []
  end.

Definition apply_mutation (m : mutation) (dm : DataManager) : DataManager :=
  match m with
  | SetGoals g => setDailyGoals g dm
  | GetRecord d => fst (getRecord d dm)
  | AddFood d f => let (dm', i) := getRecord d dm in push_food i f dm'
  | EditFood d i f =>
      let (dm', r) := getRecord d dm in
      set_foods_at r (update_nth i (fun _ => f) (foods_at r dm')) dm'
  | DeleteFood d i =>
      let (dm', r) := getRecord d dm in
      set_foods_at r (erase_nth i (foods_at r dm')) dm'
  end.

Definition build (ms : list mutation) : DataManager :=
  fold_left (fun dm m => apply_mutation m dm) ms DataManager_new.

(** [save(); load()] into a fresh manager. *)
Definition save_then_load (dm : DataManager) : outcome (bool * DataManager) :=
  let (_, disk) := saveData dm (mkDisk None true) in
  loadData disk DataManager_new.

Definition apple : Food := mkFood "Apple" 52 14 0 0 100.
Definition one_apple : DataManager := build [AddFood "01/01/2025" apple].
Definition malformed_store : string :=
  "DATE: 01/01/2025" ++ endl ++ "FOOD: Apple|abc|10|0|0|100" ++ endl.


(* ===================================================================== *)
(** ** The C runtime calls the interface relies on *)
(* ===================================================================== *)

(** Calendar arithmetic of [mktime] and [localtime_s], taken on the
    proleptic Gregorian calendar in a time zone with a fixed offset: a day
    is a count of days since 1 January 1970, and one day is 86400 seconds
    of [time_t]. *)
Definition days_from_civil (y m d : Z) : Z :=
  let y := if m <=? 2 then y - 1 else y in
  let era := y / 400 in
  let yoe := y - era * 400 in
  let mp := (m + 9) mod 12 in
  let doy := (153 * mp + 2) / 5 + d - 1 in
  let doe := yoe * 365 + yoe / 4 - yoe / 100 + doy in
  era * 146097 + doe - 719468.

Definition civil_from_days (z : Z) : Z * Z * Z :=
  let z := z + 719468 in
  let era := z / 146097 in
  let doe := z - era * 146097 in
  let yoe := (doe - doe / 1460 + doe / 36524 - doe / 146096) / 365 in
  let doy := doe - (365 * yoe + yoe / 4 - yoe / 100) in
  let mp := (5 * doy + 2) / 153 in
  let d := doy - (153 * mp + 2) / 5 + 1 in
  let m := if mp <? 10 then mp + 3 else mp - 9 in
  let y := yoe + era * 400 in
  (if m <=? 2 then y + 1 else y, m, d).

(** The fields of [struct tm] the program sets or reads; the time of day
    stays at midnight. *)
Record tm : Type := mk_tm { tm_mday : Z; tm_mon : Z; tm_year : Z; tm_wday : Z }.

(** [tm t = {}; t.tm_mday = d; t.tm_mon = m; t.tm_year = y;] *)
Definition tm_of (mday mon year : Z) : tm := mk_tm mday mon year 0.

(** Day number of a [tm] whose fields may be out of their usual range. *)
Definition tm_days (t : tm) : Z :=
  let y := tm_year t + 1900 + tm_mon t / 12 in
  let m := tm_mon t mod 12 + 1 in
  days_from_civil y m 1 + (tm_mday t - 1).

(** [localtime_s(&t, &time)] *)
Definition localtime (time : Z) : tm :=
  let days := time / 86400 in
  let '(y, m, d) := civil_from_days days in
  mk_tm d (m - 1) (y - 1900) ((days + 4) mod 7).

(** [mktime(&t)]: the value returned and the normalised [t]. *)
Definition mktime (t : tm) : Z * tm :=
  let time := tm_days t * 86400 in
  (time, localtime time).

(** One [%d] of [sscanf_s]: white space, optional sign, digits.  [None]
    when there is no digit or the value does not fit an [int]. *)
Definition scan_int (s : string) : option (Z * string) :=
  let (neg, body) := read_sign (skip_while isspace s) in
  match take_while isdigit body with
  | EmptyString => None
  | ds =>
      let v := digits_value 0 ds in
      let v := if neg then - v else v in
      if in_int v then Some (v, skip_while isdigit body) else None
  end.

Definition scan_char (c : ascii) (s : string) : option string :=
  match s with
  | String c' r => if Ascii.eqb c c' then Some r else None
  | EmptyString => None
  end.

(** [sscanf_s(s, "%d/%d/%d", &day, &month, &year)] when all three
    conversions succeed. *)
Definition sscanf_date (s : string) : option (Z * Z * Z) :=
  match scan_int s with
  | Some (d, s) =>
      match scan_char "/" s with
      | Some s =>
          match scan_int s with
          | Some (m, s) =>
              match scan_char "/" s with
              | Some s =>
                  match scan_int s with
                  | Some (y, _) => Some (d, m, y)
                  | None => None
                  end
              | None => None
              end
          | None => None
          end
      | None => None
      end
  | None => None
  end.

(** The callers declare [int day, month, year;] without a value, so a
    scan that converts fewer than three fields leaves them unset. *)
Definition read_date (s : string) : outcome (Z * Z * Z) :=
  match sscanf_date s with
  | Some dmy => Returns dmy
  | None => Stops
  end.

Fixpoint zeros (n : nat) : string :=
  match n with
  | O => EmptyString
  | S n' => String "0" (zeros n')
  end.

(** [%0wd] of [printf]: zero padding to width [w], the sign counted. *)
Definition fmt_0d (w : nat) (z : Z) : string :=
  if z <? 0 then
    let ds := to_string (- z) in
    String "-" (zeros (w - 1 - String.length ds) ++ ds)
  else
    let ds := to_string z in
    zeros (w - String.length ds) ++ ds.

(** [char buffer[11]; sprintf_s(buffer, "%02d/%02d/%04d", d, m, y);]
    The checked [sprintf_s] stops the process when the text and its
    terminator do not fit the buffer. *)
Definition format_date (d m y : Z) : outcome string :=
  let text := fmt_0d 2 d ++ "/" ++ fmt_0d 2 m ++ "/" ++ fmt_0d 4 y in
  if Nat.ltb (String.length text) 11 then Returns text else Stops.

(** First weekday and length of a month, as [renderCalendar] and
    [processCalendarInput] compute them. *)
Definition month_layout (month year : Z) : Z * Z :=
  let firstDay := snd (mktime (tm_of 1 (int_sub month 1) (int_sub year 1900))) in
  let nextMonth := mk_tm (tm_mday firstDay) (int_add (tm_mon firstDay) 1)
                         (tm_year firstDay) (tm_wday firstDay) in
  let nextMonth := snd (mktime nextMonth) in
  let firstOfNextMonth := fst (mktime nextMonth) in
  let lastDayTime := firstOfNextMonth - 86400 in
  let lastDay := localtime lastDayTime in
  (tm_wday firstDay, tm_mday lastDay).


(* ===================================================================== *)
(** ** constants.h and ui_manager.h: the interface state *)
(* ===================================================================== *)

Definition CONSOLE_WIDTH : Z := 80.
Definition CONSOLE_HEIGHT : Z := 24.
Definition maxNameLen : nat := 21.

Inductive UIState : Type := STATE_MAIN_MENU | STATE_CALENDAR.

Record UIManager : Type := mkUIManager {
  calendarOriginalDate : string;
  dataManager : DataManager;
  currentState : UIState;
  currentDate : string;
  selectedIndex : Z;
  menuItems : list string;
  foodScrollOffset : Z;
  totalCalories : Z;
  totalCarbs : Z;
  totalProtein : Z;
  totalFat : Z;
  selectedCalendarDay : Z
}.

(** [UIManager::UIManager(dm)]; [today] is the system date, already in the
    form ["DD/MM/YYYY"]. *)
Definition UIManager_new (dm : DataManager) (today : string) : UIManager :=
  mkUIManager "" dm STATE_MAIN_MENU today 0
    ["Add from templates"; "Add custom food"; "Calendar"; "Reset goals"]
    0 0 0 0 0 1.

Definition with_dataManager (dm : DataManager) (u : UIManager) : UIManager :=
  mkUIManager (calendarOriginalDate u) dm (currentState u) (currentDate u)
    (selectedIndex u) (menuItems u) (foodScrollOffset u) (totalCalories u)
    (totalCarbs u) (totalProtein u) (totalFat u) (selectedCalendarDay u).

Definition with_selectedIndex (i : Z) (u : UIManager) : UIManager :=
  mkUIManager (calendarOriginalDate u) (dataManager u) (currentState u) (currentDate u)
    i (menuItems u) (foodScrollOffset u) (totalCalories u)
    (totalCarbs u) (totalProtein u) (totalFat u) (selectedCalendarDay u).

Definition with_foodScrollOffset (o : Z) (u : UIManager) : UIManager :=
  mkUIManager (calendarOriginalDate u) (dataManager u) (currentState u) (currentDate u)
    (selectedIndex u) (menuItems u) o (totalCalories u)
    (totalCarbs u) (totalProtein u) (totalFat u) (selectedCalendarDay u).

Definition with_currentDate (d : string) (u : UIManager) : UIManager :=
  mkUIManager (calendarOriginalDate u) (dataManager u) (currentState u) d
    (selectedIndex u) (menuItems u) (foodScrollOffset u) (totalCalories u)
    (totalCarbs u) (totalProtein u) (totalFat u) (selectedCalendarDay u).

Definition with_currentState (s : UIState) (u : UIManager) : UIManager :=
  mkUIManager (calendarOriginalDate u) (dataManager u) s (currentDate u)
    (selectedIndex u) (menuItems u) (foodScrollOffset u) (totalCalories u)
    (totalCarbs u) (totalProtein u) (totalFat u) (selectedCalendarDay u).

Definition with_calendarOriginalDate (d : string) (u : UIManager) : UIManager :=
  mkUIManager d (dataManager u) (currentState u) (currentDate u)
    (selectedIndex u) (menuItems u) (foodScrollOffset u) (totalCalories u)
    (totalCarbs u) (totalProtein u) (totalFat u) (selectedCalendarDay u).

Definition with_selectedCalendarDay (d : Z) (u : UIManager) : UIManager :=
  mkUIManager (calendarOriginalDate u) (dataManager u) (currentState u) (currentDate u)
    (selectedIndex u) (menuItems u) (foodScrollOffset u) (totalCalories u)
    (totalCarbs u) (totalProtein u) (totalFat u) d.

Definition with_totals (cal cb pr ft : Z) (u : UIManager) : UIManager :=
  mkUIManager (calendarOriginalDate u) (dataManager u) (currentState u) (currentDate u)
    (selectedIndex u) (menuItems u) (foodScrollOffset u) cal cb pr ft
    (selectedCalendarDay u).

(** Everything the interface works on: its own state, the file-scope
    template list of ui_manager.cpp, the data file, the keys [_getch] is
    going to deliver, and [std::cin]. *)
Record World : Type := mkWorld {
  ui : UIManager;
  g_foodTemplates : list Food;
  disk : Disk;
  keys : list ascii;
  cin : istream
}.

Definition with_ui (u : UIManager) (w : World) : World :=
  mkWorld u (g_foodTemplates w) (disk w) (keys w) (cin w).
Definition with_templates (t : list Food) (w : World) : World :=
  mkWorld (ui w) t (disk w) (keys w) (cin w).
Definition with_disk (d : Disk) (w : World) : World :=
  mkWorld (ui w) (g_foodTemplates w) d (keys w) (cin w).
Definition with_keys (k : list ascii) (w : World) : World :=
  mkWorld (ui w) (g_foodTemplates w) (disk w) k (cin w).
Definition with_cin (c : istream) (w : World) : World :=
  mkWorld (ui w) (g_foodTemplates w) (disk w) (keys w) c.

(** [dataManager.saveData()] from the interface; the result is not looked
    at by any caller. *)
Definition save (w : World) : World :=
  with_disk (snd (saveData (dataManager (ui w)) (disk w))) w.

(** [_getch()] *)
Definition getch (w : World) : outcome (ascii * World) :=
  match keys w with
  | k :: ks => Returns (k, with_keys ks w)
  | [] => Waits
  end.

Fixpoint has_newline (s : string) : bool :=
  match s with
  | String c r => Ascii.eqb c newline || has_newline r
  | EmptyString => false
  end.

(** [std::string input; std::getline(std::cin, input);]
    A failed [std::cin] yields the empty text at once. *)
Definition cin_getline (w : World) : outcome (string * World) :=
  if is_fail (cin w) then Returns (EmptyString, w)
  else if has_newline (is_buf (cin w)) then
    let (input, rest) := split_at newline (is_buf (cin w)) in
    Returns (input, with_cin (mk_istream rest false) w)
  else Waits.

(** [int grams; std::cin >> grams;] *)
Definition cin_int (w : World) : outcome (Z * World) :=
  if is_fail (cin w) then Stops
  else
    let (_, body) := read_sign (skip_while isspace (is_buf (cin w))) in
    match skip_while isdigit body with
    | EmptyString => Waits
    | _ =>
        let (c, v) := extract_int (cin w) 0 in
        Returns (v, with_cin c w)
    end.

(** A loop of the form [while (...) { draw; key = _getch(); body }]:
    [body] yields the locals for the next turn, or [None] when it leaves
    the loop.  A turn takes one key, so [fuel] bounds the turns by the
    number of keys at hand. *)
Fixpoint key_loop {S : Type}
    (body : ascii -> S -> World -> outcome (World * option S))
    (fuel : nat) (st : S) (w : World) : outcome World :=
  match fuel with
  | O => Waits
  | Datatypes.S fuel' =>
      '(key, w) <- getch w ;;
      '(w, next) <- body key st w ;;
      match next with
      | Some st' => key_loop body fuel' st' w
      | None => Returns w
      end
  end.

(* ===================================================================== *)
(** ** ui_manager.cpp: the forms *)
(* ===================================================================== *)

Definition key_is (key : ascii) (c : ascii) : bool := Ascii.eqb key c.

Definition empty (s : string) : bool :=
  match s with EmptyString => true | _ => false end.

(** [(s.empty() ? "<empty>" : s)] *)
Definition or_empty (s : string) : string :=
  if empty s then "<empty>" else s.

(** [if (input.size() > maxNameLen) v = input.substr(0, maxNameLen);
     else v = input;] *)
Definition clip_name (input : string) : string :=
  if Nat.ltb maxNameLen (String.length input) then substr_to maxNameLen input
  else input.

(** The locals of [handleEditFood] and of [handleAddCustomFood]. *)
Module FoodForm.
Record t : Type := mk {
  localSelection : Z;
  foodName : string;
  calories : Z;
  carbs : Z;
  protein : Z;
  fat : Z;
  grams : Z
}.

Definition with_localSelection (i : Z) (f : t) : t :=
  mk i (foodName f) (calories f) (carbs f) (protein f) (fat f) (grams f).
Definition with_foodName (n : string) (f : t) : t :=
  mk (localSelection f) n (calories f) (carbs f) (protein f) (fat f) (grams f).

(** [switch (localSelection) { case 1: calories = value; break; ... }] *)
Definition assign (value : Z) (f : t) : t :=
  let i := localSelection f in
  if i =? 1 then mk i (foodName f) value (carbs f) (protein f) (fat f) (grams f)
  else if i =? 2 then mk i (foodName f) (calories f) value (protein f) (fat f) (grams f)
  else if i =? 3 then mk i (foodName f) (calories f) (carbs f) value (fat f) (grams f)
  else if i =? 4 then mk i (foodName f) (calories f) (carbs f) (protein f) value (grams f)
  else if i =? 5 then mk i (foodName f) (calories f) (carbs f) (protein f) (fat f) value
  else f.

(** What both forms do with the line read for the selected field. *)
Definition capture (input : string) (f : t) : outcome t :=
  if negb (empty input) then
    if localSelection f =? 0 then Returns (with_foodName (clip_name input) f)
    else
      try_catch
        (value <- stoi input ;; Returns (assign value f))
        (Returns f)
  else Returns f.

(** [j] and [k] over the six fields and the button. *)
Definition next (f : t) : t :=
  let i := int_add (localSelection f) 1 in
  with_localSelection (if 6 <? i then 0 else i) f.
Definition prev (f : t) : t :=
  let i := int_sub (localSelection f) 1 in
  with_localSelection (if i <? 0 then 6 else i) f.
End FoodForm.

(** One turn of the loop of [handleEditFood], after [_getch]. *)
Definition editFood_turn (record : nat) (foodIndex : nat)
    (key : ascii) (f : FoodForm.t) (w : World)
    : outcome (World * option FoodForm.t) :=
  if key_is key "j" then Returns (w, Some (FoodForm.next f))
  else if key_is key "k" then Returns (w, Some (FoodForm.prev f))
  else if key_is key cr then
    let i := FoodForm.localSelection f in
    if (0 <=? i) && (i <? 6) then
      '(input, w) <- cin_getline w ;;
      f' <- FoodForm.capture input f ;;
      Returns (w, Some f')
    else if i =? 6 then
      let dm := dataManager (ui w) in
      let edited := mkFood (or_empty (FoodForm.foodName f)) (FoodForm.calories f)
                      (FoodForm.carbs f) (FoodForm.protein f) (FoodForm.fat f)
                      (FoodForm.grams f) in
      let dm := set_foods_at record
                  (update_nth foodIndex (fun _ => edited) (foods_at record dm)) dm in
      Returns (save (with_ui (with_dataManager dm (ui w)) w), None)
    else Returns (w, Some f)
  else if key_is key "q" then Returns (w, None)
  else Returns (w, Some f).

(** [UIManager::handleEditFood] *)
Definition handleEditFood (foodIndex : Z) (w : World) : outcome World :=
  let (dm, record) := getRecord (currentDate (ui w)) (dataManager (ui w)) in
  let w := with_ui (with_dataManager dm (ui w)) w in
  let fs := foods_at record dm in
  if (foodIndex <? 0) || (Z.of_nat (List.length fs) <=? foodIndex) then Returns w
  else
    match nth_error fs (Z.to_nat foodIndex) with
    | None => Returns w
    | Some foodToEdit =>
        let f := FoodForm.mk 0 (name foodToEdit) (calories foodToEdit)
                   (carbs foodToEdit) (protein foodToEdit) (fat foodToEdit)
                   (grams foodToEdit) in
        key_loop (editFood_turn record (Z.to_nat foodIndex))
          (List.length (keys w)) f w
    end.

(** [(v == -1 ? 0 : v)] *)
Definition unset_as_zero (v : Z) : Z := if v =? -1 then 0 else v.

(** One turn of the loop of [handleAddCustomFood], after [_getch]. *)
Definition addCustomFood_turn (key : ascii) (f : FoodForm.t) (w : World)
    : outcome (World * option FoodForm.t) :=
  if key_is key "j" then Returns (w, Some (FoodForm.next f))
  else if key_is key "k" then Returns (w, Some (FoodForm.prev f))
  else if key_is key cr then
    let i := FoodForm.localSelection f in
    if (0 <=? i) && (i <? 6) then
      '(input, w) <- cin_getline w ;;
      f' <- FoodForm.capture input f ;;
      Returns (w, Some f')
    else if i =? 6 then
      let added := mkFood (or_empty (FoodForm.foodName f))
                     (unset_as_zero (FoodForm.calories f))
                     (unset_as_zero (FoodForm.carbs f))
                     (unset_as_zero (FoodForm.protein f))
                     (unset_as_zero (FoodForm.fat f))
                     (unset_as_zero (FoodForm.grams f)) in
      let (dm, record) := getRecord (currentDate (ui w)) (dataManager (ui w)) in
      let dm := push_food record added dm in
      Returns (save (with_ui (with_dataManager dm (ui w)) w), None)
    else Returns (w, Some f)
  else if key_is key "q" then Returns (w, None)
  else Returns (w, Some f).

(** [UIManager::handleAddCustomFood] *)
Definition handleAddCustomFood (w : World) : outcome World :=
  key_loop addCustomFood_turn (List.length (keys w))
    (FoodForm.mk 0 "" (-1) (-1) (-1) (-1) (-1)) w.

(** The locals of [handleStartGoals] and of [handleResetGoals]. *)
Module GoalsForm.
Record t : Type := mk { localSelection : Z; fieldValues : list Z }.

(** [fieldValues[localSelection] = value] *)
Definition assign (value : Z) (f : t) : t :=
  mk (localSelection f)
     (update_nth (Z.to_nat (localSelection f)) (fun _ => value) (fieldValues f)).

Definition field (i : nat) (f : t) : Z := nth i (fieldValues f) 0.

Definition next (f : t) : t :=
  let i := int_add (localSelection f) 1 in
  mk (if 4 <? i then 0 else i) (fieldValues f).
Definition prev (f : t) : t :=
  let i := int_sub (localSelection f) 1 in
  mk (if i <? 0 then 4 else i) (fieldValues f).

(** The line read for a field in [handleStartGoals]. *)
Definition capture_start (input : string) (f : t) : outcome t :=
  if negb (empty input) then
    try_catch
      (value <- stoi input ;; Returns (assign value f))
      (Returns (assign 0 f))
  else Returns (assign 0 f).

(** The line read for a field in [handleResetGoals]. *)
Definition capture_reset (input : string) (f : t) : outcome t :=
  if negb (empty input) then
    try_catch
      (value <- stoi input ;; Returns (assign value f))
      (Returns f)
  else Returns f.

(** [DailyGoals newGoals; newGoals.calories = fieldValues[0]; ...] *)
Definition goals (f : t) : DailyGoals.t :=
  DailyGoals.mk (field 0 f) (field 1 f) (field 2 f) (field 3 f).
End GoalsForm.

Definition goals_turn (capture : string -> GoalsForm.t -> outcome GoalsForm.t)
    (key : ascii) (f : GoalsForm.t) (w : World)
    : outcome (World * option GoalsForm.t) :=
  if key_is key "j" then Returns (w, Some (GoalsForm.next f))
  else if key_is key "k" then Returns (w, Some (GoalsForm.prev f))
  else if key_is key cr then
    if GoalsForm.localSelection f <? 4 then
      '(input, w) <- cin_getline w ;;
      f' <- capture input f ;;
      Returns (w, Some f')
    else
      let dm := setDailyGoals (GoalsForm.goals f) (dataManager (ui w)) in
      Returns (save (with_ui (with_dataManager dm (ui w)) w), None)
  else if key_is key "q" then Returns (w, None)
  else Returns (w, Some f).

(** One turn of the loop of [handleStartGoals], after [_getch]. *)
Definition startGoals_turn := goals_turn GoalsForm.capture_start.

(** One turn of the loop of [handleResetGoals], after [_getch]. *)
Definition resetGoals_turn := goals_turn GoalsForm.capture_reset.

(** [UIManager::handleStartGoals] *)
Definition handleStartGoals (w : World) : outcome World :=
  key_loop startGoals_turn (List.length (keys w)) (GoalsForm.mk 0 [0; 0; 0; 0]) w.

(** [UIManager::handleResetGoals] *)
Definition handleResetGoals (w : World) : outcome World :=
  let g := getDailyGoals (dataManager (ui w)) in
  key_loop resetGoals_turn (List.length (keys w))
    (GoalsForm.mk 0 [DailyGoals.calories g; DailyGoals.carbs g;
                     DailyGoals.protein g; DailyGoals.fat g]) w.

(** [a < b] on [std::string]: lexicographic on character codes. *)
Fixpoint string_ltb (a b : string) : bool :=
  match a, b with
  | _, EmptyString => false
  | EmptyString, String _ _ => true
  | String x a', String y b' =>
      let nx := nat_of_ascii x in
      let ny := nat_of_ascii y in
      if Nat.ltb nx ny then true
      else if Nat.ltb ny nx then false
      else string_ltb a' b'
  end.

(** [hay.find(needle) != std::string::npos] *)
Fixpoint contains (needle hay : string) : bool :=
  String.prefix needle hay ||
  match hay with
  | String _ r => contains needle r
  | EmptyString => false
  end.

(** [s.pop_back()] on a text that is not empty. *)
Fixpoint pop_back (s : string) : string :=
  match s with
  | EmptyString => EmptyString
  | String _ EmptyString => EmptyString
  | String c r => String c (pop_back r)
  end.

(** [s.push_back(c)] *)
Definition push_back (c : ascii) (s : string) : string := s ++ String c EmptyString.

Fixpoint insert_by_name (f : Food) (l : list Food) : list Food :=
  match l with
  | [] => [f]
  | g :: r => if string_ltb (name f) (name g) then f :: l else g :: insert_by_name f r
  end.

(** [std::sort] of the templates by [a.name < b.name].  Entries of equal
    name keep their order here; [std::sort] itself leaves that order to
    the implementation. *)
Definition sort_by_name (l : list Food) : list Food :=
  fold_left (fun acc f => insert_by_name f acc) l [].

(** The locals of the "create new template" loop inside
    [handleAddFromTemplate]. *)
Module TemplateForm.
Record t : Type := mk {
  editSelection : Z;
  tplName : string;
  cal : Z;
  carbs : Z;
  prot : Z;
  fat : Z
}.

Definition with_editSelection (i : Z) (f : t) : t :=
  mk i (tplName f) (cal f) (carbs f) (prot f) (fat f).

(** [switch (editSelection) { case 1: cal = value; break; ... }] *)
Definition assign (value : Z) (f : t) : t :=
  let i := editSelection f in
  if i =? 1 then mk i (tplName f) value (carbs f) (prot f) (fat f)
  else if i =? 2 then mk i (tplName f) (cal f) value (prot f) (fat f)
  else if i =? 3 then mk i (tplName f) (cal f) (carbs f) value (fat f)
  else if i =? 4 then mk i (tplName f) (cal f) (carbs f) (prot f) value
  else f.

(** The line read for the selected field. *)
Definition capture (input : string) (f : t) : outcome t :=
  if editSelection f =? 0 then
    Returns (mk (editSelection f) input (cal f) (carbs f) (prot f) (fat f))
  else
    try_catch
      (value <- stoi input ;; Returns (assign value f))
      (Returns f).

Definition next (f : t) : t :=
  let i := int_add (editSelection f) 1 in
  with_editSelection (if 5 <? i then 0 else i) f.
Definition prev (f : t) : t :=
  let i := int_sub (editSelection f) 1 in
  with_editSelection (if i <? 0 then 5 else i) f.
End TemplateForm.

(** One turn of the "create new template" loop, after [_getch]. *)
Definition createTemplate_turn (key : ascii) (f : TemplateForm.t) (w : World)
    : outcome (World * option TemplateForm.t) :=
  if key_is key "j" then Returns (w, Some (TemplateForm.next f))
  else if key_is key "k" then Returns (w, Some (TemplateForm.prev f))
  else if key_is key cr then
    if TemplateForm.editSelection f <? 5 then
      '(input, w) <- cin_getline w ;;
      f' <- TemplateForm.capture input f ;;
      Returns (w, Some f')
    else
      let newTpl := mkFood (TemplateForm.tplName f) (TemplateForm.cal f)
                      (TemplateForm.carbs f) (TemplateForm.prot f)
                      (TemplateForm.fat f) 0 in
      Returns (with_templates (sort_by_name (g_foodTemplates w ++ [newTpl])) w, None)
  else if key_is key "q" then Returns (w, None)
  else Returns (w, Some f).

(** The food made from a template and a portion in grams. *)
Definition instantiate (selectedTemplate : Food) (grams : Z) : Food :=
  mkFood (name selectedTemplate)
    (int_div (int_mul (calories selectedTemplate) grams) 100)
    (int_div (int_mul (carbs selectedTemplate) grams) 100)
    (int_div (int_mul (protein selectedTemplate) grams) 100)
    (int_div (int_mul (fat selectedTemplate) grams) 100)
    grams.

(** The locals of the outer loop of [handleAddFromTemplate]. *)
Module Picker.
Record t : Type := mk {
  searchTerm : string;
  localSelection : Z;
  searchEditing : bool;
  templateScrollOffset : Z
}.
End Picker.

Definition visibleRows : Z :=
  let midY := int_div CONSOLE_HEIGHT 2 in
  let popUpTop := int_sub midY 4 in
  int_sub (int_sub CONSOLE_HEIGHT popUpTop) 6.

(** The templates whose name contains the search term. *)
Definition matching (searchTerm : string) (templates : list Food) : list Food :=
  filter (fun tpl => contains searchTerm (name tpl)) templates.

(** The scroll adjustment made while the list is drawn. *)
Definition picker_scroll (p : Picker.t) : Picker.t :=
  if 2 <=? Picker.localSelection p then
    let relSelection := int_sub (Picker.localSelection p) 2 in
    if relSelection <? Picker.templateScrollOffset p then
      Picker.mk (Picker.searchTerm p) (Picker.localSelection p)
        (Picker.searchEditing p) relSelection
    else if visibleRows <=? relSelection then
      Picker.mk (Picker.searchTerm p) (Picker.localSelection p)
        (Picker.searchEditing p) (int_add (int_sub relSelection visibleRows) 1)
    else p
  else p.

(** The keys handled while the search button is focused; [None] when the
    turn goes on to the common key handling. *)
Definition picker_search (key : ascii) (p : Picker.t) : option Picker.t :=
  if Picker.localSelection p =? 0 then
    if negb (Picker.searchEditing p) then
      if key_is key cr then
        Some (Picker.mk (Picker.searchTerm p) (Picker.localSelection p) true
                (Picker.templateScrollOffset p))
      else if key_is key "j" || key_is key "k" || key_is key "x" || key_is key "q"
      then None
      else Some p
    else
      if key_is key cr then
        Some (Picker.mk (Picker.searchTerm p) (Picker.localSelection p) false
                (Picker.templateScrollOffset p))
      else if key_is key "008" then
        Some (Picker.mk
                (if negb (empty (Picker.searchTerm p))
                 then pop_back (Picker.searchTerm p) else Picker.searchTerm p)
                (Picker.localSelection p) (Picker.searchEditing p)
                (Picker.templateScrollOffset p))
      else if Nat.leb 32 (nat_of_ascii key) && Nat.leb (nat_of_ascii key) 126 then
        Some (Picker.mk (push_back key (Picker.searchTerm p))
                (Picker.localSelection p) (Picker.searchEditing p)
                (Picker.templateScrollOffset p))
      else Some p
  else None.

(** One turn of the outer loop of [handleAddFromTemplate], after
    [_getch]. *)
Definition addFromTemplate_turn (key : ascii) (p : Picker.t) (w : World)
    : outcome (World * option Picker.t) :=
  let matches := matching (Picker.searchTerm p) (g_foodTemplates w) in
  let totalOptions := int_add 2 (wrap (Z.of_nat (List.length matches))) in
  let p := picker_scroll p in
  match picker_search key p with
  | Some p' => Returns (w, Some p')
  | None =>
      let sel := Picker.localSelection p in
      let off := Picker.templateScrollOffset p in
      if key_is key "j" then
        let sel' := int_add sel 1 in
        Returns (w, Some (Picker.mk (Picker.searchTerm p)
                            (if totalOptions <=? sel' then 0 else sel')
                            (Picker.searchEditing p) off))
      else if key_is key "k" then
        Returns (w, Some (Picker.mk (Picker.searchTerm p)
                            (if 0 <? sel then int_sub sel 1 else int_sub totalOptions 1)
                            (Picker.searchEditing p) off))
      else if key_is key cr then
        if sel =? 0 then Returns (w, Some p)
        else if sel =? 1 then
          w <- key_loop createTemplate_turn (List.length (keys w))
                 (TemplateForm.mk 0 "" 0 0 0 0) w ;;
          Returns (w, Some (Picker.mk (Picker.searchTerm p) 2
                              (Picker.searchEditing p) off))
        else
          let templateIndex := int_add (int_sub sel 2) off in
          if (0 <=? templateIndex)
             && (templateIndex <? wrap (Z.of_nat (List.length matches))) then
            match nth_error matches (Z.to_nat templateIndex) with
            | Some selectedTemplate =>
                '(grams, w) <- cin_int w ;;
                let newFood := instantiate selectedTemplate grams in
                let (dm, record) := getRecord (currentDate (ui w)) (dataManager (ui w)) in
                let dm := push_food record newFood dm in
                let w := save (with_ui (with_dataManager dm (ui w)) w) in
                '(_, w) <- getch w ;;
                Returns (w, None)
            | None => Returns (w, Some p)
            end
          else Returns (w, Some p)
      else if key_is key "x" then
        if 2 <=? sel then
          let index := int_add (int_sub sel 2) off in
          if (0 <=? index) && (index <? wrap (Z.of_nat (List.length matches))) then
            match nth_error matches (Z.to_nat index) with
            | Some m =>
                let kept := filter (fun tpl => negb (String.eqb (name tpl) (name m)))
                              (g_foodTemplates w) in
                Returns (with_templates kept w, Some (Picker.mk "" 0 (Picker.searchEditing p) 0))
            | None => Returns (w, Some p)
            end
          else Returns (w, Some p)
        else Returns (w, Some p)
      else if key_is key "q" then Returns (w, None)
      else Returns (w, Some p)
  end.

(** [UIManager::handleAddFromTemplate] *)
Definition handleAddFromTemplate (w : World) : outcome World :=
  key_loop addFromTemplate_turn (List.length (keys w)) (Picker.mk "" 0 false 0) w.

(* ===================================================================== *)
(** ** ui_manager.cpp: the main view *)
(* ===================================================================== *)

(** [UIManager::changeDateByOffset] *)
Definition changeDateByOffset (offset : Z) (u : UIManager) : outcome UIManager :=
  '(day, month, year) <- read_date (currentDate u) ;;
  let timeInfo := tm_of (int_add day offset) (int_sub month 1) (int_sub year 1900) in
  let timeInfo := snd (mktime timeInfo) in
  buffer <- format_date (tm_mday timeInfo) (int_add (tm_mon timeInfo) 1)
              (int_add (tm_year timeInfo) 1900) ;;
  Returns (with_currentDate buffer u).

(** [UIManager::updateTotals] *)
Definition updateTotals (u : UIManager) : UIManager :=
  let (dm, record) := getRecord (currentDate u) (dataManager u) in
  let fs := foods_at record dm in
  with_totals
    (fold_left (fun t f => int_add t (calories f)) fs 0)
    (fold_left (fun t f => int_add t (carbs f)) fs 0)
    (fold_left (fun t f => int_add t (protein f)) fs 0)
    (fold_left (fun t f => int_add t (fat f)) fs 0)
    (with_dataManager dm u).

(** The locals [processInput] and [renderMainMenu] compute before they
    look at anything else. *)
Record Layout : Type := mkLayout {
  menuCount : Z;
  foodCount : Z;
  visibleSlots : Z
}.

Definition totalSelectable (l : Layout) : Z := int_add (menuCount l) (foodCount l).

(** [static_cast<int>(v.size())] *)
Definition size_int {A : Type} (v : list A) : Z := wrap (Z.of_nat (List.length v)).

Definition layout_of (items : list string) (fs : list Food) : Layout :=
  let borderY := wrap (6 + Z.of_nat (List.length items)) in
  let slots := int_sub (int_sub CONSOLE_HEIGHT 4) borderY in
  mkLayout (size_int items) (size_int fs) (if slots <? 0 then 0 else slots).

(** The scroll clamp of [renderMainMenu]. *)
Definition render_clamp (l : Layout) (offset : Z) : Z :=
  let room := int_sub (foodCount l) (visibleSlots l) in
  if room <? offset then (if 0 <=? room then room else 0) else offset.

(** What [UIManager::renderMainMenu] does to the state; the drawing itself
    is left out. *)
Definition renderMainMenu (u : UIManager) : outcome UIManager :=
  _ <- read_date (currentDate u) ;;
  let u := updateTotals u in
  let (dm, record) := getRecord (currentDate u) (dataManager u) in
  let l := layout_of (menuItems u) (foods_at record dm) in
  Returns (with_foodScrollOffset (render_clamp l (foodScrollOffset u))
             (with_dataManager dm u)).

(** The ['j'] branch of [processInput] on [selectedIndex] and
    [foodScrollOffset]. *)
Definition press_j (l : Layout) (nav : Z * Z) : Z * Z :=
  let (sel, off) := nav in
  let sel :=
    if 0 <? totalSelectable l then
      if sel <? int_sub (totalSelectable l) 1 then int_add sel 1 else 0
    else sel in
  let off :=
    if menuCount l <=? sel then
      let foodIndex := int_sub sel (menuCount l) in
      if int_add (visibleSlots l) off <=? foodIndex
      then int_add (int_sub foodIndex (visibleSlots l)) 1
      else off
    else off in
  let off := if sel <? menuCount l then 0 else off in
  (sel, off).

(** The ['k'] branch of [processInput]. *)
Definition press_k (l : Layout) (nav : Z * Z) : Z * Z :=
  let (sel, off) := nav in
  let sel :=
    if 0 <? totalSelectable l then
      if 0 <? sel then int_sub sel 1 else int_sub (totalSelectable l) 1
    else sel in
  let off :=
    if menuCount l <=? sel then
      let foodIndex := int_sub sel (menuCount l) in
      let off := if foodIndex <? off then foodIndex else off in
      if sel =? int_sub (totalSelectable l) 1 then
        if visibleSlots l <? foodCount l
        then int_sub (foodCount l) (visibleSlots l)
        else 0
      else off
    else off in
  let off := if sel <? menuCount l then 0 else off in
  (sel, off).

(** The ['x'] branch of [processInput] on the foods of the day and
    [selectedIndex]; [None] when nothing is deleted. *)
Definition press_x (menuCount : Z) (fs : list Food) (sel : Z)
    : option (list Food * Z) :=
  if menuCount <=? sel then
    let foodIndex := int_sub sel menuCount in
    if (0 <=? foodIndex) && (foodIndex <? size_int fs) then
      let fs' := erase_nth (Z.to_nat foodIndex) fs in
      let sel' :=
        if int_add menuCount (size_int fs') <=? sel
        then int_sub (int_add menuCount (size_int fs')) 1
        else sel in
      Some (fs', sel')
    else None
  else None.

Definition set_nav (nav : Z * Z) (u : UIManager) : UIManager :=
  with_foodScrollOffset (snd nav) (with_selectedIndex (fst nav) u).

(** [UIManager::processInput] *)
Definition processInput (key : ascii) (w : World) : outcome World :=
  let (dm, record) := getRecord (currentDate (ui w)) (dataManager (ui w)) in
  let u := with_dataManager dm (ui w) in
  let w := with_ui u w in
  let fs := foods_at record dm in
  let l := layout_of (menuItems u) fs in
  match currentState u with
  | STATE_MAIN_MENU =>
      if key_is key "j" then
        Returns (with_ui (set_nav (press_j l (selectedIndex u, foodScrollOffset u)) u) w)
      else if key_is key "k" then
        Returns (with_ui (set_nav (press_k l (selectedIndex u, foodScrollOffset u)) u) w)
      else if key_is key cr then
        if selectedIndex u <? menuCount l then
          if selectedIndex u =? 0 then handleAddFromTemplate w
          else if selectedIndex u =? 1 then handleAddCustomFood w
          else if selectedIndex u =? 2 then
            Returns (with_ui (with_selectedCalendarDay 1
                       (with_currentState STATE_CALENDAR
                          (with_calendarOriginalDate (currentDate u) u))) w)
          else if selectedIndex u =? 3 then handleResetGoals w
          else Returns w
        else
          let foodIndex := int_sub (selectedIndex u) (menuCount l) in
          if (0 <=? foodIndex) && (foodIndex <? foodCount l)
          then handleEditFood foodIndex w
          else Returns w
      else if key_is key "x" then
        match press_x (menuCount l) fs (selectedIndex u) with
        | Some (fs', sel') =>
            let u := with_selectedIndex sel'
                       (with_dataManager (set_foods_at record fs' dm) u) in
            Returns (save (with_ui u w))
        | None => Returns w
        end
      else if key_is key "h" then
        u <- changeDateByOffset (-1) u ;;
        Returns (with_ui (set_nav (0, 0) u) w)
      else if key_is key "l" then
        u <- changeDateByOffset 1 u ;;
        Returns (with_ui (set_nav (0, 0) u) w)
      else if key_is key "q" then Exits 0
      else Returns w
  | STATE_CALENDAR => Returns w
  end.

(* ===================================================================== *)
(** ** ui_manager.cpp: the calendar view *)
(* ===================================================================== *)

(** What [UIManager::renderCalendar] needs in order to draw: a date that
    reads back, and a month with a name. *)
Definition renderCalendar (u : UIManager) : outcome UIManager :=
  '(_, month, _) <- read_date (currentDate u) ;;
  if (1 <=? month) && (month <=? 12) then Returns u else Stops.

(** Column of a day in the grid of a month that starts on [startWeekday]. *)
Definition grid_col (startWeekday day : Z) : Z :=
  int_rem (int_sub (int_add startWeekday day) 1) 7.

(** The ['h'] branch of [processCalendarInput] on [selectedCalendarDay]. *)
Definition calendar_left (startWeekday day : Z) : Z :=
  if (1 <? day) && (0 <? grid_col startWeekday day) then int_sub day 1 else day.

(** The ['l'] branch of [processCalendarInput]. *)
Definition calendar_right (startWeekday daysInMonth day : Z) : Z :=
  if (grid_col startWeekday day <? 6) && (day <? daysInMonth)
  then int_add day 1 else day.

(** The ['j'] branch of [processCalendarInput]. *)
Definition calendar_down (daysInMonth day : Z) : Z :=
  if int_add day 7 <=? daysInMonth then int_add day 7 else day.

(** The ['k'] branch of [processCalendarInput]. *)
Definition calendar_up (day : Z) : Z :=
  if 1 <=? int_sub day 7 then int_sub day 7 else day.

(** [UIManager::processCalendarInput] *)
Definition processCalendarInput (key : ascii) (u : UIManager) : outcome UIManager :=
  '(day, month, year) <- read_date (currentDate u) ;;
  let (startWeekday, daysInMonth) := month_layout month year in
  let sel := selectedCalendarDay u in
  if key_is key "b" then
    let month := int_sub month 1 in
    let (month, year) := if month <? 1 then (12, int_sub year 1) else (month, year) in
    buffer <- format_date day month year ;;
    Returns (with_currentDate buffer (with_selectedCalendarDay 1 u))
  else if key_is key "w" then
    let month := int_add month 1 in
    let (month, year) := if 12 <? month then (1, int_add year 1) else (month, year) in
    buffer <- format_date day month year ;;
    Returns (with_currentDate buffer (with_selectedCalendarDay 1 u))
  else if key_is key "q" then
    Returns (with_currentState STATE_MAIN_MENU
               (with_currentDate (calendarOriginalDate u) u))
  else if key_is key "h" then
    Returns (with_selectedCalendarDay (calendar_left startWeekday sel) u)
  else if key_is key "l" then
    Returns (with_selectedCalendarDay (calendar_right startWeekday daysInMonth sel) u)
  else if key_is key "j" then
    Returns (with_selectedCalendarDay (calendar_down daysInMonth sel) u)
  else if key_is key "k" then
    Returns (with_selectedCalendarDay (calendar_up sel) u)
  else if key_is key cr then
    buffer <- format_date sel month year ;;
    Returns (with_currentState STATE_MAIN_MENU (with_currentDate buffer u))
  else Returns u.

(** One turn of the loop of [UIManager::run]. *)
Definition run_turn (key : ascii) (_ : unit) (w : World) : outcome (World * option unit) :=
  match currentState (ui w) with
  | STATE_MAIN_MENU =>
      u <- renderMainMenu (ui w) ;;
      w <- processInput key (with_ui u w) ;;
      Returns (w, Some tt)
  | STATE_CALENDAR =>
      u <- renderCalendar (ui w) ;;
      u <- processCalendarInput key u ;;
      Returns (with_ui u w, Some tt)
  end.

(** [UIManager::run] on the keys at hand. *)
Definition run (w : World) : outcome World :=
  key_loop run_turn (List.length (keys w)) tt w.

(** [main]: load, first-run goals, then the main loop. *)
Definition main (d : Disk) (today : string) (ks : list ascii) (input : string)
    : outcome World :=
  '(_, dm) <- loadData d DataManager_new ;;
  let w := mkWorld (UIManager_new dm today) [] d ks (mk_istream input false) in
  w <- (if firstRun dm then handleStartGoals w else Returns w) ;;
  run w.

(** The world after the first [n] turns of the loop of [run]. *)
Fixpoint run_turns (n : nat) (w : World) : outcome World :=
  match n with
  | O => Returns w
  | Datatypes.S n' =>
      '(key, w) <- getch w ;;
      '(w, _) <- run_turn key tt w ;;
      run_turns n' w
  end.



(** A step of the main view that only touches the selection: the ['j']
    and ['k'] keys, and the redraw that [run] makes before each key. *)
Inductive move : Type := Advance | Retreat | Redraw.

Definition press (l : Layout) (m : move) (nav : Z * Z) : Z * Z :=
  match m with
  | Advance => press_j l nav
  | Retreat => press_k l nav
  | Redraw => (fst nav, render_clamp l (snd nav))
  end.

Definition presses (l : Layout) (ms : list move) (nav : Z * Z) : Z * Z :=
  fold_left (fun nav m => press l m nav) ms nav.

(** The foods of the day on display, found the way [processInput] finds
    them. *)
Definition day_foods (u : UIManager) : list Food :=
  let (dm, record) := getRecord (currentDate u) (dataManager u) in
  foods_at record dm.

Definition day_layout (u : UIManager) : Layout :=
  layout_of (menuItems u) (day_foods u).

Definition nav_of (u : UIManager) : Z * Z := (selectedIndex u, foodScrollOffset u).

(** The same steps on the whole interface. *)
Definition step (m : move) (w : World) : outcome World :=
  match m with
  | Advance => processInput "j" w
  | Retreat => processInput "k" w
  | Redraw => u <- renderMainMenu (ui w) ;; Returns (with_ui u w)
  end.

Fixpoint steps (ms : list move) (w : World) : outcome World :=
  match ms with
  | [] => Returns w
  | m :: rest => w' <- step m w ;; steps rest w'
  end.

(** The cell, as row and column, that the drawing loop of
    [renderCalendar] has reached after placing [n] days from [cell]. *)
Fixpoint grid_walk (n : nat) (cell : Z * Z) : Z * Z :=
  match n with
  | O => cell
  | Datatypes.S n' =>
      let (currentRow, currentCol) := grid_walk n' cell in
      let currentCol := int_add currentCol 1 in
      if 6 <? currentCol then (int_add currentRow 1, 0)
      else (currentRow, currentCol)
  end.

(** The cell in which [renderCalendar] draws day [d], rows counted from
    the first row of the grid. *)
Definition grid_cell (startWeekday d : Z) : Z * Z :=
  grid_walk (Z.to_nat (d - 1)) (0, startWeekday).

(** The invariant of the selection: the focus on an entry, the scroll
    offset between 0 and the number of foods that do not fit. *)
Definition nav_ok (l : Layout) (nav : Z * Z) : Prop :=
  0 <= fst nav < menuCount l + foodCount l /\
  0 <= snd nav <= Z.max 0 (foodCount l - visibleSlots l).

(** What the selection steps leave alone. *)
Definition view (u : UIManager) : UIState * string * list string * list Food :=
  (currentState u, currentDate u, menuItems u, day_foods u).

(** The interface once the record of the day on display exists. *)
Definition touched (u : UIManager) : UIManager :=
  with_dataManager (fst (getRecord (currentDate u) (dataManager u))) u.

(** The day shift a key of the main view asks for. *)
Definition day_shift (key : ascii) : Z := if key_is key "h" then -1 else 1.

(** A world in which the line [text] has just been typed. *)
Definition typed (text : string) : World :=
  mkWorld (UIManager_new DataManager_new "01/11/2026") [] (mkDisk None true) []
    (mk_istream (text ++ endl) false).

(* ===================================================================== *)
(** ** What a store looks like in the file *)
(* ===================================================================== *)

Fixpoint all_chars (p : ascii -> bool) (s : string) : bool :=
  match s with
  | String c r => p c && all_chars p r
  | EmptyString => true
  end.

(** The decimal text of a positive number. *)
Definition pos_text (p : positive) : string := NilEmpty.string_of_uint (Pos.to_uint p).

(** The first character of [s], if any, does not satisfy [p]. *)
Definition stops_at (p : ascii -> bool) (s : string) : Prop :=
  match s with
  | String c _ => p c = false
  | EmptyString => True
  end.

(** No character of [s] is [c]. *)
Fixpoint no_char (c : ascii) (s : string) : bool :=
  match s with
  | String x r => negb (Ascii.eqb x c) && no_char c r
  | EmptyString => true
  end.

(** A food as [loadData] reads it back from what [saveData] wrote. *)
Definition blank_name (f : Food) : Food :=
  mkFood (String " " (name f)) (calories f) (carbs f) (protein f) (fat f) (grams f).

Definition blank_names (r : DailyRecord) : DailyRecord :=
  mkDailyRecord (date r) (map blank_name (foods r)).

(** A name that stays within one field of one line. *)
Definition food_wf (f : Food) : bool :=
  no_char "|" (name f) && no_char newline (name f)
  && in_int (calories f) && in_int (carbs f) && in_int (protein f)
  && in_int (fat f) && in_int (grams f).

(** A date that stays within one line and has no blank in front. *)
Definition date_wf (d : string) : bool :=
  no_char newline d && String.eqb (trim_leading d) d.

Definition record_wf (r : DailyRecord) : bool :=
  date_wf (date r) && forallb food_wf (foods r).

Definition goals_wf (g : DailyGoals.t) : bool :=
  in_int (DailyGoals.calories g) && in_int (DailyGoals.carbs g)
  && in_int (DailyGoals.protein g) && in_int (DailyGoals.fat g).

Fixpoint distinct (ds : list string) : bool :=
  match ds with
  | [] => true
  | d :: r => negb (existsb (String.eqb d) r) && distinct r
  end.

(** What the interface can build: [int] fields, one record per date, and
    texts that fit the line format. *)
Definition store_wf (dm : DataManager) : bool :=
  goals_wf (dailyGoals dm) && forallb record_wf (records dm)
  && distinct (map date (records dm)).

(** The lines of the file, without their line ends. *)
Definition goals_line (g : DailyGoals.t) : string :=
  "DAILY_GOALS: " ++ to_string (DailyGoals.calories g) ++ ","
    ++ to_string (DailyGoals.carbs g) ++ "," ++ to_string (DailyGoals.protein g) ++ ","
    ++ to_string (DailyGoals.fat g).

Definition food_line (f : Food) : string :=
  "FOOD: " ++ name f ++ "|" ++ to_string (calories f) ++ "|"
    ++ to_string (carbs f) ++ "|" ++ to_string (protein f) ++ "|"
    ++ to_string (fat f) ++ "|" ++ to_string (grams f).

Definition record_lines (r : DailyRecord) : list string :=
  ("DATE: " ++ date r) :: map food_line (foods r).

(** The text of a file that holds the given lines. *)
Definition text_of_lines (ls : list string) : string :=
  fold_right (fun l text => l ++ String newline text) "" ls.

(** A mutation whose texts fit the line format and whose numbers are
    [int]s. *)
Definition mutation_wf (m : mutation) : bool :=
  match m with
  | SetGoals g => goals_wf g
  | GetRecord d => date_wf d
  | AddFood d f => date_wf d && food_wf f
  | EditFood d _ f => date_wf d && food_wf f
  | DeleteFood d _ => date_wf d
  end.

(** A session in the main view: open the template picker, create the
    template "Apple" with 52 calories and 14 carbs per 100 g, pick it, and
    enter a portion of 150 g. *)
Definition template_session : World :=
  mkWorld (UIManager_new DataManager_new "01/11/2026") [] (mkDisk None true)
    [cr; "j"; cr; cr; "j"; cr; "j"; cr; "j"; "j"; "j"; cr; cr; "z"]%char
    (mk_istream ("Apple" ++ endl ++ "52" ++ endl ++ "14" ++ endl ++ "150" ++ endl) false).

(** The calendar view on January 2027, a month that starts in column 5,
    with the cursor on day 1. *)
Definition january_2027 : UIManager :=
  with_selectedCalendarDay 1
    (with_currentState STATE_CALENDAR (UIManager_new DataManager_new "15/01/2027")).

(** The main view on a day with one food, the focus on that food. *)
Definition one_food_world : World :=
  mkWorld (with_selectedIndex 4 (UIManager_new one_apple "01/01/2025")) []
    (mkDisk None true) [] (mk_istream "" false).

(* ===================================================================== *)
(** ** The calendar of reference, and what the views draw *)
(* ===================================================================== *)

(** The Gregorian calendar, to compare [mktime] and the month layout
    with. *)
Definition is_leap (y : Z) : bool :=
  (y mod 4 =? 0) && (negb (y mod 100 =? 0) || (y mod 400 =? 0)).

Definition days_in_month (y m : Z) : Z :=
  if m =? 2 then (if is_leap y then 29 else 28)
  else if (m =? 4) || (m =? 6) || (m =? 9) || (m =? 11) then 30 else 31.


(** The text [sprintf_s] makes of ["%02d/%02d/%04d"]. *)
Definition date_text (d m y : Z) : string :=
  fmt_0d 2 d ++ "/" ++ fmt_0d 2 m ++ "/" ++ fmt_0d 4 y.

(** The calendar view over a run of keys. *)
Fixpoint calendar_turns (ks : list ascii) (u : UIManager) : outcome UIManager :=
  match ks with
  | [] => Returns u
  | key :: rest => u' <- processCalendarInput key u ;; calendar_turns rest u'
  end.

(** The keys that move the cursor or turn the page of the calendar. *)
Definition browse_key (key : ascii) : bool :=
  key_is key "h" || key_is key "l" || key_is key "j" || key_is key "k"
  || key_is key "b" || key_is key "w".

(* ------------------------------------------------------------------ *)
(** ** What [renderMainMenu] draws *)

(** The header line: [getDayOfWeek] and [UIManager::getDisplayDate]. *)
Definition days : list string :=
  ["Sunday"; "Monday"; "Tuesday"; "Wednesday"; "Thursday"; "Friday"; "Saturday"].

(** [days[timeInfo.tm_wday]]; an index outside the array stops the
    process. *)
Definition getDayOfWeek (timeInfo : tm) : outcome string :=
  let i := tm_wday timeInfo in
  if (0 <=? i) && (i <? 7) then Returns (nth (Z.to_nat i) days "") else Stops.

Definition getDisplayDate (u : UIManager) : outcome string :=
  '(day, month, year) <- read_date (currentDate u) ;;
  let timeInfo := snd (mktime (tm_of day (int_sub month 1) (int_sub year 1900))) in
  dayName <- getDayOfWeek timeInfo ;;
  Returns (currentDate u ++ " - " ++ dayName).

(** [std::string(n, ' ')] *)
Fixpoint spaces (n : nat) : string :=
  match n with
  | O => EmptyString
  | S n' => String " " (spaces n')
  end.

(** [stream << std::setw(w) << std::setfill('0') << n]: the text of [n]
    with zeros in front of it up to [w] characters. *)
Definition setw_fill0 (w : nat) (n : Z) : string :=
  let ds := to_string n in
  zeros (w - String.length ds) ++ ds.

(** [(v > cap) ? cap : v] *)
Definition at_most (cap v : Z) : Z := if cap <? v then cap else v.

(** [nameStream << std::setw(maxNameLen) << std::left << name] *)
Definition formattedName (f : Food) : string :=
  name f ++ spaces (maxNameLen - String.length (name f)).

(** [detailsCombined] of a row of the food table. *)
Definition detailsCombined (f : Food) : string :=
  let gramsStr := setw_fill0 4 (at_most 9999 (grams f)) ++ " grams" in
  let calStrFood := setw_fill0 4 (at_most 9999 (calories f)) ++ " calories" in
  let carbsStr := setw_fill0 3 (at_most 999 (carbs f)) ++ " carbs" in
  let protStr := setw_fill0 3 (at_most 999 (protein f)) ++ " protein" in
  let fatStr := setw_fill0 3 (at_most 999 (fat f)) ++ " fat" in
  gramsStr ++ " " ++ calStrFood ++ " " ++ carbsStr ++ " " ++ protStr ++ " " ++ fatStr.

Definition detailsX : Z := int_add (Z.of_nat maxNameLen) 1.

Definition availableWidth : Z := int_sub (int_sub CONSOLE_WIDTH 1) detailsX.

(** The column at which the details of a row start. *)
Definition detailsPrintX (f : Food) : Z :=
  let detailsLength := wrap (Z.of_nat (String.length (detailsCombined f))) in
  if detailsLength <? availableWidth
  then int_add detailsX (int_sub availableWidth detailsLength)
  else detailsX.

(** The loop over the viewport,
    [for (j = foodScrollOffset;
          j < foodCount && j < foodScrollOffset + visibleFoodSlots; j++)]:
    the index and the screen row of each food it draws.  The loop makes
    at most [visibleFoodSlots] turns, which [fuel] counts. *)
Fixpoint food_rows (fuel : nat) (l : Layout) (foodListStartY offset j : Z)
    : list (Z * Z) :=
  match fuel with
  | O => []
  | S fuel' =>
      if (j <? foodCount l) && (j <? int_add offset (visibleSlots l)) then
        (j, int_sub (int_add foodListStartY j) offset)
          :: food_rows fuel' l foodListStartY offset (int_add j 1)
      else []
  end.

Definition drawn_foods (l : Layout) (foodListStartY offset : Z) : list (Z * Z) :=
  food_rows (Z.to_nat (visibleSlots l)) l foodListStartY offset offset.

(** The row of the block on the scroll bar; [None] when no bar is
    drawn. *)
Definition indicatorRow (l : Layout) (foodListStartY offset : Z) : option Z :=
  if visibleSlots l <? foodCount l then
    let maxIndicatorPosition := int_sub (visibleSlots l) 1 in
    let scrollRange := int_sub (foodCount l) (visibleSlots l) in
    Some (if 0 <? scrollRange
          then int_add foodListStartY
                 (int_div (int_mul offset maxIndicatorPosition) scrollRange)
          else foodListStartY)
  else None.

(** The focused food, if any, lies in the viewport; the focus on a menu
    entry goes with an unscrolled list. *)
Definition focus_in_viewport (l : Layout) (nav : Z * Z) : Prop :=
  nav_ok l nav
  /\ (fst nav < menuCount l -> snd nav = 0)
  /\ (menuCount l <= fst nav ->
      snd nav <= fst nav - menuCount l < snd nav + visibleSlots l).

(** [center] of main.cpp *)
Definition center (text : string) : string :=
  let totalWidth := 80 in
  let padding := int_div (int_sub totalWidth (wrap (Z.of_nat (String.length text)))) 2 in
  let padding := if padding <? 0 then 0 else padding in
  spaces (Z.to_nat padding) ++ text.

(** [foodListStartY] of [renderMainMenu]: the row below the separator
    that follows the menu. *)
Definition foodListStartY (items : list string) : Z :=
  int_add (wrap (6 + Z.of_nat (List.length items))) 1.

(** The rows of the food table that [renderMainMenu] draws for an
    interface state: the scroll offset is clamped first. *)
Definition rows_drawn (u : UIManager) : list (Z * Z) :=
  let l := day_layout u in
  drawn_foods l (foodListStartY (menuItems u)) (render_clamp l (foodScrollOffset u)).

(** The sum of a field over the foods of a day. *)
Definition sum_of (g : Food -> Z) (fs : list Food) : Z :=
  fold_right (fun f t => g f + t) 0 fs.

(** A food with no negative number in it. *)
Definition nonneg_food (f : Food) : bool :=
  (0 <=? calories f) && (0 <=? carbs f) && (0 <=? protein f) && (0 <=? fat f)
  && (0 <=? grams f).

(** A food from its name and the numbers that follow it on a [FOOD:]
    line, the numbers that are missing taken as 0. *)
Definition food_of_fields (nm : string) (zs : list Z) : Food :=
  mkFood nm (nth 0 zs 0) (nth 1 zs 0) (nth 2 zs 0) (nth 3 zs 0) (nth 4 zs 0).

(** The text of such a line after its label. *)
Definition fields_text (nm : string) (zs : list Z) : string :=
  nm ++ String.concat "" (map (fun z => "|" ++ to_string z) zs).

(** The order [std::sort] is asked for: [b] does not come before [a]. *)
Definition name_le (a b : Food) : Prop := string_ltb (name b) (name a) = false.

(** An [int] as the [size_t] it converts to (64 bits). *)
Definition size_t_of_int (z : Z) : Z := z mod 18446744073709551616.

(** The loop that draws the template list of [handleAddFromTemplate],
    [for (size_t i = templateScrollOffset;
          i < matches.size() && i < templateScrollOffset + visibleRows; i++)]:
    the index [i] of each template drawn and its [selectionIndex].  The
    loop makes at most [matches.size()] turns, which [fuel] counts. *)
Fixpoint template_rows (fuel : nat) (count offset i : Z) : list (Z * Z) :=
  match fuel with
  | O => []
  | S fuel' =>
      if (i <? count) && (i <? size_t_of_int (int_add offset visibleRows)) then
        (i, int_add 2 (wrap (size_t_of_int (i - size_t_of_int offset))))
          :: template_rows fuel' count offset (size_t_of_int (i + 1))
      else []
  end.

(** The rows drawn for the picker state [p], after the scroll offset is
    adjusted. *)
Definition picker_rows (p : Picker.t) (matches : list Food) : list (Z * Z) :=
  let off := Picker.templateScrollOffset (picker_scroll p) in
  template_rows (List.length matches) (Z.of_nat (List.length matches)) off
    (size_t_of_int off).

(** The template of the highlighted row, the one whose [selectionIndex]
    is [localSelection], if such a row is drawn. *)
Definition highlighted (p : Picker.t) (matches : list Food) : option Z :=
  match filter (fun row => snd row =? Picker.localSelection p) (picker_rows p matches) with
  | row :: _ => Some (fst row)
  | [] => None
  end.

(** What Enter on a template does: the portion is read, the food is made
    and added to the day on display, the store is saved and a key is
    awaited. *)
Definition pick_template (selectedTemplate : Food) (w : World)
    : outcome (World * option Picker.t) :=
  '(grams, w) <- cin_int w ;;
  let newFood := instantiate selectedTemplate grams in
  let (dm, record) := getRecord (currentDate (ui w)) (dataManager (ui w)) in
  let dm := push_food record newFood dm in
  let w := save (with_ui (with_dataManager dm (ui w)) w) in
  '(_, w) <- getch w ;;
  Returns (w, None).

(** What a form leaves of the world while it has not committed: the
    interface state, the templates and the file. *)
Definition form_open (u : UIManager) (tpl : list Food) (d : Disk) (w : World) : Prop :=
  ui w = u /\ g_foodTemplates w = tpl /\ disk w = d.

(** [k] times [save(); load()], each load into a fresh manager. *)
Fixpoint reload (k : nat) (dm : DataManager) : outcome DataManager :=
  match k with
  | O => Returns dm
  | S k' => '(_, dm') <- save_then_load dm ;; reload k' dm'
  end.

(** A food, and a record, with [k] blanks in front of each food name. *)
Definition pad_name (k : nat) (f : Food) : Food :=
  mkFood (spaces k ++ name f) (calories f) (carbs f) (protein f) (fat f) (grams f).

Definition pad_names (k : nat) (r : DailyRecord) : DailyRecord :=
  mkDailyRecord (date r) (map (pad_name k) (foods r)).

(* ===================================================================== *)
(** ** Facts about machine integers *)
(* ===================================================================== *)

Lemma wrap_id (z : Z) : INT_MIN <= z <= INT_MAX -> wrap z = z.
Proof.
  unfold INT_MIN, INT_MAX, wrap. intros H.
  rewrite Z.mod_small by lia. lia.
Qed.

Lemma wrap_range (z : Z) : INT_MIN <= wrap z <= INT_MAX.
Proof.
  unfold INT_MIN, INT_MAX, wrap.
  pose proof (Z.mod_pos_bound (z + 2147483648) 4294967296 eq_refl). lia.
Qed.

Lemma in_int_true (z : Z) : in_int z = true <-> INT_MIN <= z <= INT_MAX.
Proof. unfold in_int. rewrite andb_true_iff, !Z.leb_le. tauto. Qed.

(** Rewrites every [wrap z] whose argument is seen to be in range. *)
Ltac unwrap :=
  repeat match goal with
         | |- context [wrap ?z] => rewrite (wrap_id z) by (unfold INT_MIN, INT_MAX in *; lia)
         end.

(** Case analysis on the comparisons of a branch, outermost first. *)
Ltac branch :=
  match goal with
  | |- context [if ?a <? ?b then _ else _] => destruct (Z.ltb_spec a b)
  | |- context [if ?a <=? ?b then _ else _] => destruct (Z.leb_spec a b)
  | |- context [if ?a =? ?b then _ else _] => destruct (Z.eqb_spec a b)
  end.

Ltac int_cases :=
  unfold int_add, int_sub in *; cbn [fst snd];
  repeat (unwrap; try branch; cbn [fst snd]).

(* ===================================================================== *)
(** ** Template scaling *)
(* ===================================================================== *)

Lemma scaled_field (v g : Z) :
  INT_MIN <= v * g <= INT_MAX ->
  int_div (int_mul v g) 100 = Z.quot (v * g) 100.
Proof.
  intros H. unfold int_div, int_mul. rewrite (wrap_id (v * g)) by exact H.
  apply wrap_id.
  unfold INT_MIN, INT_MAX in *.
  generalize dependent (v * g). intros p H.
  Z.to_euclidean_division_equations. lia.
Qed.

(** C3, as amended.  A food made from a template at a portion of [g]
    grams carries the template's name, the portion, and for each nutrient
    the per-100g value times [g], divided by 100 with the quotient
    truncated towards zero, as long as each product fits an [int]. *)
Theorem instantiate_scales (t : Food) (g : Z) :
  INT_MIN <= calories t * g <= INT_MAX ->
  INT_MIN <= carbs t * g <= INT_MAX ->
  INT_MIN <= protein t * g <= INT_MAX ->
  INT_MIN <= fat t * g <= INT_MAX ->
  instantiate t g =
    mkFood (name t) (Z.quot (calories t * g) 100) (Z.quot (carbs t * g) 100)
      (Z.quot (protein t * g) 100) (Z.quot (fat t * g) 100) g.
Proof.
  intros Hc Hb Hp Hf. unfold instantiate.
  rewrite !scaled_field by assumption. reflexivity.
Qed.

(** The template of the specification's example, at 150 grams. *)
Lemma instantiate_scales_witness :
  (INT_MIN <= 52 * 150 <= INT_MAX) /\
  instantiate (mkFood "Apple" 52 14 0 0 0) 150 = mkFood "Apple" 78 21 0 0 150.
Proof.
  split; [unfold INT_MIN, INT_MAX; lia |].
  apply (instantiate_scales (mkFood "Apple" 52 14 0 0 0) 150);
    unfold INT_MIN, INT_MAX; simpl; lia.
Defined.

(** C3 as first stated fails once a product leaves the [int] range: the
    largest per-100g value at the largest portion would need
    46116860141324206 calories, which no [int] field holds. *)
Lemma instantiate_overflow :
  calories (instantiate (mkFood "Oil" INT_MAX 0 0 0 0) INT_MAX)
    <> Z.quot (INT_MAX * INT_MAX) 100.
Proof. vm_compute. discriminate. Qed.

(** The example of the template at 150 grams, through the interface: the
    picker, the "create new template" form, the portion prompt, and the
    save. *)
Example template_session_adds_scaled_food :
  exists w',
    run_turns 1 template_session = Returns w'
    /\ g_foodTemplates w' = [mkFood "Apple" 52 14 0 0 0]
    /\ day_foods (ui w') = [mkFood "Apple" 78 21 0 0 150]
    /\ content (disk w')
       = Some ("DAILY_GOALS: 2000,250,150,70" ++ endl ++ "DATE: 01/11/2026" ++ endl
               ++ "FOOD: Apple|78|21|0|0|150" ++ endl).
Proof. eexists. split; [vm_compute; reflexivity |]. repeat split. Qed.

(* ===================================================================== *)
(** ** Loading and saving *)
(* ===================================================================== *)

Lemma file_lines_getline (s : string) :
  file_lines s =
    match getline newline s with
    | Some (line, rest) => line :: file_lines rest
    | None => []
    end.
Proof.
  induction s as [| c r IH]; [reflexivity |].
  cbn [file_lines getline split_at].
  destruct (Ascii.eqb c newline); [reflexivity |].
  rewrite IH. destruct r as [| c' r']; [reflexivity |].
  cbn [getline]. destruct (split_at newline (String c' r')). reflexivity.
Qed.

Lemma load_lines_app (pre post : list string) (st : DataManager * option nat) :
  load_lines (pre ++ post) st = (st' <- load_lines pre st ;; load_lines post st').
Proof.
  revert st. induction pre as [| l pre IH]; intros st; [reflexivity |].
  cbn [load_lines app]. destruct (load_line l st); cbn [bind]; auto.
Qed.

(** C1 at its own example.  Whatever the manager holds, loading the store

      DATE: 01/01/2025
      FOOD: Apple|abc|10|0|0|100

    ends with [std::invalid_argument] leaving [loadData]: no food entry is
    produced and nothing after the field is read. *)
Theorem loadData_malformed_food_throws (dm : DataManager) (wr : bool) :
  loadData (mkDisk (Some malformed_store) wr) dm = Throws invalid_argument.
Proof.
  unfold loadData. cbn [content].
  replace (file_lines malformed_store)
    with ["DATE: 01/01/2025"; "FOOD: Apple|abc|10|0|0|100"] by (vm_compute; reflexivity).
  cbn [load_lines].
  replace (load_line "DATE: 01/01/2025" (dm, None))
    with (let (dm', i) := getRecord "01/01/2025" dm in
          Returns (dm', Some i) : outcome (DataManager * option nat))
    by reflexivity.
  destruct (getRecord "01/01/2025" dm) as [dm' i].
  reflexivity.
Qed.

Lemma load_lines_throws (pre post : list string) (l : string) (e : exn)
    (st st' : DataManager * option nat) :
  load_lines pre st = Returns st' ->
  load_line l st' = Throws e ->
  load_lines (pre ++ l :: post) st = Throws e.
Proof.
  intros Hpre Hl. rewrite load_lines_app, Hpre. cbn [bind load_lines].
  rewrite Hl. reflexivity.
Qed.

(** C2 at a store with one food.  Saving a store that holds one day with
    the food "Apple" and loading the text into a fresh manager gives the
    same goals and date, but the food comes back under the name " Apple":
    the blank that [saveData] writes after the label is read as part of
    the name. *)
Theorem save_then_load_changes_name :
  save_text one_apple =
    "DAILY_GOALS: 2000,250,150,70" ++ endl ++ "DATE: 01/01/2025" ++ endl
      ++ "FOOD: Apple|52|14|0|0|100" ++ endl
  /\ records one_apple = [mkDailyRecord "01/01/2025" [mkFood "Apple" 52 14 0 0 100]]
  /\ save_then_load one_apple =
       Returns (true,
                mkDataManager (DailyGoals.mk 2000 250 150 70)
                  [mkDailyRecord "01/01/2025" [mkFood " Apple" 52 14 0 0 100]]
                  false).
Proof. repeat split. Qed.

(** A food whose name holds the field separator is written as a line that
    [loadData] cannot read back: the text after the bar is taken for the
    calories. *)
Lemma save_then_load_bar_in_name :
  save_then_load (build [AddFood "01/01/2025" (mkFood "a|b" 1 2 3 4 5)])
    = Throws invalid_argument.
Proof. reflexivity. Qed.

(* ===================================================================== *)
(** ** Numbers as text *)
(* ===================================================================== *)

Lemma uint_text_digits (d : Decimal.uint) :
  all_chars isdigit (NilEmpty.string_of_uint d) = true.
Proof. induction d; cbn; auto. Qed.

Lemma uint_text_value_acc (d : Decimal.uint) (acc : positive) :
  digits_value (Zpos acc) (NilEmpty.string_of_uint d) = Zpos (Pos.of_uint_acc d acc).
Proof.
  revert acc. induction d; intros acc; cbn [NilEmpty.string_of_uint digits_value Pos.of_uint_acc];
    try reflexivity;
    match goal with
    | |- digits_value ?v _ = Zpos (Pos.of_uint_acc _ ?a) =>
        replace v with (Zpos a)
          by (unfold digit_value;
              match goal with
              | |- context [Z.of_nat ?n] =>
                  let k := eval vm_compute in (Z.of_nat n) in
                  change (Z.of_nat n) with k
              end; lia)
    end; apply IHd.
Qed.

Lemma uint_text_value (d : Decimal.uint) :
  digits_value 0 (NilEmpty.string_of_uint d) = Z.of_N (Pos.of_uint d).
Proof.
  induction d; cbn [NilEmpty.string_of_uint digits_value Pos.of_uint];
    try reflexivity; try exact IHd;
    match goal with
    | |- digits_value ?v _ = Z.of_N (Npos (Pos.of_uint_acc _ ?a)) =>
        change v with (Zpos a)
    end; apply uint_text_value_acc.
Qed.

Lemma pos_text_nonempty (p : positive) : pos_text p <> "".
Proof.
  unfold pos_text. pose proof (Unsigned.to_uint_nonnil p) as H.
  destruct (Pos.to_uint p); try contradiction; discriminate.
Qed.

Lemma pos_text_value (p : positive) : digits_value 0 (pos_text p) = Zpos p.
Proof. unfold pos_text. rewrite uint_text_value, Unsigned.of_to. reflexivity. Qed.

Lemma pos_text_digits (p : positive) : all_chars isdigit (pos_text p) = true.
Proof. apply uint_text_digits. Qed.

Lemma to_string_pos (p : positive) : to_string (Zpos p) = pos_text p.
Proof.
  unfold to_string, pos_text. cbn [Z.to_int NilZero.string_of_int NilZero.string_of_uint].
  pose proof (Unsigned.to_uint_nonnil p) as H.
  destruct (Pos.to_uint p); try contradiction; reflexivity.
Qed.

Lemma to_string_neg (p : positive) : to_string (Zneg p) = String "-" (pos_text p).
Proof.
  unfold to_string, pos_text. cbn [Z.to_int NilZero.string_of_int NilZero.string_of_uint].
  pose proof (Unsigned.to_uint_nonnil p) as H.
  destruct (Pos.to_uint p); try contradiction; reflexivity.
Qed.

(** The text of an [int]: an optional minus sign and a run of digits that
    is not empty and has the magnitude as its value. *)
Lemma to_string_shape (z : Z) :
  exists ds, to_string z = (if z <? 0 then String "-" ds else ds)
             /\ ds <> "" /\ all_chars isdigit ds = true
             /\ digits_value 0 ds = Z.abs z.
Proof.
  destruct z as [| p | p].
  - exists "0". repeat split. discriminate.
  - exists (pos_text p). rewrite to_string_pos. cbn [Z.ltb Z.compare Z.abs].
    repeat split; auto using pos_text_nonempty, pos_text_digits, pos_text_value.
  - exists (pos_text p). rewrite to_string_neg. cbn [Z.ltb Z.compare Z.abs].
    repeat split; auto using pos_text_nonempty, pos_text_digits, pos_text_value.
Qed.

(* ===================================================================== *)
(** ** Reading back what was written *)
(* ===================================================================== *)

Lemma append_empty (s : string) : s ++ "" = s.
Proof. induction s as [| c s IH]; cbn; [| rewrite IH]; reflexivity. Qed.

Lemma append_assoc (a b c : string) : (a ++ b) ++ c = a ++ (b ++ c).
Proof. induction a as [| x a IH]; cbn; [| rewrite IH]; reflexivity. Qed.

Lemma take_while_app (p : ascii -> bool) (ds rest : string) :
  all_chars p ds = true -> stops_at p rest -> take_while p (ds ++ rest) = ds.
Proof.
  intros Hd Hr. induction ds as [| c ds IH].
  - destruct rest as [| c r]; [reflexivity |]. cbn in *. rewrite Hr. reflexivity.
  - cbn in *. apply andb_true_iff in Hd as [Hc Hd]. rewrite Hc, IH by exact Hd. reflexivity.
Qed.

Lemma skip_while_app (p : ascii -> bool) (ds rest : string) :
  all_chars p ds = true -> stops_at p rest -> skip_while p (ds ++ rest) = rest.
Proof.
  intros Hd Hr. induction ds as [| c ds IH].
  - destruct rest as [| c r]; [reflexivity |]. cbn in *. rewrite Hr. reflexivity.
  - cbn in *. apply andb_true_iff in Hd as [Hc Hd]. rewrite Hc. apply IH, Hd.
Qed.

Lemma digit_not_special (c : ascii) :
  isdigit c = true ->
  isspace c = false /\ c <> "-"%char /\ c <> "+"%char /\ c <> "|"%char
  /\ c <> ","%char /\ c <> newline.
Proof.
  destruct c as [[] [] [] [] [] [] [] []]; cbn; intros H;
    try discriminate H; repeat split; discriminate.
Qed.

Lemma read_sign_digit (c : ascii) (r : string) :
  isdigit c = true -> read_sign (String c r) = (false, String c r).
Proof.
  destruct c as [[] [] [] [] [] [] [] []]; cbn; intros H;
    try discriminate H; reflexivity.
Qed.

(** What a number's text looks like to the readers: no white space in
    front, then the sign and digits that give the number back. *)
Lemma number_text (z : Z) (rest : string) :
  stops_at isdigit rest ->
  exists body,
    skip_while isspace (to_string z ++ rest) = to_string z ++ rest
    /\ to_string z ++ rest <> ""
    /\ read_sign (to_string z ++ rest) = (z <? 0, body)
    /\ take_while isdigit body <> ""
    /\ (if z <? 0 then - digits_value 0 (take_while isdigit body)
        else digits_value 0 (take_while isdigit body)) = z
    /\ skip_while isdigit body = rest.
Proof.
  intros Hr. destruct (to_string_shape z) as [ds [E [Hne [Hd Hv]]]].
  rewrite E. destruct ds as [| c ds]; [contradiction |].
  pose proof Hd as Hd'. cbn [all_chars] in Hd'. apply andb_true_iff in Hd' as [Hc _].
  destruct (digit_not_special c Hc) as [Hs _].
  assert (T : take_while isdigit (String c ds ++ rest) = String c ds)
    by (apply take_while_app; assumption).
  assert (K : skip_while isdigit (String c ds ++ rest) = rest)
    by (apply skip_while_app; assumption).
  exists (String c ds ++ rest). rewrite T, K.
  destruct (Z.ltb_spec z 0).
  - change (String "-" (String c ds) ++ rest) with (String "-" (String c ds ++ rest)).
    repeat split; try discriminate. lia.
  - change (String c ds ++ rest) with (String c (ds ++ rest)).
    cbn [skip_while]. rewrite Hs.
    repeat split; try discriminate; [apply read_sign_digit, Hc | lia].
Qed.

(** [std::stoi] gives back the [int] whose text it is given. *)
Lemma stoi_to_string (z : Z) : in_int z = true -> stoi (to_string z) = Returns z.
Proof.
  intros Hz. destruct (number_text z "" I) as [body [Hs [_ [Hr [Hne [Hv _]]]]]].
  rewrite append_empty in Hs, Hr. unfold stoi. rewrite Hs, Hr.
  destruct (take_while isdigit body) as [| c ds]; [contradiction |].
  rewrite Hv, Hz. reflexivity.
Qed.

(** [stream >> n] on a blank, the text of an [int] and more text gives the
    [int] and leaves the rest. *)
Lemma extract_int_to_string (z old : Z) (rest : string) :
  in_int z = true -> stops_at isdigit rest ->
  extract_int (mk_istream (String " " (to_string z ++ rest)) false) old
    = (mk_istream rest false, z).
Proof.
  intros Hz Hrest. destruct (number_text z rest Hrest) as [body [Hs [Hne [Hr [Hd [Hv Hk]]]]]].
  unfold extract_int. cbn [is_fail is_buf skip_while]. change (isspace " ") with true.
  cbn iota. rewrite Hs.
  destruct (to_string z ++ rest) as [| c s] eqn:E; [contradiction |].
  rewrite Hr. destruct (take_while isdigit body) as [| c' ds]; [contradiction |].
  rewrite Hv, Hk. apply in_int_true in Hz.
  destruct (Z.ltb_spec z INT_MIN); [lia |].
  destruct (Z.ltb_spec INT_MAX z); [lia |]. reflexivity.
Qed.

Lemma no_char_app (c : ascii) (a b : string) :
  no_char c (a ++ b) = no_char c a && no_char c b.
Proof.
  induction a as [| x a IH]; cbn; [reflexivity |].
  rewrite IH, andb_assoc. reflexivity.
Qed.

Lemma to_string_no_char (c : ascii) (z : Z) :
  isdigit c = false -> c <> "-"%char -> no_char c (to_string z) = true.
Proof.
  intros Hd Hm. destruct (to_string_shape z) as [ds [E [_ [Hds _]]]].
  assert (D : no_char c ds = true).
  { clear E. induction ds as [| x ds IH]; [reflexivity |].
    cbn [no_char all_chars] in *. apply andb_true_iff in Hds as [Hx Hds].
    rewrite IH by exact Hds. rewrite andb_true_r.
    destruct (Ascii.eqb_spec x c) as [-> |]; [congruence | reflexivity]. }
  rewrite E. destruct (z <? 0); [| exact D].
  cbn [no_char]. rewrite D, andb_true_r.
  destruct (Ascii.eqb_spec "-"%char c) as [<- |]; [contradiction | reflexivity].
Qed.

Lemma to_string_nonempty (z : Z) : to_string z <> "".
Proof.
  destruct (to_string_shape z) as [ds [E [Hne _]]]. rewrite E.
  destruct (z <? 0); [discriminate | exact Hne].
Qed.

Lemma split_at_app (d : ascii) (tok rest : string) :
  no_char d tok = true -> split_at d (tok ++ String d rest) = (tok, rest).
Proof.
  induction tok as [| x tok IH]; cbn; intros H.
  - rewrite Ascii.eqb_refl. reflexivity.
  - apply andb_true_iff in H as [Hx H]. apply negb_true_iff in Hx.
    rewrite Hx, IH by exact H. reflexivity.
Qed.

Lemma split_at_all (d : ascii) (tok : string) :
  no_char d tok = true -> split_at d tok = (tok, "").
Proof.
  induction tok as [| x tok IH]; cbn; intros H; [reflexivity |].
  apply andb_true_iff in H as [Hx H]. apply negb_true_iff in Hx.
  rewrite Hx, IH by exact H. reflexivity.
Qed.

Lemma getline_app (d : ascii) (tok rest : string) :
  no_char d tok = true -> getline d (tok ++ String d rest) = Some (tok, rest).
Proof.
  intros H. unfold getline. rewrite split_at_app by exact H.
  destruct tok; reflexivity.
Qed.

Lemma getline_all (d : ascii) (tok : string) :
  tok <> "" -> no_char d tok = true -> getline d tok = Some (tok, "").
Proof.
  intros Hne H. unfold getline. rewrite split_at_all by exact H.
  destruct tok; [contradiction | reflexivity].
Qed.

Lemma file_lines_app (l rest : string) :
  no_char newline l = true ->
  file_lines (l ++ String newline rest) = l :: file_lines rest.
Proof.
  intros H. rewrite file_lines_getline, getline_app by exact H. reflexivity.
Qed.

Lemma replace_char_app (a b : ascii) (s t : string) :
  replace_char a b (s ++ t) = replace_char a b s ++ replace_char a b t.
Proof. induction s as [| c s IH]; cbn; [| rewrite IH]; reflexivity. Qed.

Lemma replace_char_absent (a b : ascii) (s : string) :
  no_char a s = true -> replace_char a b s = s.
Proof.
  induction s as [| c s IH]; cbn; intros H; [reflexivity |].
  apply andb_true_iff in H as [Hc H]. apply negb_true_iff in Hc.
  rewrite Hc, IH by exact H. reflexivity.
Qed.

Lemma getline_field (d : ascii) (tok rest : string) :
  no_char d tok = true ->
  getline d (tok ++ String d "" ++ rest) = Some (tok, rest).
Proof. apply getline_app. Qed.

Lemma bar_not_digit : isdigit "|" = false /\ "|"%char <> "-"%char.
Proof. split; [reflexivity | discriminate]. Qed.

Lemma food_wf_fields (f : Food) :
  food_wf f = true ->
  no_char "|" (name f) = true /\ no_char newline (name f) = true
  /\ in_int (calories f) = true /\ in_int (carbs f) = true
  /\ in_int (protein f) = true /\ in_int (fat f) = true /\ in_int (grams f) = true.
Proof.
  unfold food_wf. rewrite !andb_true_iff. tauto.
Qed.

(** The six fields of a line that [saveData] wrote read back as the food
    with a blank in front of its name. *)
Lemma parse_food_written (f : Food) :
  food_wf f = true ->
  parse_food (substr_from 5 (food_line f)) = Returns (blank_name f).
Proof.
  intros H. destruct (food_wf_fields f H) as [Hb [_ [Hc [Hcb [Hp [Hf Hg]]]]]].
  assert (B : forall z, no_char "|" (to_string z) = true)
    by (intros z; apply to_string_no_char; [reflexivity | discriminate]).
  unfold food_line.
  change (substr_from 5 ("FOOD: " ++ ?x)) with (String " " x).
  unfold parse_food.
  change (String " " (name f ++ ?r)) with (String " " (name f) ++ r).
  unfold food_field at 1. rewrite getline_field by (cbn [no_char]; exact Hb).
  cbn [store_name bind calories carbs protein fat grams Food_default].
  unfold food_field at 1. rewrite getline_field by apply B.
  unfold store_calories. rewrite stoi_to_string by exact Hc.
  cbn [bind name calories carbs protein fat grams].
  unfold food_field at 1. rewrite getline_field by apply B.
  unfold store_carbs. rewrite stoi_to_string by exact Hcb.
  cbn [bind name calories carbs protein fat grams].
  unfold food_field at 1. rewrite getline_field by apply B.
  unfold store_protein. rewrite stoi_to_string by exact Hp.
  cbn [bind name calories carbs protein fat grams].
  unfold food_field at 1. rewrite getline_field by apply B.
  unfold store_fat. rewrite stoi_to_string by exact Hf.
  cbn [bind name calories carbs protein fat grams].
  unfold food_field at 1.
  rewrite getline_all by (try apply to_string_nonempty; apply B).
  unfold store_grams. rewrite stoi_to_string by exact Hg.
  reflexivity.
Qed.

Lemma load_line_food (f : Food) (dm : DataManager) (i : nat) :
  food_wf f = true ->
  load_line (food_line f) (dm, Some i)
    = Returns (push_food i (blank_name f) dm, Some i).
Proof.
  intros H. unfold load_line.
  change (starts_with "DAILY_GOALS:" (food_line f)) with false.
  change (starts_with "DATE:" (food_line f)) with false.
  change (starts_with "FOOD:" (food_line f)) with true.
  cbn iota. rewrite parse_food_written by exact H. reflexivity.
Qed.

(** A [FOOD:] line under an active record whose calories field does not
    parse makes [loadData] throw, whatever the name and the rest of the
    line are. *)
Lemma load_line_food_bad_calories (nm tok rest : string) (e : exn)
    (dm : DataManager) (i : nat) :
  no_char "|" nm = true -> no_char "|" tok = true ->
  stoi tok = Throws e ->
  load_line ("FOOD:" ++ nm ++ "|" ++ tok ++ "|" ++ rest) (dm, Some i) = Throws e.
Proof.
  intros Hn Ht Hs. unfold load_line.
  set (line := nm ++ "|" ++ tok ++ "|" ++ rest).
  change (starts_with "DAILY_GOALS:" ("FOOD:" ++ line)) with false.
  change (starts_with "DATE:" ("FOOD:" ++ line)) with false.
  assert (P : starts_with "FOOD:" ("FOOD:" ++ line) = true)
    by (destruct line; reflexivity).
  rewrite P. cbn iota.
  change (substr_from 5 ("FOOD:" ++ line)) with line.
  subst line. unfold parse_food.
  unfold food_field at 1. rewrite getline_field by exact Hn.
  cbn [store_name bind].
  unfold food_field at 1. rewrite getline_field by exact Ht.
  unfold store_calories. rewrite Hs. reflexivity.
Qed.

Lemma trim_leading_blank (d : string) : trim_leading (String " " d) = trim_leading d.
Proof. reflexivity. Qed.

Lemma load_line_date (d : string) (dm : DataManager) (cur : option nat) :
  date_wf d = true ->
  load_line ("DATE: " ++ d) (dm, cur)
    = Returns (fst (getRecord d dm), Some (snd (getRecord d dm))).
Proof.
  intros H. unfold date_wf in H. apply andb_true_iff in H as [_ H].
  apply String.eqb_eq in H. unfold load_line.
  change (starts_with "DAILY_GOALS:" ("DATE: " ++ d)) with false.
  change (starts_with "DATE:" ("DATE: " ++ d)) with true.
  cbn iota.
  change (substr_from 5 ("DATE: " ++ d)) with (String " " d).
  rewrite trim_leading_blank, H.
  destruct (getRecord d dm). reflexivity.
Qed.

Lemma goals_wf_fields (g : DailyGoals.t) :
  goals_wf g = true ->
  in_int (DailyGoals.calories g) = true /\ in_int (DailyGoals.carbs g) = true
  /\ in_int (DailyGoals.protein g) = true /\ in_int (DailyGoals.fat g) = true.
Proof. unfold goals_wf. rewrite !andb_true_iff. tauto. Qed.

Lemma load_line_goals (g : DailyGoals.t) (dm : DataManager) (cur : option nat) :
  goals_wf g = true ->
  load_line (goals_line g) (dm, cur) = Returns (setDailyGoals g dm, cur).
Proof.
  intros H. destruct (goals_wf_fields g H) as [Ha [Hb [Hc Hd]]].
  assert (C : forall z, no_char "," (to_string z) = true)
    by (intros z; apply to_string_no_char; [reflexivity | discriminate]).
  unfold load_line.
  change (starts_with "DAILY_GOALS:" (goals_line g)) with true. cbn iota.
  unfold goals_line.
  change (substr_from 12 ("DAILY_GOALS: " ++ ?x)) with (String " " x).
  unfold parse_goals.
  change (replace_char "," " " (String " " ?x)) with (String " " (replace_char "," " " x)).
  rewrite !replace_char_app.
  rewrite !(replace_char_absent "," " " (to_string _)) by apply C.
  change (replace_char "," " " ",") with " ".
  rewrite extract_int_to_string by (first [exact Ha | cbn; reflexivity]).
  change (" " ++ ?x) with (String " " x).
  rewrite extract_int_to_string by (first [exact Hb | cbn; reflexivity]).
  change (" " ++ ?x) with (String " " x).
  rewrite extract_int_to_string by (first [exact Hc | cbn; reflexivity]).
  change (" " ++ ?x) with (String " " x).
  rewrite <- (append_empty (to_string (DailyGoals.fat g))).
  rewrite extract_int_to_string by (first [exact Hd | exact I]).
  destruct g; reflexivity.
Qed.

(** Pushing foods through the reference to the last record. *)
Lemma push_food_last (g : DailyGoals.t) (pre : list DailyRecord) (d : string)
    (acc : list Food) (fr : bool) (food : Food) :
  push_food (List.length pre) food (mkDataManager g (pre ++ [mkDailyRecord d acc]) fr)
    = mkDataManager g (pre ++ [mkDailyRecord d (acc ++ [food])]) fr.
Proof.
  unfold push_food, set_foods_at, foods_at. cbn [records dailyGoals firstRun].
  rewrite nth_error_app2, Nat.sub_diag by lia. cbn [nth_error foods].
  f_equal. induction pre as [| r pre IH]; cbn [List.length app update_nth date].
  - reflexivity.
  - rewrite IH. reflexivity.
Qed.

Lemma load_lines_foods (g : DailyGoals.t) (pre : list DailyRecord) (d : string)
    (fr : bool) (fs acc : list Food) :
  forallb food_wf fs = true ->
  load_lines (map food_line fs)
    (mkDataManager g (pre ++ [mkDailyRecord d acc]) fr, Some (List.length pre))
  = Returns (mkDataManager g (pre ++ [mkDailyRecord d (acc ++ map blank_name fs)]) fr,
             Some (List.length pre)).
Proof.
  revert acc. induction fs as [| f fs IH]; intros acc H; cbn [map load_lines].
  - rewrite app_nil_r. reflexivity.
  - cbn [forallb] in H. apply andb_true_iff in H as [Hf H].
    rewrite load_line_food by exact Hf. cbn [bind].
    rewrite push_food_last, IH by exact H.
    rewrite <- app_assoc. reflexivity.
Qed.

Lemma load_lines_record (g : DailyGoals.t) (pre : list DailyRecord) (fr : bool)
    (cur : option nat) (r : DailyRecord) :
  record_wf r = true ->
  find_record (date r) pre = None ->
  load_lines (record_lines r) (mkDataManager g pre fr, cur)
  = Returns (mkDataManager g (pre ++ [blank_names r]) fr, Some (List.length pre)).
Proof.
  intros H N. unfold record_wf in H. apply andb_true_iff in H as [Hd Hf].
  unfold record_lines. cbn [load_lines].
  rewrite load_line_date by exact Hd. cbn [bind].
  unfold getRecord. cbn [records dailyGoals firstRun]. rewrite N. cbn [fst snd].
  rewrite load_lines_foods by exact Hf. reflexivity.
Qed.

Lemma find_record_absent (d : string) (rs : list DailyRecord) :
  existsb (String.eqb d) (map date rs) = false -> find_record d rs = None.
Proof.
  induction rs as [| r rs IH]; cbn [map existsb find_record]; [reflexivity |].
  intros H. apply orb_false_iff in H as [H1 H2].
  rewrite String.eqb_sym, H1, IH by exact H2. reflexivity.
Qed.

Lemma map_date_blank (rs : list DailyRecord) :
  map date (map blank_names rs) = map date rs.
Proof. induction rs as [| r rs IH]; cbn; [| rewrite IH]; reflexivity. Qed.

Lemma distinct_app_absent (a b : list string) (d : string) :
  distinct (a ++ d :: b) = true -> existsb (String.eqb d) a = false.
Proof.
  induction a as [| x a IH]; cbn [app distinct existsb]; [reflexivity |].
  intros H. apply andb_true_iff in H as [Hx H].
  apply negb_true_iff in Hx. rewrite existsb_app in Hx.
  apply orb_false_iff in Hx as [_ Hx]. cbn [existsb] in Hx.
  apply orb_false_iff in Hx as [Hx _].
  rewrite String.eqb_sym, Hx, IH by exact H. reflexivity.
Qed.

Lemma load_lines_records (g : DailyGoals.t) (fr : bool) (rs pre : list DailyRecord)
    (cur : option nat) :
  forallb record_wf rs = true ->
  distinct (map date pre ++ map date rs) = true ->
  exists cur',
    load_lines (flat_map record_lines rs) (mkDataManager g pre fr, cur)
    = Returns (mkDataManager g (pre ++ map blank_names rs) fr, cur').
Proof.
  revert pre cur. induction rs as [| r rs IH]; intros pre cur Hw Hd.
  - exists cur. cbn [flat_map load_lines map]. rewrite app_nil_r. reflexivity.
  - cbn [forallb] in Hw. apply andb_true_iff in Hw as [Hr Hw].
    cbn [map] in Hd.
    assert (N : find_record (date r) pre = None)
      by (apply find_record_absent, (distinct_app_absent _ _ _ Hd)).
    cbn [flat_map]. rewrite load_lines_app.
    rewrite load_lines_record by assumption. cbn [bind].
    destruct (IH (pre ++ [blank_names r])%list (Some (List.length pre)) Hw) as [cur' E].
    { rewrite map_app. cbn [map blank_names date]. rewrite <- app_assoc. exact Hd. }
    exists cur'. rewrite E. cbn [map]. rewrite <- app_assoc. reflexivity.
Qed.

Lemma file_lines_text (ls : list string) :
  forallb (no_char newline) ls = true -> file_lines (text_of_lines ls) = ls.
Proof.
  induction ls as [| l ls IH]; cbn [forallb text_of_lines fold_right]; [reflexivity |].
  intros H. apply andb_true_iff in H as [Hl H].
  rewrite file_lines_app by exact Hl. fold (text_of_lines ls).
  rewrite IH by exact H. reflexivity.
Qed.

Lemma concat_cons (x : string) (xs : list string) :
  String.concat "" (x :: xs) = x ++ String.concat "" xs.
Proof.
  destruct xs as [| y ys]; cbn [String.concat]; [| reflexivity].
  rewrite append_empty. reflexivity.
Qed.

Lemma text_of_lines_app (a b : list string) :
  text_of_lines (a ++ b) = text_of_lines a ++ text_of_lines b.
Proof.
  induction a as [| l a IH]; cbn [app text_of_lines fold_right]; [reflexivity |].
  fold (text_of_lines (a ++ b)) (text_of_lines a). rewrite IH, append_assoc.
  reflexivity.
Qed.

Lemma food_text_line (f : Food) : food_text f = food_line f ++ endl.
Proof.
  unfold food_text, food_line. rewrite !append_assoc. reflexivity.
Qed.

Lemma goals_text_line (g : DailyGoals.t) : goals_text g = goals_line g ++ endl.
Proof.
  unfold goals_text, goals_line. rewrite !append_assoc. reflexivity.
Qed.

Lemma foods_text_lines (fs : list Food) :
  String.concat "" (map food_text fs) = text_of_lines (map food_line fs).
Proof.
  induction fs as [| f fs IH]; [reflexivity |].
  cbn [map]. rewrite concat_cons, IH, food_text_line.
  cbn [text_of_lines fold_right]. rewrite append_assoc. reflexivity.
Qed.

Lemma record_text_lines (r : DailyRecord) :
  record_text r = text_of_lines (record_lines r).
Proof.
  unfold record_text, record_lines. rewrite foods_text_lines.
  cbn [text_of_lines fold_right]. rewrite append_assoc. reflexivity.
Qed.

Lemma records_text_lines (rs : list DailyRecord) :
  String.concat "" (map record_text rs) = text_of_lines (flat_map record_lines rs).
Proof.
  induction rs as [| r rs IH]; [reflexivity |].
  cbn [map flat_map]. rewrite concat_cons, IH, record_text_lines, text_of_lines_app.
  reflexivity.
Qed.

(** [saveData] writes the goals line and then the lines of each record. *)
Lemma save_text_lines (dm : DataManager) :
  save_text dm
    = text_of_lines (goals_line (dailyGoals dm) :: flat_map record_lines (records dm)).
Proof.
  unfold save_text. rewrite records_text_lines, goals_text_line.
  cbn [text_of_lines fold_right]. rewrite append_assoc. reflexivity.
Qed.

Lemma newline_not_digit (z : Z) : no_char newline (to_string z) = true.
Proof. apply to_string_no_char; [reflexivity | discriminate]. Qed.

Lemma goals_line_one_line (g : DailyGoals.t) : no_char newline (goals_line g) = true.
Proof.
  unfold goals_line. rewrite !no_char_app, !newline_not_digit. reflexivity.
Qed.

Lemma food_line_one_line (f : Food) :
  food_wf f = true -> no_char newline (food_line f) = true.
Proof.
  intros H. destruct (food_wf_fields f H) as [_ [Hn _]].
  unfold food_line. rewrite !no_char_app, !newline_not_digit, Hn. reflexivity.
Qed.

Lemma record_lines_one_line (r : DailyRecord) :
  record_wf r = true -> forallb (no_char newline) (record_lines r) = true.
Proof.
  intros H. unfold record_wf in H. apply andb_true_iff in H as [Hd Hf].
  unfold date_wf in Hd. apply andb_true_iff in Hd as [Hd _].
  unfold record_lines. cbn [forallb]. rewrite no_char_app, Hd. cbn [no_char andb].
  change (negb _ && (negb _ && (negb _ && (negb _ && (negb _ && (negb _ && true)))))) with true.
  cbn [andb].
  induction (foods r) as [| f fs IH]; [reflexivity |].
  cbn [forallb map] in *. apply andb_true_iff in Hf as [Hf1 Hf2].
  rewrite food_line_one_line, IH by assumption. reflexivity.
Qed.

Lemma records_lines_one_line (rs : list DailyRecord) :
  forallb record_wf rs = true ->
  forallb (no_char newline) (flat_map record_lines rs) = true.
Proof.
  induction rs as [| r rs IH]; [reflexivity |].
  cbn [forallb flat_map]. intros H. apply andb_true_iff in H as [Hr H].
  rewrite forallb_app, record_lines_one_line, IH by assumption. reflexivity.
Qed.

(** What [save(); load()] does to a store the interface can build: goals,
    dates, the order of records and foods, and all numbers come back as
    they were; every food name comes back with one blank in front. *)
Theorem save_then_load_blanks_names (dm : DataManager) :
  store_wf dm = true ->
  save_then_load dm
    = Returns (true, mkDataManager (dailyGoals dm) (map blank_names (records dm)) false).
Proof.
  intros H. unfold store_wf in H.
  apply andb_true_iff in H as [H Hd]. apply andb_true_iff in H as [Hg Hr].
  unfold save_then_load, saveData, loadData. cbn [writable content].
  rewrite save_text_lines, file_lines_text.
  2:{ cbn [forallb]. rewrite goals_line_one_line, records_lines_one_line by exact Hr.
      reflexivity. }
  cbn [load_lines]. unfold DataManager_new.
  rewrite load_line_goals by exact Hg. cbn [bind].
  unfold setDailyGoals. cbn [records firstRun].
  destruct (load_lines_records (dailyGoals dm) false (records dm) [] None Hr Hd)
    as [cur' E].
  rewrite E. reflexivity.
Qed.

Lemma find_record_present (d : string) (rs : list DailyRecord) :
  find_record d rs = None -> existsb (String.eqb d) (map date rs) = false.
Proof.
  induction rs as [| r rs IH]; cbn [map existsb find_record]; [reflexivity |].
  rewrite (String.eqb_sym d). destruct (String.eqb (date r) d); [discriminate |].
  destruct (find_record d rs); [discriminate |]. intros _. apply IH. reflexivity.
Qed.

Lemma distinct_snoc (a : list string) (d : string) :
  distinct a = true -> existsb (String.eqb d) a = false -> distinct (a ++ [d]) = true.
Proof.
  induction a as [| x a IH]; cbn [app distinct existsb]; [reflexivity |].
  intros H N. apply andb_true_iff in H as [Hx H].
  apply orb_false_iff in N as [N1 N2].
  rewrite existsb_app. cbn [existsb]. rewrite (String.eqb_sym x), N1.
  apply negb_true_iff in Hx. rewrite Hx. cbn [orb negb andb]. apply IH; assumption.
Qed.

Lemma getRecord_wf (d : string) (dm : DataManager) :
  date_wf d = true -> store_wf dm = true -> store_wf (fst (getRecord d dm)) = true.
Proof.
  intros Hd H. unfold getRecord.
  destruct (find_record d (records dm)) eqn:E; [exact H |].
  cbn [fst]. unfold store_wf in *. cbn [dailyGoals records].
  apply andb_true_iff in H as [H Hdist]. apply andb_true_iff in H as [Hg Hr].
  rewrite Hg, forallb_app, Hr, map_app. cbn [forallb map date foods].
  unfold record_wf at 1. cbn [date foods forallb]. rewrite Hd. cbn [andb].
  apply distinct_snoc; [exact Hdist | apply find_record_present, E].
Qed.

Lemma map_date_update (i : nat) (fs : list Food) (rs : list DailyRecord) :
  map date (update_nth i (fun r => mkDailyRecord (date r) fs) rs) = map date rs.
Proof.
  revert i. induction rs as [| r rs IH]; intros [| i]; cbn [update_nth map date];
    try reflexivity.
  rewrite IH. reflexivity.
Qed.

Lemma forallb_update (i : nat) (fs : list Food) (rs : list DailyRecord) :
  forallb food_wf fs = true -> forallb record_wf rs = true ->
  forallb record_wf (update_nth i (fun r => mkDailyRecord (date r) fs) rs) = true.
Proof.
  intros Hf. revert i. induction rs as [| r rs IH]; intros [| i] H;
    cbn [update_nth forallb] in *; try reflexivity;
    apply andb_true_iff in H as [Hr H].
  - rewrite H, andb_true_r. unfold record_wf in *. cbn [date foods].
    apply andb_true_iff in Hr as [Hd _]. rewrite Hd, Hf. reflexivity.
  - rewrite Hr, IH by exact H. reflexivity.
Qed.

Lemma set_foods_at_wf (i : nat) (fs : list Food) (dm : DataManager) :
  forallb food_wf fs = true -> store_wf dm = true ->
  store_wf (set_foods_at i fs dm) = true.
Proof.
  intros Hf H. unfold store_wf in *. cbn [set_foods_at dailyGoals records].
  apply andb_true_iff in H as [H Hdist]. apply andb_true_iff in H as [Hg Hr].
  rewrite Hg, map_date_update, Hdist, forallb_update by assumption. reflexivity.
Qed.

Lemma foods_at_wf (i : nat) (dm : DataManager) :
  store_wf dm = true -> forallb food_wf (foods_at i dm) = true.
Proof.
  intros H. unfold store_wf in H.
  apply andb_true_iff in H as [H _]. apply andb_true_iff in H as [_ Hr].
  unfold foods_at. destruct (nth_error (records dm) i) as [r |] eqn:E; [| reflexivity].
  apply nth_error_In in E. rewrite forallb_forall in Hr.
  specialize (Hr r E). unfold record_wf in Hr.
  apply andb_true_iff in Hr as [_ Hr]. exact Hr.
Qed.

Lemma forallb_update_nth {A : Type} (p : A -> bool) (i : nat) (x : A) (l : list A) :
  p x = true -> forallb p l = true -> forallb p (update_nth i (fun _ => x) l) = true.
Proof.
  intros Hx. revert i. induction l as [| y l IH]; intros [| i] H;
    cbn [update_nth forallb] in *; try reflexivity;
    apply andb_true_iff in H as [Hy H].
  - rewrite Hx, H. reflexivity.
  - rewrite Hy, IH by exact H. reflexivity.
Qed.

Lemma forallb_erase_nth {A : Type} (p : A -> bool) (i : nat) (l : list A) :
  forallb p l = true -> forallb p (erase_nth i l) = true.
Proof.
  revert i. induction l as [| y l IH]; intros [| i] H;
    cbn [erase_nth forallb] in *; try reflexivity;
    apply andb_true_iff in H as [Hy H].
  - exact H.
  - rewrite Hy, IH by exact H. reflexivity.
Qed.

Lemma apply_mutation_wf (m : mutation) (dm : DataManager) :
  mutation_wf m = true -> store_wf dm = true -> store_wf (apply_mutation m dm) = true.
Proof.
  intros Hm H. destruct m as [g | d | d f | d i f | d i]; cbn [mutation_wf apply_mutation] in *.
  - unfold store_wf in *. cbn [setDailyGoals dailyGoals records].
    apply andb_true_iff in H as [H Hdist]. apply andb_true_iff in H as [_ Hr].
    rewrite Hm, Hr, Hdist. reflexivity.
  - apply getRecord_wf; assumption.
  - apply andb_true_iff in Hm as [Hd Hf].
    pose proof (getRecord_wf d dm Hd H) as W.
    destruct (getRecord d dm) as [dm' r]. cbn [fst] in W.
    unfold push_food. apply set_foods_at_wf; [| exact W].
    rewrite forallb_app, foods_at_wf by exact W. cbn [forallb]. rewrite Hf. reflexivity.
  - apply andb_true_iff in Hm as [Hd Hf].
    pose proof (getRecord_wf d dm Hd H) as W.
    destruct (getRecord d dm) as [dm' r]. cbn [fst] in W.
    apply set_foods_at_wf; [| exact W].
    apply forallb_update_nth; [exact Hf | apply foods_at_wf, W].
  - pose proof (getRecord_wf d dm Hm H) as W.
    destruct (getRecord d dm) as [dm' r]. cbn [fst] in W.
    apply set_foods_at_wf; [| exact W].
    apply forallb_erase_nth, foods_at_wf, W.
Qed.

Lemma build_wf (ms : list mutation) :
  forallb mutation_wf ms = true -> store_wf (build ms) = true.
Proof.
  unfold build. assert (W : store_wf DataManager_new = true) by reflexivity.
  revert W. generalize DataManager_new.
  induction ms as [| m ms IH]; intros dm W H; cbn [fold_left forallb] in *; [exact W |].
  apply andb_true_iff in H as [Hm H].
  apply IH; [apply apply_mutation_wf; assumption | exact H].
Qed.

Lemma apply_mutation_firstRun (m : mutation) (dm : DataManager) :
  firstRun (apply_mutation m dm) = firstRun dm.
Proof.
  destruct m as [g | d | d f | d i f | d i]; cbn [apply_mutation]; try reflexivity;
    unfold getRecord; destruct (find_record d (records dm)); reflexivity.
Qed.

Lemma build_firstRun (ms : list mutation) : firstRun (build ms) = false.
Proof.
  unfold build. assert (W : firstRun DataManager_new = false) by reflexivity.
  revert W. generalize DataManager_new.
  induction ms as [| m ms IH]; intros dm W; cbn [fold_left]; [exact W |].
  apply IH. rewrite apply_mutation_firstRun. exact W.
Qed.

Lemma blank_names_fixed (rs : list DailyRecord) :
  map blank_names rs = rs -> forall r, In r rs -> foods r = [].
Proof.
  induction rs as [| r rs IH]; cbn [map]; [intros _ r [] |].
  intros E r' Hin. injection E as E1 E2.
  destruct Hin as [<- | Hin]; [| apply IH; assumption].
  destruct r as [d fs]. unfold blank_names in E1. cbn [date foods] in *.
  injection E1 as E1. destruct fs as [| f fs]; [reflexivity |].
  cbn [map] in E1. injection E1 as E1 _.
  apply (f_equal (fun f => String.length (name f))) in E1.
  cbn [blank_name name String.length] in E1. lia.
Qed.

Lemma blank_names_id (rs : list DailyRecord) :
  (forall r, In r rs -> foods r = []) -> map blank_names rs = rs.
Proof.
  induction rs as [| r rs IH]; intros Hall; [reflexivity |].
  cbn [map]. rewrite IH by (intros r' Hr'; apply Hall; right; exact Hr').
  f_equal. pose proof (Hall r (or_introl eq_refl)) as E.
  destruct r as [d fs]. unfold blank_names. cbn [date foods] in *.
  subst fs. reflexivity.
Qed.

(** The round trip on any store built through the public mutations, with
    [int] numbers and texts that fit the line format: the load returns
    the store with a blank in front of every food name.  So the store
    comes back as it was exactly when it holds no food. *)
Theorem round_trip_through_api (ms : list mutation) :
  forallb mutation_wf ms = true ->
  save_then_load (build ms)
    = Returns (true, mkDataManager (dailyGoals (build ms))
                       (map blank_names (records (build ms))) false)
  /\ (save_then_load (build ms) = Returns (true, build ms)
      <-> forall r, In r (records (build ms)) -> foods r = []).
Proof.
  intros H. pose proof (save_then_load_blanks_names (build ms) (build_wf ms H)) as E.
  split; [exact E |]. rewrite E. split.
  - intros [= Eq]. apply blank_names_fixed.
    apply (f_equal records) in Eq. exact Eq.
  - intros Hall. do 2 f_equal.
    pose proof (build_firstRun ms) as F.
    destruct (build ms) as [g rs fr]. cbn [dailyGoals records firstRun] in *.
    subst fr. f_equal. apply blank_names_id, Hall.
Qed.

(* ===================================================================== *)
(** ** Selection and scrolling in the main view *)
(* ===================================================================== *)

Section Navigation.
Variable l : Layout.
Hypothesis menu_nonneg : 0 <= menuCount l.
Hypothesis food_nonneg : 0 <= foodCount l.
Hypothesis slots_nonneg : 0 <= visibleSlots l <= INT_MAX.
Hypothesis total_fits : menuCount l + foodCount l <= INT_MAX.


Lemma press_j_sel (sel off : Z) :
  0 <= sel < menuCount l + foodCount l ->
  fst (press_j l (sel, off)) = (sel + 1) mod (menuCount l + foodCount l).
Proof.
  intros H. unfold press_j, totalSelectable.
  unfold INT_MAX in *.
  int_cases; try lia.
  - apply Z.mod_unique with (q := 0); lia.
  - apply Z.mod_unique with (q := 1); lia.
Qed.

Lemma press_k_sel (sel off : Z) :
  0 <= sel < menuCount l + foodCount l ->
  fst (press_k l (sel, off)) = (sel - 1) mod (menuCount l + foodCount l).
Proof.
  intros H. unfold press_k, totalSelectable.
  unfold INT_MAX in *.
  int_cases; try lia.
  - apply Z.mod_unique with (q := 0); lia.
  - apply Z.mod_unique with (q := -1); lia.
Qed.

Lemma press_j_ok (nav : Z * Z) : nav_ok l nav -> nav_ok l (press_j l nav).
Proof.
  destruct nav as [sel off]. unfold nav_ok, press_j, totalSelectable.
  cbn [fst snd]. unfold INT_MAX in *. intros [Hs Ho].
  int_cases; cbn [fst snd]; lia.
Qed.

Lemma press_k_ok (nav : Z * Z) : nav_ok l nav -> nav_ok l (press_k l nav).
Proof.
  destruct nav as [sel off]. unfold nav_ok, press_k, totalSelectable.
  cbn [fst snd]. unfold INT_MAX in *. intros [Hs Ho].
  int_cases; cbn [fst snd]; lia.
Qed.

Lemma render_clamp_ok (nav : Z * Z) :
  nav_ok l nav -> nav_ok l (fst nav, render_clamp l (snd nav)).
Proof.
  destruct nav as [sel off]. unfold nav_ok, render_clamp.
  cbn [fst snd]. unfold INT_MAX in *. intros [Hs Ho].
  int_cases; cbn [fst snd]; lia.
Qed.

Lemma press_ok (m : move) (nav : Z * Z) : nav_ok l nav -> nav_ok l (press l m nav).
Proof.
  destruct m; cbn [press];
    auto using press_j_ok, press_k_ok, render_clamp_ok.
Qed.

Lemma presses_ok (ms : list move) (nav : Z * Z) :
  nav_ok l nav -> nav_ok l (presses l ms nav).
Proof.
  revert nav. induction ms as [| m ms IH]; intros nav H; [exact H |].
  apply IH, press_ok, H.
Qed.
End Navigation.

Lemma totalSelectable_sum (l : Layout) :
  0 <= menuCount l -> 0 <= foodCount l -> menuCount l + foodCount l <= INT_MAX ->
  totalSelectable l = menuCount l + foodCount l.
Proof.
  intros. unfold totalSelectable, int_add. apply wrap_id. unfold INT_MIN. lia.
Qed.

Lemma press_sel_range (l : Layout) (m : move) (nav : Z * Z) :
  0 <= menuCount l -> 0 <= foodCount l -> menuCount l + foodCount l <= INT_MAX ->
  0 <= fst nav < menuCount l + foodCount l ->
  0 <= fst (press l m nav) < menuCount l + foodCount l.
Proof.
  intros Hm Hf Hn Hs. destruct nav as [sel off]. cbn [fst] in Hs.
  destruct m; cbn [press fst].
  - rewrite press_j_sel by assumption. apply Z.mod_pos_bound. lia.
  - rewrite press_k_sel by assumption. apply Z.mod_pos_bound. lia.
  - exact Hs.
Qed.

Lemma presses_sel_range (l : Layout) (ms : list move) (nav : Z * Z) :
  0 <= menuCount l -> 0 <= foodCount l -> menuCount l + foodCount l <= INT_MAX ->
  0 <= fst nav < menuCount l + foodCount l ->
  0 <= fst (presses l ms nav) < menuCount l + foodCount l.
Proof.
  intros Hm Hf Hn. revert nav.
  induction ms as [| m ms IH]; intros nav Hs; [exact Hs |].
  apply IH. apply press_sel_range; assumption.
Qed.

Lemma presses_advance (l : Layout) (k : nat) (sel off : Z) :
  0 <= menuCount l -> 0 <= foodCount l -> menuCount l + foodCount l <= INT_MAX ->
  0 <= sel < menuCount l + foodCount l ->
  fst (presses l (repeat Advance k) (sel, off))
    = (sel + Z.of_nat k) mod (menuCount l + foodCount l).
Proof.
  intros Hm Hf Hn. revert sel off.
  induction k as [| k IH]; intros sel off Hs.
  - cbn [repeat presses fold_left fst]. rewrite Z.add_0_r, Z.mod_small; lia.
  - cbn [repeat]. change (presses l (Advance :: repeat Advance k) (sel, off))
      with (presses l (repeat Advance k) (press_j l (sel, off))).
    assert (E : fst (press_j l (sel, off)) = (sel + 1) mod (menuCount l + foodCount l))
      by (apply press_j_sel; assumption).
    destruct (press_j l (sel, off)) as [sel' off']. cbn [fst] in E. subst sel'.
    rewrite IH by (apply Z.mod_pos_bound; lia).
    rewrite Z.add_mod_idemp_l by lia. f_equal. lia.
Qed.

(** C4.  With at least one selectable entry and the focus on one of them:
    after any run of ['j'] and ['k'] (and redraws) the focus is still on
    one of them; ['j'] on the last entry goes to entry 0; ['k'] on entry 0
    goes to the last entry; and ['j'] pressed as many times as there are
    entries comes back to where it started. *)
Theorem selection_wraps_within_range (l : Layout) (ms : list move) (sel off : Z) :
  0 <= menuCount l -> 0 <= foodCount l -> menuCount l + foodCount l <= INT_MAX ->
  0 <= sel < totalSelectable l ->
  0 <= fst (presses l ms (sel, off)) < totalSelectable l
  /\ (sel = totalSelectable l - 1 -> fst (press_j l (sel, off)) = 0)
  /\ (sel = 0 -> fst (press_k l (sel, off)) = totalSelectable l - 1)
  /\ fst (presses l (repeat Advance (Z.to_nat (totalSelectable l))) (sel, off)) = sel.
Proof.
  intros Hm Hf Hn. rewrite (totalSelectable_sum l Hm Hf Hn). intros Hs.
  split; [apply presses_sel_range; assumption |].
  split; [| split].
  - intros ->. rewrite press_j_sel by lia.
    symmetry. apply Z.mod_unique with (q := 1); lia.
  - intros ->. rewrite press_k_sel by lia.
    symmetry. apply Z.mod_unique with (q := -1); lia.
  - rewrite presses_advance by assumption. rewrite Z2Nat.id by lia.
    symmetry. apply Z.mod_unique with (q := 1); lia.
Qed.

(** Four menu entries and three foods, focus on the second food. *)
Lemma selection_wraps_within_range_witness :
  (0 <= 5 < totalSelectable (mkLayout 4 3 10)) /\
  (0 <= fst (presses (mkLayout 4 3 10) [Advance; Advance; Retreat; Redraw; Advance] (5, 0))
     < totalSelectable (mkLayout 4 3 10)
   /\ (5 = totalSelectable (mkLayout 4 3 10) - 1 ->
       fst (press_j (mkLayout 4 3 10) (5, 0)) = 0)
   /\ (5 = 0 -> fst (press_k (mkLayout 4 3 10) (5, 0)) = totalSelectable (mkLayout 4 3 10) - 1)
   /\ fst (presses (mkLayout 4 3 10)
             (repeat Advance (Z.to_nat (totalSelectable (mkLayout 4 3 10)))) (5, 0)) = 5).
Proof.
  assert (R : 0 <= 5 < totalSelectable (mkLayout 4 3 10))
    by (vm_compute; split; [discriminate | reflexivity]).
  split; [exact R |].
  apply (selection_wraps_within_range (mkLayout 4 3 10)
           [Advance; Advance; Retreat; Redraw; Advance] 5 0);
    cbn [menuCount foodCount]; unfold INT_MAX; try lia; exact R.
Defined.

(** C5.  For any number of foods and of visible rows, starting with the
    focus on an entry and the list scrolled to its top, any run of ['j']
    and ['k'] (and redraws) leaves a scroll offset that is not negative
    and not more than the foods that do not fit, [max(0, foodCount -
    visibleSlots)]. *)
Theorem scroll_offset_stays_clamped (l : Layout) (ms : list move) (sel : Z) :
  0 <= menuCount l -> 0 <= foodCount l -> 0 <= visibleSlots l <= INT_MAX ->
  menuCount l + foodCount l <= INT_MAX ->
  0 <= sel < totalSelectable l ->
  0 <= snd (presses l ms (sel, 0)) <= Z.max 0 (foodCount l - visibleSlots l).
Proof.
  intros Hm Hf Hv Hn. rewrite (totalSelectable_sum l Hm Hf Hn). intros Hs.
  apply presses_ok; try assumption.
  split; cbn [fst snd]; lia.
Qed.

(** Four menu entries, twelve foods and ten rows: going up from the top
    lands on the last food with the list scrolled by two. *)
Lemma scroll_offset_stays_clamped_witness :
  (0 <= 0 < totalSelectable (mkLayout 4 12 10)) /\
  0 <= snd (presses (mkLayout 4 12 10) [Retreat; Redraw; Retreat] (0, 0))
    <= Z.max 0 (foodCount (mkLayout 4 12 10) - visibleSlots (mkLayout 4 12 10)).
Proof.
  assert (R : 0 <= 0 < totalSelectable (mkLayout 4 12 10))
    by (vm_compute; split; [discriminate | reflexivity]).
  split; [exact R |].
  apply (scroll_offset_stays_clamped (mkLayout 4 12 10) [Retreat; Redraw; Retreat] 0);
    cbn [menuCount foodCount visibleSlots]; unfold INT_MAX; try lia; exact R.
Defined.

(* ===================================================================== *)
(** ** Records behind a reference *)
(* ===================================================================== *)

Lemma find_record_new (d : string) (rs : list DailyRecord) :
  find_record d rs = None ->
  find_record d (rs ++ [mkDailyRecord d []]) = Some (List.length rs).
Proof.
  induction rs as [| r rs IH]; cbn [find_record app List.length date].
  - rewrite String.eqb_refl. reflexivity.
  - destruct (String.eqb (date r) d); [discriminate |].
    destruct (find_record d rs); [discriminate |].
    intros _. rewrite IH by reflexivity. reflexivity.
Qed.

Lemma getRecord_again (d : string) (dm : DataManager) :
  getRecord d (fst (getRecord d dm)) = getRecord d dm.
Proof.
  unfold getRecord. destruct (find_record d (records dm)) eqn:E; cbn [fst].
  - rewrite E. reflexivity.
  - cbn [records]. rewrite find_record_new by exact E. reflexivity.
Qed.

Lemma getRecord_goals (d : string) (dm : DataManager) :
  dailyGoals (fst (getRecord d dm)) = dailyGoals dm.
Proof. unfold getRecord. destruct (find_record d (records dm)); reflexivity. Qed.

Lemma update_nth_same {A : Type} (i : nat) (f : A -> A) (l : list A) (x : A) :
  nth_error l i = Some x -> nth_error (update_nth i f l) i = Some (f x).
Proof.
  revert l. induction i as [| i IH]; intros [| y l]; cbn; try discriminate.
  - intros [= ->]. reflexivity.
  - apply IH.
Qed.

Lemma find_record_nth (d : string) (rs : list DailyRecord) (i : nat) :
  find_record d rs = Some i ->
  exists r, nth_error rs i = Some r /\ date r = d.
Proof.
  revert i. induction rs as [| r rs IH]; intros i; cbn [find_record]; [discriminate |].
  destruct (String.eqb_spec (date r) d) as [E | N].
  - intros [= <-]. exists r. split; [reflexivity | exact E].
  - destruct (find_record d rs) as [j |]; cbn [option_map]; [| discriminate].
    intros [= <-]. destruct (IH j eq_refl) as [r' [H1 H2]].
    exists r'. split; assumption.
Qed.

(** The reference [getRecord] returns points at a record of that date. *)
Lemma getRecord_valid (d : string) (dm : DataManager) :
  exists r, nth_error (records (fst (getRecord d dm))) (snd (getRecord d dm)) = Some r
            /\ date r = d.
Proof.
  unfold getRecord. destruct (find_record d (records dm)) eqn:E; cbn [fst snd records].
  - apply find_record_nth, E.
  - exists (mkDailyRecord d []). split; [| reflexivity].
    rewrite nth_error_app2 by lia. rewrite Nat.sub_diag. reflexivity.
Qed.

Lemma find_record_update (d : string) (i : nat) (fs : list Food) (rs : list DailyRecord) :
  find_record d (update_nth i (fun r => mkDailyRecord (date r) fs) rs) = find_record d rs.
Proof.
  revert i. induction rs as [| r rs IH]; intros [| i]; cbn [update_nth find_record date];
    try reflexivity.
  rewrite IH. reflexivity.
Qed.

(** Writing the foods of the day through the reference and looking the
    day up again gives what was written. *)
Lemma day_foods_written (u : UIManager) (fs : list Food) :
  let (dm, record) := getRecord (currentDate u) (dataManager u) in
  day_foods (with_dataManager (set_foods_at record fs dm) u) = fs.
Proof.
  pose proof (getRecord_valid (currentDate u) (dataManager u)) as [r [Hr Hd]].
  pose proof (getRecord_again (currentDate u) (dataManager u)) as Ha.
  destruct (getRecord (currentDate u) (dataManager u)) as [dm record] eqn:E.
  cbn [fst snd] in *.
  unfold day_foods. cbn [with_dataManager currentDate dataManager].
  unfold getRecord in Ha |- *. cbn [set_foods_at records].
  rewrite find_record_update.
  destruct (find_record (currentDate u) (records dm)) as [i |] eqn:F.
  - injection Ha as <-. unfold foods_at, set_foods_at. cbn [records].
    rewrite (update_nth_same _ _ _ _ Hr). reflexivity.
  - exfalso.
    apply (f_equal (fun p => List.length (records (fst p)))) in Ha.
    cbn [fst records] in Ha. rewrite length_app in Ha. cbn [List.length] in Ha. lia.
Qed.

(* ===================================================================== *)
(** ** The main view follows the selection steps *)
(* ===================================================================== *)



Lemma day_foods_touched (u : UIManager) : day_foods (touched u) = day_foods u.
Proof.
  unfold day_foods, touched. cbn [with_dataManager currentDate dataManager].
  rewrite getRecord_again.
  destruct (getRecord (currentDate u) (dataManager u)). reflexivity.
Qed.

Lemma view_touched (u : UIManager) (nav : Z * Z) :
  view (set_nav nav (touched u)) = view u.
Proof.
  unfold view. rewrite <- (day_foods_touched u). reflexivity.
Qed.

Lemma processInput_j (w : World) :
  currentState (ui w) = STATE_MAIN_MENU ->
  processInput "j" w =
    Returns (with_ui (set_nav (press_j (day_layout (ui w)) (nav_of (ui w)))
                        (touched (ui w))) w).
Proof.
  intros H. unfold processInput, day_layout, day_foods, touched, nav_of.
  destruct (getRecord (currentDate (ui w)) (dataManager (ui w))) as [dm record].
  cbn [with_dataManager currentState menuItems selectedIndex foodScrollOffset fst].
  rewrite H. reflexivity.
Qed.

Lemma processInput_k (w : World) :
  currentState (ui w) = STATE_MAIN_MENU ->
  processInput "k" w =
    Returns (with_ui (set_nav (press_k (day_layout (ui w)) (nav_of (ui w)))
                        (touched (ui w))) w).
Proof.
  intros H. unfold processInput, day_layout, day_foods, touched, nav_of.
  destruct (getRecord (currentDate (ui w)) (dataManager (ui w))) as [dm record].
  cbn [with_dataManager currentState menuItems selectedIndex foodScrollOffset fst].
  rewrite H. reflexivity.
Qed.

Lemma renderMainMenu_effect (u : UIManager) (dmy : Z * Z * Z) :
  sscanf_date (currentDate u) = Some dmy ->
  exists u', renderMainMenu u = Returns u'
             /\ nav_of u' = (selectedIndex u, render_clamp (day_layout u) (foodScrollOffset u))
             /\ view u' = view u.
Proof.
  intros H. unfold renderMainMenu, read_date. rewrite H. cbn [bind].
  unfold updateTotals.
  pose proof (getRecord_again (currentDate u) (dataManager u)) as A.
  unfold day_layout, view, day_foods.
  destruct (getRecord (currentDate u) (dataManager u)) as [dm record] eqn:E.
  cbn [fst] in A.
  cbn [with_totals with_dataManager currentDate dataManager menuItems foodScrollOffset].
  eexists. split.
  - rewrite A. reflexivity.
  - cbn [nav_of with_foodScrollOffset with_dataManager with_totals selectedIndex
         foodScrollOffset currentState currentDate menuItems dataManager].
    rewrite A. split; reflexivity.
Qed.

Lemma step_refines (m : move) (w : World) (dmy : Z * Z * Z) :
  currentState (ui w) = STATE_MAIN_MENU ->
  sscanf_date (currentDate (ui w)) = Some dmy ->
  exists w', step m w = Returns w'
             /\ nav_of (ui w') = press (day_layout (ui w)) m (nav_of (ui w))
             /\ view (ui w') = view (ui w).
Proof.
  intros Hs Hd. destruct m; cbn [step press].
  - rewrite processInput_j by exact Hs. eexists. split; [reflexivity |].
    cbn [ui with_ui]. split; [| apply view_touched].
    destruct (press_j _ _); reflexivity.
  - rewrite processInput_k by exact Hs. eexists. split; [reflexivity |].
    cbn [ui with_ui]. split; [| apply view_touched].
    destruct (press_k _ _); reflexivity.
  - destruct (renderMainMenu_effect (ui w) dmy Hd) as [u' [R [N V]]].
    rewrite R. cbn [bind]. eexists. split; [reflexivity |].
    cbn [ui with_ui]. split; [exact N | exact V].
Qed.

Lemma day_layout_view (u u' : UIManager) : view u' = view u -> day_layout u' = day_layout u.
Proof. unfold view, day_layout. intros [= _ _ -> ->]. reflexivity. Qed.

(** Any run of ['j'], ['k'] and redraws of the main view returns, and
    moves the selection and the scroll offset as [presses] says, for the
    layout of the day on display. *)
Theorem steps_refine (ms : list move) (w : World) (dmy : Z * Z * Z) :
  currentState (ui w) = STATE_MAIN_MENU ->
  sscanf_date (currentDate (ui w)) = Some dmy ->
  exists w', steps ms w = Returns w'
             /\ nav_of (ui w') = presses (day_layout (ui w)) ms (nav_of (ui w))
             /\ view (ui w') = view (ui w).
Proof.
  revert w. induction ms as [| m ms IH]; intros w Hs Hd.
  - exists w. repeat split.
  - destruct (step_refines m w dmy Hs Hd) as [w1 [S1 [N1 V1]]].
    cbn [steps]. rewrite S1. cbn [bind].
    assert (Hs1 : currentState (ui w1) = STATE_MAIN_MENU).
    { unfold view in V1. injection V1 as -> _ _ _. exact Hs. }
    assert (Hd1 : sscanf_date (currentDate (ui w1)) = Some dmy).
    { unfold view in V1. injection V1 as _ -> _ _. exact Hd. }
    destruct (IH w1 Hs1 Hd1) as [w' [S [N V]]].
    exists w'. split; [exact S |]. split.
    + rewrite N, N1, (day_layout_view _ _ V1). reflexivity.
    + rewrite V. exact V1.
Qed.

Lemma size_int_length {A : Type} (v : list A) :
  Z.of_nat (List.length v) <= INT_MAX -> size_int v = Z.of_nat (List.length v).
Proof. intros H. apply wrap_id. unfold INT_MIN. lia. Qed.

Lemma layout_of_fields (items : list string) (fs : list Food) :
  Z.of_nat (List.length items) + Z.of_nat (List.length fs) <= INT_MAX - 6 ->
  menuCount (layout_of items fs) = Z.of_nat (List.length items)
  /\ foodCount (layout_of items fs) = Z.of_nat (List.length fs)
  /\ 0 <= visibleSlots (layout_of items fs) <= CONSOLE_HEIGHT - 10.
Proof.
  intros H. unfold layout_of, CONSOLE_HEIGHT. cbn [menuCount foodCount visibleSlots].
  unfold INT_MAX in *.
  rewrite !size_int_length by (unfold INT_MAX; lia).
  split; [reflexivity |]. split; [reflexivity |].
  int_cases; lia.
Qed.

(** The main view keeps the invariant of §4.2: from a focus on an entry
    and a scroll offset within its bounds, any run of ['j'], ['k'] and
    redraws returns with both still within their bounds, for the same
    menu and the same foods. *)
Theorem main_view_keeps_selection (ms : list move) (w : World) (dmy : Z * Z * Z) :
  currentState (ui w) = STATE_MAIN_MENU ->
  sscanf_date (currentDate (ui w)) = Some dmy ->
  Z.of_nat (List.length (menuItems (ui w)))
    + Z.of_nat (List.length (day_foods (ui w))) <= INT_MAX - 6 ->
  nav_ok (day_layout (ui w)) (nav_of (ui w)) ->
  exists w', steps ms w = Returns w'
             /\ view (ui w') = view (ui w)
             /\ nav_ok (day_layout (ui w')) (nav_of (ui w')).
Proof.
  intros Hs Hd Hn Hok.
  destruct (steps_refine ms w dmy Hs Hd) as [w' [S [N V]]].
  exists w'. split; [exact S |]. split; [exact V |].
  rewrite (day_layout_view _ _ V), N.
  destruct (layout_of_fields (menuItems (ui w)) (day_foods (ui w)) Hn) as [Em [Ef Ev]].
  fold (day_layout (ui w)) in Em, Ef, Ev.
  unfold CONSOLE_HEIGHT, INT_MAX in *.
  apply presses_ok; try assumption; rewrite ?Em, ?Ef; unfold INT_MAX; lia.
Qed.

(* ===================================================================== *)
(** ** The calendar view *)
(* ===================================================================== *)

Lemma localtime_fields (t : Z) :
  1 <= tm_mday (localtime t) <= 31 /\
  0 <= tm_mon (localtime t) <= 11 /\
  0 <= tm_wday (localtime t) <= 6.
Proof.
  unfold localtime, civil_from_days. cbv zeta.
  set (z := t / 86400 + 719468).
  set (doe := z - z / 146097 * 146097).
  set (yoe := (doe - doe / 1460 + doe / 36524 - doe / 146096) / 365).
  set (doy := doe - (365 * yoe + yoe / 4 - yoe / 100)).
  set (mp := (5 * doy + 2) / 153).
  cbn [tm_mday tm_mon tm_wday].
  assert (Hdoe : 0 <= doe <= 146096).
  { subst doe. Z.to_euclidean_division_equations. lia. }
  assert (Hdoy : 0 <= doy <= 365).
  { subst doy yoe. clearbody doe. Z.to_euclidean_division_equations. lia. }
  assert (Hmp : 0 <= mp <= 11 /\ 1 <= doy - (153 * mp + 2) / 5 + 1 <= 31).
  { subst mp. clearbody doy. Z.to_euclidean_division_equations. lia. }
  split; [tauto |]. split.
  - destruct (Z.ltb_spec mp 10); lia.
  - pose proof (Z.mod_pos_bound (t / 86400 + 4) 7 eq_refl). lia.
Qed.

(** A month starts on one of the seven weekdays and has at most 31 days. *)
Lemma month_layout_range (month year : Z) :
  0 <= fst (month_layout month year) <= 6 /\
  1 <= snd (month_layout month year) <= 31.
Proof.
  unfold month_layout, mktime. cbn [fst snd].
  split; apply localtime_fields.
Qed.

(** February has 29 days in 2024 and 28 in 2023; December 2024 has 31. *)
Example days_in_month_examples :
  snd (month_layout 2 2024) = 29 /\ snd (month_layout 2 2023) = 28
  /\ snd (month_layout 12 2024) = 31.
Proof. repeat split. Qed.

(** ['w'] in December shows January of the next year, cursor on day 1. *)
Example next_month_from_december :
  processCalendarInput "w"
    (with_currentState STATE_CALENDAR (UIManager_new DataManager_new "15/12/2024"))
  = Returns (with_selectedCalendarDay 1
               (with_currentState STATE_CALENDAR
                  (UIManager_new DataManager_new "15/01/2025"))).
Proof. reflexivity. Qed.

Lemma grid_walk_formula (sw : Z) (n : nat) :
  0 <= sw <= 6 -> Z.of_nat n <= 1000 ->
  grid_walk n (0, sw) = ((sw + Z.of_nat n) / 7, (sw + Z.of_nat n) mod 7).
Proof.
  intros Hs. induction n as [| n IH]; intros Hn.
  - cbn [grid_walk]. rewrite Z.add_0_r, Z.div_small, Z.mod_small by lia. reflexivity.
  - cbn [grid_walk]. rewrite IH by lia.
    replace (sw + Z.of_nat (Datatypes.S n)) with (sw + Z.of_nat n + 1) by lia.
    set (k := sw + Z.of_nat n) in *.
    assert (0 <= k <= 1006) by lia. clearbody k.
    unfold INT_MAX, INT_MIN in *.
    assert (0 <= k mod 7 < 7 /\ 0 <= k / 7 <= 1006) as [? ?]
      by (Z.to_euclidean_division_equations; lia).
    int_cases; f_equal; Z.to_euclidean_division_equations; lia.
Qed.

Lemma grid_cell_formula (sw d : Z) :
  0 <= sw <= 6 -> 1 <= d <= 1000 ->
  grid_cell sw d = ((sw + d - 1) / 7, (sw + d - 1) mod 7).
Proof.
  intros Hs Hd. unfold grid_cell. rewrite grid_walk_formula by lia.
  rewrite Z2Nat.id by lia. do 2 f_equal; lia.
Qed.

Lemma grid_col_cell (sw d : Z) :
  0 <= sw <= 6 -> 1 <= d <= 1000 ->
  grid_col sw d = snd (grid_cell sw d).
Proof.
  intros Hs Hd. rewrite grid_cell_formula by assumption. cbn [snd].
  unfold grid_col, int_rem, INT_MAX, INT_MIN in *. int_cases.
  apply Z.rem_mod_nonneg; lia.
Qed.

Lemma processCalendarInput_h (u : UIManager) (d m y : Z) :
  sscanf_date (currentDate u) = Some (d, m, y) ->
  processCalendarInput "h" u =
    Returns (with_selectedCalendarDay
               (calendar_left (fst (month_layout m y)) (selectedCalendarDay u)) u).
Proof.
  intros H. unfold processCalendarInput, read_date. rewrite H. cbn [bind].
  destruct (month_layout m y). reflexivity.
Qed.

Lemma processCalendarInput_l (u : UIManager) (d m y : Z) :
  sscanf_date (currentDate u) = Some (d, m, y) ->
  processCalendarInput "l" u =
    Returns (with_selectedCalendarDay
               (calendar_right (fst (month_layout m y)) (snd (month_layout m y))
                  (selectedCalendarDay u)) u).
Proof.
  intros H. unfold processCalendarInput, read_date. rewrite H. cbn [bind].
  destruct (month_layout m y). reflexivity.
Qed.

(** C6.  In the calendar of the month of [currentDate], with the cursor on
    a day of that month: ['h'] and ['l'] return, leave everything but the
    cursor alone, and move the cursor by one day exactly when the
    neighbouring day exists and lies in the same grid row; the cursor
    never leaves its row.  So ['h'] does nothing in column 0 or on day 1,
    ['l'] does nothing in column 6 or on the last day, and ['h'] on day 1
    of a month that starts in column 5 does nothing. *)
Theorem calendar_left_right_stay_in_row (u : UIManager) (d m y : Z) :
  sscanf_date (currentDate u) = Some (d, m, y) ->
  1 <= selectedCalendarDay u <= snd (month_layout m y) ->
  let startWeekday := fst (month_layout m y) in
  let daysInMonth := snd (month_layout m y) in
  let day := selectedCalendarDay u in
  let row := fst (grid_cell startWeekday day) in
  let col := snd (grid_cell startWeekday day) in
  exists left right,
    processCalendarInput "h" u = Returns (with_selectedCalendarDay left u)
    /\ processCalendarInput "l" u = Returns (with_selectedCalendarDay right u)
    /\ left = (if (col =? 0) || (day =? 1) then day else day - 1)
    /\ right = (if (col =? 6) || (day =? daysInMonth) then day else day + 1)
    /\ fst (grid_cell startWeekday left) = row
    /\ fst (grid_cell startWeekday right) = row
    /\ (startWeekday = 5 -> day = 1 -> left = 1).
Proof.
  intros Hdate Hday startWeekday daysInMonth day row col.
  pose proof (month_layout_range m y) as [Hsw Hdim].
  fold startWeekday daysInMonth in Hsw, Hdim, Hday.
  fold day in Hday.
  exists (calendar_left startWeekday day), (calendar_right startWeekday daysInMonth day).
  split; [exact (processCalendarInput_h u d m y Hdate) |].
  split; [exact (processCalendarInput_l u d m y Hdate) |].
  assert (Hcol : grid_col startWeekday day = col)
    by (apply grid_col_cell; lia).
  assert (Hc : col = (startWeekday + day - 1) mod 7)
    by (subst col; rewrite grid_cell_formula by lia; reflexivity).
  assert (Hr : row = (startWeekday + day - 1) / 7)
    by (subst row; rewrite grid_cell_formula by lia; reflexivity).
  unfold calendar_left, calendar_right. rewrite Hcol.
  clearbody startWeekday daysInMonth day row col.
  unfold INT_MIN, INT_MAX in *.
  assert (0 <= col < 7) by (rewrite Hc; apply Z.mod_pos_bound; lia).
  repeat split.
  - destruct (Z.eqb_spec col 0), (Z.eqb_spec day 1), (Z.ltb_spec 1 day),
      (Z.ltb_spec 0 col); cbn [orb andb]; int_cases; lia.
  - destruct (Z.eqb_spec col 6), (Z.eqb_spec day daysInMonth),
      (Z.ltb_spec col 6), (Z.ltb_spec day daysInMonth); cbn [orb andb];
      int_cases; lia.
  - destruct (Z.ltb_spec 1 day), (Z.ltb_spec 0 col); cbn [andb]; int_cases;
      rewrite grid_cell_formula by lia; cbn [fst]; rewrite Hr;
      try reflexivity; rewrite Hc in *; Z.to_euclidean_division_equations; lia.
  - destruct (Z.ltb_spec col 6), (Z.ltb_spec day daysInMonth); cbn [andb]; int_cases;
      rewrite grid_cell_formula by lia; cbn [fst]; rewrite Hr;
      try reflexivity; rewrite Hc in *; Z.to_euclidean_division_equations; lia.
  - intros -> ->. reflexivity.
Qed.

(** January 2027 starts on a Friday, column 5: from day 1, ['h'] stays
    and ['l'] goes to day 2. *)
Lemma calendar_left_right_stay_in_row_witness :
  sscanf_date (currentDate january_2027) = Some (15, 1, 2027)
  /\ 1 <= selectedCalendarDay january_2027 <= snd (month_layout 1 2027)
  /\ fst (month_layout 1 2027) = 5
  /\ processCalendarInput "h" january_2027 = Returns january_2027
  /\ processCalendarInput "l" january_2027
     = Returns (with_selectedCalendarDay 2 january_2027).
Proof.
  assert (H1 : sscanf_date (currentDate january_2027) = Some (15, 1, 2027))
    by reflexivity.
  assert (H2 : 1 <= selectedCalendarDay january_2027 <= snd (month_layout 1 2027))
    by (vm_compute; split; discriminate).
  pose proof (calendar_left_right_stay_in_row january_2027 15 1 2027 H1 H2) as T.
  cbv zeta in T. destruct T as [left [right [Hh [Hl [El [Er _]]]]]].
  vm_compute in El. vm_compute in Er. subst left right.
  split; [exact H1 |]. split; [exact H2 |]. split; [reflexivity |].
  split; [exact Hh | exact Hl].
Defined.

(* ===================================================================== *)
(** ** Deleting a food and changing the day *)
(* ===================================================================== *)

Lemma erase_nth_length {A : Type} (i : nat) (l : list A) :
  (i < List.length l)%nat -> List.length (erase_nth i l) = (List.length l - 1)%nat.
Proof.
  revert i. induction l as [| x l IH]; intros [| i] H; cbn in *; try lia.
  rewrite IH by lia. lia.
Qed.

Lemma erase_nth_last {A : Type} (l : list A) :
  erase_nth (List.length l - 1) l = removelast l.
Proof.
  induction l as [| x l IH]; [reflexivity |].
  destruct l as [| y l]; [reflexivity |].
  cbn [List.length Nat.sub] in *. rewrite Nat.sub_0_r in *.
  cbn [erase_nth]. rewrite IH. reflexivity.
Qed.

Lemma press_x_focused (menuCount : Z) (fs : list Food) (sel : Z) :
  0 <= menuCount -> menuCount + Z.of_nat (List.length fs) <= INT_MAX ->
  menuCount <= sel < menuCount + Z.of_nat (List.length fs) ->
  press_x menuCount fs sel =
    Some (erase_nth (Z.to_nat (sel - menuCount)) fs,
          if sel =? menuCount + Z.of_nat (List.length fs) - 1 then sel - 1 else sel).
Proof.
  intros Hm Hn Hs. unfold press_x.
  assert (Hlen : List.length (erase_nth (Z.to_nat (sel - menuCount)) fs)
                 = (List.length fs - 1)%nat) by (apply erase_nth_length; lia).
  rewrite (size_int_length fs) by lia.
  unfold INT_MAX in *.
  destruct (Z.leb_spec menuCount sel); [| lia].
  assert (E : int_sub sel menuCount = sel - menuCount)
    by (apply wrap_id; unfold INT_MIN, INT_MAX; lia).
  rewrite !E.
  destruct (Z.leb_spec 0 (sel - menuCount)); [| lia].
  destruct (Z.ltb_spec (sel - menuCount) (Z.of_nat (List.length fs))); [| lia].
  cbn [andb]. rewrite size_int_length by (rewrite Hlen; unfold INT_MAX; lia).
  rewrite Hlen. do 2 f_equal.
  destruct (Z.eqb_spec sel (menuCount + Z.of_nat (List.length fs) - 1));
    int_cases; lia.
Qed.

Lemma processInput_x (w : World) :
  currentState (ui w) = STATE_MAIN_MENU ->
  processInput "x" w =
    match press_x (size_int (menuItems (ui w))) (day_foods (ui w)) (selectedIndex (ui w)) with
    | Some (fs', sel') =>
        let (dm, record) := getRecord (currentDate (ui w)) (dataManager (ui w)) in
        Returns (save (with_ui (with_selectedIndex sel'
                                  (with_dataManager (set_foods_at record fs' dm) (ui w))) w))
    | None => Returns (with_ui (touched (ui w)) w)
    end.
Proof.
  intros H. unfold processInput, day_foods, touched.
  destruct (getRecord (currentDate (ui w)) (dataManager (ui w))) as [dm record].
  cbn [with_dataManager currentState menuItems selectedIndex foodScrollOffset fst
       layout_of menuCount].
  rewrite H.
  change (key_is "x" "j") with false. change (key_is "x" "k") with false.
  change (key_is "x" cr) with false. change (key_is "x" "x") with true.
  cbn iota.
  destruct (press_x (size_int (menuItems (ui w))) (foods_at record dm) (selectedIndex (ui w)))
    as [[fs' sel'] |]; reflexivity.
Qed.

(** C9.  With a fixed action item in the menu and the focus on a food of
    the day, ['x'] returns with that food removed from the day and the
    focus within [0, menuCount + foodCount) of what is left.  When the
    food was the last of the list, the focus is on the entry before it:
    the new last food, or the last fixed action item when no food is
    left. *)
Theorem delete_keeps_focus_in_range (w : World) :
  let menu := Z.of_nat (List.length (menuItems (ui w))) in
  let fs := day_foods (ui w) in
  let sel := selectedIndex (ui w) in
  currentState (ui w) = STATE_MAIN_MENU ->
  1 <= menu ->
  menu + Z.of_nat (List.length fs) <= INT_MAX ->
  menu <= sel < menu + Z.of_nat (List.length fs) ->
  exists w',
    processInput "x" w = Returns w'
    /\ menuItems (ui w') = menuItems (ui w)
    /\ day_foods (ui w') = erase_nth (Z.to_nat (sel - menu)) fs
    /\ 0 <= selectedIndex (ui w') < menu + Z.of_nat (List.length (day_foods (ui w')))
    /\ (sel = menu + Z.of_nat (List.length fs) - 1 ->
        day_foods (ui w') = removelast fs
        /\ selectedIndex (ui w') = menu + Z.of_nat (List.length (removelast fs)) - 1).
Proof.
  intros menu fs sel Hst Hm Hn Hs.
  rewrite processInput_x by exact Hst.
  rewrite size_int_length by (fold menu; lia).
  fold menu fs sel. rewrite press_x_focused by lia.
  pose proof (day_foods_written (ui w) (erase_nth (Z.to_nat (sel - menu)) fs)) as W.
  destruct (getRecord (currentDate (ui w)) (dataManager (ui w))) as [dm record].
  eexists. split; [reflexivity |].
  cbn [save ui with_ui with_disk].
  assert (D : day_foods (with_selectedIndex
                (if sel =? menu + Z.of_nat (List.length fs) - 1 then sel - 1 else sel)
                (with_dataManager
                   (set_foods_at record (erase_nth (Z.to_nat (sel - menu)) fs) dm) (ui w)))
              = erase_nth (Z.to_nat (sel - menu)) fs) by exact W.
  rewrite D. cbn [with_selectedIndex menuItems selectedIndex].
  assert (L : List.length (erase_nth (Z.to_nat (sel - menu)) fs)
              = (List.length fs - 1)%nat) by (apply erase_nth_length; lia).
  split; [reflexivity |]. split; [reflexivity |]. split.
  - rewrite L. destruct (Z.eqb_spec sel (menu + Z.of_nat (List.length fs) - 1)); lia.
  - intros E.
    assert (P : Z.to_nat (sel - menu) = (List.length fs - 1)%nat) by lia.
    rewrite P, erase_nth_last. split; [reflexivity |].
    rewrite <- erase_nth_last, <- P, L.
    destruct (Z.eqb_spec sel (menu + Z.of_nat (List.length fs) - 1)); lia.
Qed.

(** One food on the day and the focus on it: ['x'] leaves no food and the
    focus on the last of the four menu entries. *)
Lemma delete_keeps_focus_in_range_witness :
  currentState (ui one_food_world) = STATE_MAIN_MENU
  /\ day_foods (ui one_food_world) = [apple]
  /\ selectedIndex (ui one_food_world) = 4
  /\ exists w',
       processInput "x" one_food_world = Returns w'
       /\ day_foods (ui w') = []
       /\ selectedIndex (ui w') = 3.
Proof.
  split; [reflexivity |]. split; [reflexivity |]. split; [reflexivity |].
  pose proof (delete_keeps_focus_in_range one_food_world) as T.
  cbv zeta in T.
  destruct T as [w' [R [_ [F [_ L]]]]].
  - reflexivity.
  - vm_compute. discriminate.
  - vm_compute. discriminate.
  - vm_compute. split; [discriminate | reflexivity].
  - exists w'. split; [exact R |].
    destruct (L eq_refl) as [L1 L2]. split; [exact L1 | exact L2].
Defined.

Lemma changeDateByOffset_dataManager (offset : Z) (dm : DataManager) (u : UIManager) :
  changeDateByOffset offset (with_dataManager dm u) =
    (u' <- changeDateByOffset offset u ;; Returns (with_dataManager dm u')).
Proof.
  unfold changeDateByOffset. cbn [with_dataManager currentDate].
  destruct (read_date (currentDate u)) as [[[d m] y] | | | |]; cbn [bind]; try reflexivity.
  destruct (format_date _ _ _); reflexivity.
Qed.


(** C10.  In the main view, when ['h'] or ['l'] is pressed and the date
    shift itself succeeds, [processInput] returns with the focus on entry
    0 and the food list scrolled to its top, whatever was focused before;
    the date on display is the shifted one. *)
Theorem day_shift_resets_selection (key : ascii) (w : World) (shifted : UIManager) :
  currentState (ui w) = STATE_MAIN_MENU ->
  key = "h"%char \/ key = "l"%char ->
  changeDateByOffset (day_shift key) (ui w) = Returns shifted ->
  exists w',
    processInput key w = Returns w'
    /\ selectedIndex (ui w') = 0
    /\ foodScrollOffset (ui w') = 0
    /\ currentDate (ui w') = currentDate shifted.
Proof.
  intros Hst Hkey Hshift. unfold processInput.
  destruct (getRecord (currentDate (ui w)) (dataManager (ui w))) as [dm record].
  cbn [with_dataManager currentState]. rewrite Hst.
  destruct Hkey as [-> | ->]; unfold day_shift in Hshift;
    [ change (key_is "h" "h") with true in Hshift
    | change (key_is "l" "h") with false in Hshift ]; cbn iota in Hshift.
  - change (key_is "h" "j") with false. change (key_is "h" "k") with false.
    change (key_is "h" cr) with false. change (key_is "h" "x") with false.
    change (key_is "h" "h") with true. cbn iota.
    change (mkUIManager _ _ _ _ _ _ _ _ _ _ _ _) with (with_dataManager dm (ui w)).
    rewrite changeDateByOffset_dataManager, Hshift. cbn [bind].
    eexists. split; [reflexivity |]. repeat split.
  - change (key_is "l" "j") with false. change (key_is "l" "k") with false.
    change (key_is "l" cr) with false. change (key_is "l" "x") with false.
    change (key_is "l" "h") with false. change (key_is "l" "l") with true. cbn iota.
    change (mkUIManager _ _ _ _ _ _ _ _ _ _ _ _) with (with_dataManager dm (ui w)).
    rewrite changeDateByOffset_dataManager, Hshift. cbn [bind].
    eexists. split; [reflexivity |]. repeat split.
Qed.

(** From 1 January 2025 with the focus on a food, ['h'] shows 31 December
    2024 with the focus on entry 0. *)
Lemma day_shift_resets_selection_witness :
  currentState (ui one_food_world) = STATE_MAIN_MENU
  /\ selectedIndex (ui one_food_world) = 4
  /\ changeDateByOffset (day_shift "h") (ui one_food_world)
     = Returns (with_currentDate "31/12/2024" (ui one_food_world))
  /\ exists w',
       processInput "h" one_food_world = Returns w'
       /\ selectedIndex (ui w') = 0
       /\ foodScrollOffset (ui w') = 0
       /\ currentDate (ui w') = "31/12/2024".
Proof.
  assert (S : changeDateByOffset (day_shift "h") (ui one_food_world)
              = Returns (with_currentDate "31/12/2024" (ui one_food_world)))
    by (vm_compute; reflexivity).
  split; [reflexivity |]. split; [reflexivity |]. split; [exact S |].
  exact (day_shift_resets_selection "h" one_food_world _ eq_refl (or_introl eq_refl) S).
Defined.

(* ===================================================================== *)
(** ** Text capture in the forms *)
(* ===================================================================== *)

Lemma key_is_cr : key_is cr cr = true.
Proof. reflexivity. Qed.

Lemma stoi_empty : stoi "" = Throws invalid_argument.
Proof. reflexivity. Qed.

Lemma FoodForm_capture_failure (input : string) (e : exn) (f : FoodForm.t) :
  stoi input = Throws e ->
  1 <= FoodForm.localSelection f <= 5 ->
  FoodForm.capture input f = Returns f.
Proof.
  intros H Hs. unfold FoodForm.capture.
  destruct (negb (empty input)); [| reflexivity].
  destruct (Z.eqb_spec (FoodForm.localSelection f) 0); [lia |].
  rewrite H. reflexivity.
Qed.

Lemma TemplateForm_capture_failure (input : string) (e : exn) (f : TemplateForm.t) :
  stoi input = Throws e ->
  1 <= TemplateForm.editSelection f <= 4 ->
  TemplateForm.capture input f = Returns f.
Proof.
  intros H Hs. unfold TemplateForm.capture.
  destruct (Z.eqb_spec (TemplateForm.editSelection f) 0); [lia |].
  rewrite H. reflexivity.
Qed.

Lemma GoalsForm_capture_reset_failure (input : string) (e : exn) (f : GoalsForm.t) :
  stoi input = Throws e -> GoalsForm.capture_reset input f = Returns f.
Proof.
  intros H. unfold GoalsForm.capture_reset.
  destruct (negb (empty input)); [| reflexivity].
  rewrite H. reflexivity.
Qed.

Lemma GoalsForm_capture_start_failure (input : string) (e : exn) (f : GoalsForm.t) :
  stoi input = Throws e ->
  GoalsForm.capture_start input f = Returns (GoalsForm.assign 0 f).
Proof.
  intros H. unfold GoalsForm.capture_start.
  destruct (negb (empty input)); [| reflexivity].
  rewrite H. reflexivity.
Qed.

(** C7, as amended.  [Enter] on a numeric field reads a line; when that
    line does not parse as an integer ([std::stoi] throws), the turn
    returns and the form goes on.  In the edit-food, custom-food,
    create-template and reset-goals forms every held value is as before.
    In the start-goals form the selected field is set to 0. *)
Theorem parse_failure_in_forms (input : string) (e : exn) (w w' : World) :
  stoi input = Throws e ->
  cin_getline w = Returns (input, w') ->
  (forall record foodIndex f, 1 <= FoodForm.localSelection f <= 5 ->
     editFood_turn record foodIndex cr f w = Returns (w', Some f))
  /\ (forall f, 1 <= FoodForm.localSelection f <= 5 ->
        addCustomFood_turn cr f w = Returns (w', Some f))
  /\ (forall f, 1 <= TemplateForm.editSelection f <= 4 ->
        createTemplate_turn cr f w = Returns (w', Some f))
  /\ (forall f, 0 <= GoalsForm.localSelection f <= 3 ->
        resetGoals_turn cr f w = Returns (w', Some f))
  /\ (forall f, 0 <= GoalsForm.localSelection f <= 3 ->
        startGoals_turn cr f w = Returns (w', Some (GoalsForm.assign 0 f))).
Proof.
  intros Hstoi Hline. repeat split.
  - intros record foodIndex f Hs. unfold editFood_turn.
    change (key_is cr "j") with false. change (key_is cr "k") with false.
    rewrite key_is_cr. cbn iota.
    destruct (Z.leb_spec 0 (FoodForm.localSelection f)); [| lia].
    destruct (Z.ltb_spec (FoodForm.localSelection f) 6); [| lia].
    cbn [andb]. rewrite Hline. cbn [bind].
    rewrite (FoodForm_capture_failure input e f Hstoi Hs). reflexivity.
  - intros f Hs. unfold addCustomFood_turn.
    change (key_is cr "j") with false. change (key_is cr "k") with false.
    rewrite key_is_cr. cbn iota.
    destruct (Z.leb_spec 0 (FoodForm.localSelection f)); [| lia].
    destruct (Z.ltb_spec (FoodForm.localSelection f) 6); [| lia].
    cbn [andb]. rewrite Hline. cbn [bind].
    rewrite (FoodForm_capture_failure input e f Hstoi Hs). reflexivity.
  - intros f Hs. unfold createTemplate_turn.
    change (key_is cr "j") with false. change (key_is cr "k") with false.
    rewrite key_is_cr. cbn iota.
    destruct (Z.ltb_spec (TemplateForm.editSelection f) 5); [| lia].
    rewrite Hline. cbn [bind].
    rewrite (TemplateForm_capture_failure input e f Hstoi Hs). reflexivity.
  - intros f Hs. unfold resetGoals_turn, goals_turn.
    change (key_is cr "j") with false. change (key_is cr "k") with false.
    rewrite key_is_cr. cbn iota.
    destruct (Z.ltb_spec (GoalsForm.localSelection f) 4); [| lia].
    rewrite Hline. cbn [bind].
    rewrite (GoalsForm_capture_reset_failure input e f Hstoi). reflexivity.
  - intros f Hs. unfold startGoals_turn, goals_turn.
    change (key_is cr "j") with false. change (key_is cr "k") with false.
    rewrite key_is_cr. cbn iota.
    destruct (Z.ltb_spec (GoalsForm.localSelection f) 4); [| lia].
    rewrite Hline. cbn [bind].
    rewrite (GoalsForm_capture_start_failure input e f Hstoi). reflexivity.
Qed.


(** The line "abc" typed into a numeric field of each form. *)
Lemma parse_failure_in_forms_witness :
  stoi "abc" = Throws invalid_argument
  /\ cin_getline (typed "abc") = Returns ("abc", with_cin (mk_istream "" false) (typed "abc"))
  /\ editFood_turn 0 0 cr (FoodForm.mk 1 "Apple" 52 14 0 0 100) (typed "abc")
     = Returns (with_cin (mk_istream "" false) (typed "abc"),
                Some (FoodForm.mk 1 "Apple" 52 14 0 0 100))
  /\ startGoals_turn cr (GoalsForm.mk 0 [2000; 250; 150; 70]) (typed "abc")
     = Returns (with_cin (mk_istream "" false) (typed "abc"),
                Some (GoalsForm.mk 0 [0; 250; 150; 70])).
Proof.
  assert (S : stoi "abc" = Throws invalid_argument) by reflexivity.
  assert (L : cin_getline (typed "abc")
              = Returns ("abc", with_cin (mk_istream "" false) (typed "abc")))
    by reflexivity.
  destruct (parse_failure_in_forms "abc" invalid_argument (typed "abc") _ S L)
    as [E [_ [_ [_ G]]]].
  split; [exact S |]. split; [exact L |]. split.
  - apply (E 0%nat 0%nat (FoodForm.mk 1 "Apple" 52 14 0 0 100)). cbn. lia.
  - apply (G (GoalsForm.mk 0 [2000; 250; 150; 70])). cbn. lia.
Defined.

(** C7 as first stated fails in the start-goals form: with 2000 held in
    the calories field, the line "abc" does not parse, and the field
    holds 0 afterwards. *)
Lemma startGoals_parse_failure_zeroes :
  stoi "abc" = Throws invalid_argument
  /\ exists w' f',
       startGoals_turn cr (GoalsForm.mk 0 [2000; 250; 150; 70]) (typed "abc")
         = Returns (w', Some f')
       /\ GoalsForm.field 0 (GoalsForm.mk 0 [2000; 250; 150; 70]) = 2000
       /\ GoalsForm.field 0 f' = 0
       /\ f' <> GoalsForm.mk 0 [2000; 250; 150; 70].
Proof.
  split; [reflexivity |].
  eexists. eexists. split; [reflexivity |].
  repeat split. discriminate.
Qed.

Lemma substr_to_length (n : nat) (s : string) :
  (n <= String.length s)%nat -> String.length (substr_to n s) = n.
Proof.
  revert s. induction n as [| n IH]; intros [| c s] H; cbn in *; try lia.
  rewrite IH by lia. reflexivity.
Qed.

Lemma substr_to_prefix (n : nat) (s : string) :
  String.prefix (substr_to n s) s = true.
Proof.
  revert s. induction n as [| n IH]; intros [| c s]; cbn; try reflexivity.
  destruct (ascii_dec c c); [apply IH | contradiction].
Qed.

(** The name field of the edit-food and custom-food forms keeps the first
    21 characters of a longer line. *)
Lemma FoodForm_capture_clips (input : string) (f : FoodForm.t) :
  FoodForm.localSelection f = 0 ->
  (maxNameLen < String.length input)%nat ->
  exists f', FoodForm.capture input f = Returns f'
             /\ FoodForm.foodName f' = substr_to maxNameLen input
             /\ String.length (FoodForm.foodName f') = maxNameLen.
Proof.
  intros Hs Hl. unfold FoodForm.capture.
  destruct input as [| c r]; [cbn in Hl; lia |]. cbn [empty negb].
  rewrite Hs. cbn [Z.eqb]. eexists. split; [reflexivity |].
  cbn [FoodForm.with_foodName FoodForm.foodName]. unfold clip_name.
  destruct (Nat.ltb_spec maxNameLen (String.length (String c r))); [| lia].
  split; [reflexivity |]. apply substr_to_length. lia.
Qed.

(** The name field of the create-template form keeps the whole line. *)
Lemma TemplateForm_capture_name (input : string) (f : TemplateForm.t) :
  TemplateForm.editSelection f = 0 ->
  exists f', TemplateForm.capture input f = Returns f'
             /\ TemplateForm.tplName f' = input.
Proof.
  intros Hs. unfold TemplateForm.capture. rewrite Hs. cbn [Z.eqb].
  eexists. split; reflexivity.
Qed.

(** C8 at a line of 26 characters in the create-template form.  [Enter]
    on the name field of "create new template" stores the line as it was
    typed; nothing is cut at 21 characters. *)
Theorem createTemplate_name_not_truncated :
  String.length "abcdefghijklmnopqrstuvwxyz" = 26%nat
  /\ createTemplate_turn cr (TemplateForm.mk 0 "" 0 0 0 0)
       (typed "abcdefghijklmnopqrstuvwxyz")
     = Returns (with_cin (mk_istream "" false) (typed "abcdefghijklmnopqrstuvwxyz"),
                Some (TemplateForm.mk 0 "abcdefghijklmnopqrstuvwxyz" 0 0 0 0))
  /\ addCustomFood_turn cr (FoodForm.mk 0 "" (-1) (-1) (-1) (-1) (-1))
       (typed "abcdefghijklmnopqrstuvwxyz")
     = Returns (with_cin (mk_istream "" false) (typed "abcdefghijklmnopqrstuvwxyz"),
                Some (FoodForm.mk 0 "abcdefghijklmnopqrstu" (-1) (-1) (-1) (-1) (-1))).
Proof. repeat split. Qed.

(* ===================================================================== *)
(** ** The Gregorian calendar behind mktime *)
(* ===================================================================== *)

Lemma days_from_civil_from_days (k : Z) :
  let '(y, m, d) := civil_from_days k in days_from_civil y m d = k.
Proof.
  unfold civil_from_days. cbv zeta.
  set (z := k + 719468).
  set (era := z / 146097).
  set (doe := z - era * 146097).
  set (yoe := (doe - doe / 1460 + doe / 36524 - doe / 146096) / 365).
  set (doy := doe - (365 * yoe + yoe / 4 - yoe / 100)).
  set (mp := (5 * doy + 2) / 153).
  assert (Hdoe : 0 <= doe <= 146096) by (subst doe era; Z.to_euclidean_division_equations; lia).
  assert (Hyoe : 0 <= yoe <= 399) by (subst yoe; clearbody doe; Z.to_euclidean_division_equations; lia).
  assert (Hdoy : 0 <= doy <= 365) by (subst doy yoe; clearbody doe; Z.to_euclidean_division_equations; lia).
  assert (Hmp : 0 <= mp <= 11) by (subst mp; clearbody doy; Z.to_euclidean_division_equations; lia).
  unfold days_from_civil.
  destruct (Z.ltb_spec mp 10).
  - assert (E: (mp + 3 <=? 2) = false) by (apply Z.leb_gt; lia). rewrite E.
    replace ((mp + 3 + 9) mod 12) with mp by (Z.to_euclidean_division_equations; lia).
    replace ((yoe + era * 400) / 400) with era by (Z.to_euclidean_division_equations; lia).
    replace (yoe + era * 400 - era * 400) with yoe by lia.
    fold doy. subst doy doe z. lia.
  - assert (E: (mp - 9 <=? 2) = true) by (apply Z.leb_le; lia). rewrite E.
    replace ((mp - 9 + 9) mod 12) with mp by (Z.to_euclidean_division_equations; lia).
    replace (yoe + era * 400 + 1 - 1) with (yoe + era * 400) by lia.
    replace ((yoe + era * 400) / 400) with era by (Z.to_euclidean_division_equations; lia).
    replace (yoe + era * 400 - era * 400) with yoe by lia.
    subst doy doe z. lia.
Qed.

Lemma yoe_recovered (yoe doy : Z) :
  0 <= yoe <= 399 -> 0 <= doy ->
  doy <= (if is_leap (yoe + 1) then 365 else 364) ->
  let doe := yoe * 365 + yoe / 4 - yoe / 100 + doy in
  (doe - doe / 1460 + doe / 36524 - doe / 146096) / 365 = yoe /\ 0 <= doe <= 146096.
Proof.
  intros Hy Hd Hl. cbv zeta. unfold is_leap in Hl.
  destruct (Z.eqb_spec ((yoe + 1) mod 4) 0), (Z.eqb_spec ((yoe + 1) mod 100) 0),
    (Z.eqb_spec ((yoe + 1) mod 400) 0); cbn [andb orb negb] in Hl;
  (Z.to_euclidean_division_equations; lia).
Qed.

Lemma is_leap_era (yoe era : Z) : is_leap (yoe + 1 + era * 400) = is_leap (yoe + 1).
Proof.
  unfold is_leap.
  replace ((yoe + 1 + era * 400) mod 4) with ((yoe + 1) mod 4)
    by (Z.to_euclidean_division_equations; lia).
  replace ((yoe + 1 + era * 400) mod 100) with ((yoe + 1) mod 100)
    by (Z.to_euclidean_division_equations; lia).
  replace ((yoe + 1 + era * 400) mod 400) with ((yoe + 1) mod 400)
    by (Z.to_euclidean_division_equations; lia).
  reflexivity.
Qed.

Lemma month_part (m d : Z) (leap : bool) :
  1 <= m <= 12 ->
  1 <= d <= (if m =? 2 then (if leap then 29 else 28)
             else if (m =? 4) || (m =? 6) || (m =? 9) || (m =? 11) then 30 else 31) ->
  let mp := (m + 9) mod 12 in
  let doy := (153 * mp + 2) / 5 + d - 1 in
  0 <= doy
  /\ (m <= 2 -> doy <= (if leap then 365 else 364))
  /\ (2 < m -> doy <= 305)
  /\ (5 * doy + 2) / 153 = mp
  /\ doy - (153 * mp + 2) / 5 + 1 = d
  /\ (if mp <? 10 then mp + 3 else mp - 9) = m.
Proof.
  intros Hm Hd. cbv zeta.
  assert (C : m = 1 \/ m = 2 \/ m = 3 \/ m = 4 \/ m = 5 \/ m = 6 \/ m = 7 \/ m = 8
              \/ m = 9 \/ m = 10 \/ m = 11 \/ m = 12) by lia.
  repeat (destruct C as [-> | C]); try subst m;
    simpl Z.eqb in Hd; simpl orb in Hd; cbv iota in Hd;
    destruct leap; repeat split;
    try (match goal with
         | |- (if ?c then _ else _) = _ =>
             let v := eval vm_compute in c in change c with v; cbv iota
         end);
    Z.to_euclidean_division_equations; lia.
Qed.

Lemma civil_from_days_from_civil (y m d : Z) :
  1 <= m <= 12 -> 1 <= d <= days_in_month y m ->
  civil_from_days (days_from_civil y m d) = (y, m, d).
Proof.
  intros Hm Hd. unfold days_in_month in Hd.
  unfold days_from_civil. cbv zeta.
  set (y' := if m <=? 2 then y - 1 else y).
  set (era := y' / 400).
  set (yoe := y' - era * 400).
  assert (Hyoe : 0 <= yoe <= 399) by (subst yoe era; Z.to_euclidean_division_equations; lia).
  destruct (month_part m d (is_leap y) Hm Hd) as [D0 [D1 [D2 [Emp [Ed Em]]]]].
  set (mp := (m + 9) mod 12) in *.
  set (doy := (153 * mp + 2) / 5 + d - 1) in *.
  assert (Hl : doy <= (if is_leap (yoe + 1) then 365 else 364)).
  { destruct (Z.leb_spec m 2).
    - replace (is_leap (yoe + 1)) with (is_leap y); [apply D1; lia |].
      rewrite <- (is_leap_era yoe era). f_equal. subst yoe y'.
      destruct (Z.leb_spec m 2); lia.
    - specialize (D2 ltac:(lia)). destruct (is_leap (yoe + 1)); lia. }
  destruct (yoe_recovered yoe doy Hyoe D0 Hl) as [Ey Hdoe].
  cbv zeta in Ey.
  set (doe := yoe * 365 + yoe / 4 - yoe / 100 + doy) in *.
  unfold civil_from_days. cbv zeta.
  replace (era * 146097 + doe - 719468 + 719468) with (era * 146097 + doe) by lia.
  replace ((era * 146097 + doe) / 146097) with era
    by (Z.to_euclidean_division_equations; lia).
  replace (era * 146097 + doe - era * 146097) with doe by lia.
  rewrite Ey.
  replace (doe - (365 * yoe + yoe / 4 - yoe / 100)) with doy by (subst doe; lia).
  rewrite Emp, Ed, Em.
  f_equal. f_equal. subst yoe y'.
  destruct (Z.leb_spec m 2); lia.
Qed.

Lemma days_from_civil_day (y m d : Z) :
  days_from_civil y m d = days_from_civil y m 1 + (d - 1).
Proof. unfold days_from_civil. cbv zeta. lia. Qed.

(** The day after the last day of a month is the first of the next. *)
Lemma month_end_next (y m : Z) :
  1 <= m <= 12 ->
  days_from_civil y m (days_in_month y m) + 1
    = days_from_civil (y + m / 12) (m mod 12 + 1) 1.
Proof.
  intros Hm. unfold days_in_month, is_leap.
  assert (C : m = 1 \/ m = 2 \/ m = 3 \/ m = 4 \/ m = 5 \/ m = 6 \/ m = 7 \/ m = 8
              \/ m = 9 \/ m = 10 \/ m = 11 \/ m = 12) by lia.
  repeat (destruct C as [-> | C]); try subst m;
    simpl Z.eqb; simpl orb; cbv iota;
    change (1 / 12) with 0; change (2 / 12) with 0; change (3 / 12) with 0;
    change (4 / 12) with 0; change (5 / 12) with 0; change (6 / 12) with 0;
    change (7 / 12) with 0; change (8 / 12) with 0; change (9 / 12) with 0;
    change (10 / 12) with 0; change (11 / 12) with 0; change (12 / 12) with 1;
    unfold days_from_civil; cbv zeta;
    repeat match goal with
      | |- context [?a mod 12] =>
          let v := eval vm_compute in (a mod 12) in change (a mod 12) with v
      | |- context [?a <=? 2] =>
          let v := eval vm_compute in (a <=? 2) in change (a <=? 2) with v
      end; cbv iota;
    try (destruct (Z.eqb_spec (y mod 4) 0), (Z.eqb_spec (y mod 100) 0),
           (Z.eqb_spec (y mod 400) 0); cbn [andb orb negb]);
    Z.to_euclidean_division_equations; lia.
Qed.

Lemma days_in_month_range (y m : Z) : 28 <= days_in_month y m <= 31.
Proof.
  unfold days_in_month. destruct (m =? 2); [destruct (is_leap y); lia |].
  destruct ((m =? 4) || (m =? 6) || (m =? 9) || (m =? 11)); lia.
Qed.

Lemma localtime_day (n : Z) : localtime (n * 86400) =
  let '(y, m, d) := civil_from_days n in mk_tm d (m - 1) (y - 1900) ((n + 4) mod 7).
Proof.
  unfold localtime. rewrite Z.div_mul by lia. reflexivity.
Qed.

(** The month layout the calendar computes is the Gregorian one: the
    weekday of the first and the length of the month. *)
Lemma tm_days_norm (y m w : Z) :
  1 <= m <= 12 -> tm_days (mk_tm 1 (m - 1) (y - 1900) w) = days_from_civil y m 1.
Proof.
  intros Hm. unfold tm_days. cbn [tm_year tm_mon tm_mday].
  replace ((m - 1) / 12) with 0 by (Z.to_euclidean_division_equations; lia).
  replace ((m - 1) mod 12 + 1) with m by (Z.to_euclidean_division_equations; lia).
  replace (y - 1900 + 1900 + 0) with y by lia. lia.
Qed.

Lemma tm_days_next (y m w : Z) :
  1 <= m <= 12 ->
  tm_days (mk_tm 1 (m - 1 + 1) (y - 1900) w)
    = days_from_civil (y + m / 12) (m mod 12 + 1) 1.
Proof.
  intros Hm. unfold tm_days. cbn [tm_year tm_mon tm_mday].
  replace (m - 1 + 1) with m by lia.
  replace (y - 1900 + 1900 + m / 12) with (y + m / 12) by lia. lia.
Qed.

Lemma month_layout_gregorian_eq (month year : Z) :
  1 <= month <= 12 -> -1000000000 <= year <= 1000000000 ->
  month_layout month year
    = ((days_from_civil year month 1 + 4) mod 7, days_in_month year month).
Proof.
  intros Hm Hy. unfold month_layout, mktime. cbn [fst snd].
  unfold int_sub. rewrite !wrap_id by (unfold INT_MIN, INT_MAX; lia).
  unfold tm_of. rewrite tm_days_norm by lia. rewrite localtime_day.
  pose proof (days_in_month_range year month) as Hr.
  rewrite civil_from_days_from_civil by lia.
  cbn [tm_mday tm_mon tm_year tm_wday].
  unfold int_add. rewrite !wrap_id by (unfold INT_MIN, INT_MAX; lia).
  rewrite tm_days_next by lia.
  set (y2 := year + month / 12). set (m2 := month mod 12 + 1).
  assert (Hm2 : 1 <= m2 <= 12) by (subst m2; Z.to_euclidean_division_equations; lia).
  rewrite localtime_day.
  pose proof (days_in_month_range y2 m2) as Hr2.
  rewrite civil_from_days_from_civil by lia.
  rewrite tm_days_norm by lia.
  replace (days_from_civil y2 m2 1 * 86400 - 86400)
    with ((days_from_civil y2 m2 1 - 1) * 86400) by lia.
  rewrite localtime_day.
  replace (days_from_civil y2 m2 1 - 1) with (days_from_civil year month (days_in_month year month))
    by (subst y2 m2; rewrite <- month_end_next by lia; lia).
  rewrite civil_from_days_from_civil by lia.
  reflexivity.
Qed.

(* ===================================================================== *)
(** ** Date texts *)
(* ===================================================================== *)

Lemma all_chars_app (p : ascii -> bool) (a b : string) :
  all_chars p (a ++ b) = all_chars p a && all_chars p b.
Proof.
  induction a as [|c a IH]; cbn; [reflexivity|].
  rewrite IH. now rewrite andb_assoc.
Qed.

Lemma zeros_digits (n : nat) : all_chars isdigit (zeros n) = true.
Proof. induction n; cbn; auto. Qed.

Lemma digits_value_zeros (n : nat) (s : string) :
  digits_value 0 (zeros n ++ s) = digits_value 0 s.
Proof. induction n; cbn [zeros append digits_value]; auto. Qed.

Lemma skip_space_digit (s : string) :
  s <> "" -> all_chars isdigit s = true -> forall rest,
  skip_while isspace (s ++ rest) = s ++ rest
  /\ read_sign (s ++ rest) = (false, s ++ rest).
Proof.
  intros Hne Hd rest. destruct s as [|c s]; [congruence|].
  cbn [all_chars] in Hd. apply andb_true_iff in Hd as [Hc _].
  destruct (digit_not_special c Hc) as (Hs & _).
  cbn [append skip_while]. rewrite Hs. split; [reflexivity|].
  apply read_sign_digit; assumption.
Qed.

Lemma scan_digits (ds rest : string) :
  ds <> "" -> all_chars isdigit ds = true -> stops_at isdigit rest ->
  in_int (digits_value 0 ds) = true ->
  scan_int (ds ++ rest) = Some (digits_value 0 ds, rest).
Proof.
  intros Hne Hd Hr Hi. unfold scan_int.
  destruct (skip_space_digit ds Hne Hd rest) as [-> ->].
  rewrite take_while_app, skip_while_app by assumption.
  destruct ds; [congruence|]. now rewrite Hi.
Qed.

Lemma scan_minus_digits (ds rest : string) :
  ds <> "" -> all_chars isdigit ds = true -> stops_at isdigit rest ->
  in_int (- digits_value 0 ds) = true ->
  scan_int (String "-" ds ++ rest) = Some (- digits_value 0 ds, rest).
Proof.
  intros Hne Hd Hr Hi. unfold scan_int.
  change (skip_while isspace (String "-" ds ++ rest)) with (String "-" (ds ++ rest)).
  cbn [read_sign].
  rewrite take_while_app, skip_while_app by assumption.
  destruct ds; [congruence|]. now rewrite Hi.
Qed.

(** [%0wd] writes a text that [%d] reads back as the same number. *)
Lemma scan_int_fmt (w : nat) (z : Z) (rest : string) :
  in_int z = true -> stops_at isdigit rest ->
  scan_int (fmt_0d w z ++ rest) = Some (z, rest).
Proof.
  intros Hi Hr. unfold fmt_0d.
  destruct (Z.ltb_spec z 0) as [Hneg | Hpos].
  - destruct (to_string_shape (- z)) as (ds & E & Hne & Hd & Hv).
    replace (- z <? 0) with false in E by (symmetry; apply Z.ltb_ge; lia).
    rewrite E. set (n := (w - 1 - String.length ds)%nat).
    assert (V : digits_value 0 (zeros n ++ ds) = - z)
      by (rewrite digits_value_zeros, Hv; lia).
    assert (Hn : zeros n ++ ds <> "") by (destruct n; cbn; [assumption | discriminate]).
    assert (Ha : all_chars isdigit (zeros n ++ ds) = true)
      by now rewrite all_chars_app, zeros_digits, Hd.
    rewrite scan_minus_digits; try assumption.
    + rewrite V. now replace (- - z) with z by lia.
    + rewrite V. now replace (- - z) with z by lia.
  - destruct (to_string_shape z) as (ds & E & Hne & Hd & Hv).
    replace (z <? 0) with false in E by (symmetry; apply Z.ltb_ge; lia).
    rewrite E. set (n := (w - String.length ds)%nat).
    assert (V : digits_value 0 (zeros n ++ ds) = z)
      by (rewrite digits_value_zeros, Hv; lia).
    assert (Hn : zeros n ++ ds <> "") by (destruct n; cbn; [assumption | discriminate]).
    assert (Ha : all_chars isdigit (zeros n ++ ds) = true)
      by now rewrite all_chars_app, zeros_digits, Hd.
    rewrite scan_digits; try assumption.
    + now rewrite V.
    + now rewrite V.
Qed.

Lemma sscanf_date_text (d m y : Z) :
  in_int d = true -> in_int m = true -> in_int y = true ->
  sscanf_date (date_text d m y) = Some (d, m, y).
Proof.
  intros Hd Hm Hy. unfold sscanf_date, date_text.
  rewrite (scan_int_fmt 2 d) by (first [assumption | reflexivity]).
  cbn [scan_char append]. change (Ascii.eqb "/" "/") with true. cbv iota.
  rewrite (scan_int_fmt 2 m) by (first [assumption | reflexivity]).
  cbn [scan_char append]. change (Ascii.eqb "/" "/") with true. cbv iota.
  rewrite <- (append_empty (fmt_0d 4 y)).
  rewrite (scan_int_fmt 4 y) by (first [assumption | exact I]).
  reflexivity.
Qed.

Lemma format_date_text (d m y : Z) (text : string) :
  format_date d m y = Returns text ->
  text = date_text d m y /\ (String.length text <= 10)%nat.
Proof.
  unfold format_date. fold (date_text d m y).
  destruct (Nat.ltb_spec (String.length (date_text d m y)) 11); [|discriminate].
  intros [= <-]. split; [reflexivity | lia].
Qed.

Lemma format_date_read (d m y : Z) (text : string) :
  in_int d = true -> in_int m = true -> in_int y = true ->
  format_date d m y = Returns text ->
  read_date text = Returns (d, m, y).
Proof.
  intros Hd Hm Hy H. apply format_date_text in H as [-> _].
  unfold read_date. now rewrite sscanf_date_text.
Qed.

(** X6.  A date written by [sprintf_s] with ["%02d/%02d/%04d"] fits the
    buffer and is read back by [sscanf_s] with ["%d/%d/%d"] as the same
    day, month and year. *)
Theorem date_text_reads_back (d m y : Z) (text : string) :
  in_int d = true -> in_int m = true -> in_int y = true ->
  format_date d m y = Returns text ->
  (String.length text <= 10)%nat /\ read_date text = Returns (d, m, y).
Proof.
  intros Hd Hm Hy H. split.
  - now apply format_date_text in H.
  - now apply format_date_read.
Qed.

Lemma date_text_reads_back_witness :
  (String.length "29/02/2024" <= 10)%nat
  /\ read_date "29/02/2024" = Returns (29, 2, 2024).
Proof.
  apply (date_text_reads_back 29 2 2024); reflexivity.
Defined.

Lemma scan_int_in_int (s : string) (z : Z) (rest : string) :
  scan_int s = Some (z, rest) -> in_int z = true.
Proof.
  unfold scan_int. destruct (read_sign _) as [neg body].
  destruct (take_while isdigit body); [discriminate|].
  destruct (in_int _) eqn:E; [|discriminate]. now intros [= <- _].
Qed.

Lemma sscanf_date_in_int (s : string) (d m y : Z) :
  sscanf_date s = Some (d, m, y) ->
  in_int d = true /\ in_int m = true /\ in_int y = true.
Proof.
  unfold sscanf_date.
  destruct (scan_int s) as [[d' s1]|] eqn:E1; [|discriminate].
  destruct (scan_char "/" s1) as [s2|]; [|discriminate].
  destruct (scan_int s2) as [[m' s3]|] eqn:E2; [|discriminate].
  destruct (scan_char "/" s3) as [s4|]; [|discriminate].
  destruct (scan_int s4) as [[y' s5]|] eqn:E3; [|discriminate].
  intros [= <- <- <-].
  repeat split; eapply scan_int_in_int; eassumption.
Qed.

Lemma read_date_sscanf (s : string) (dmy : Z * Z * Z) :
  read_date s = Returns dmy <-> sscanf_date s = Some dmy.
Proof.
  unfold read_date. destruct (sscanf_date s); split; intros H; try discriminate;
    injection H as ->; reflexivity.
Qed.

Lemma read_date_in_int (s : string) (d m y : Z) :
  read_date s = Returns (d, m, y) ->
  INT_MIN <= d <= INT_MAX /\ INT_MIN <= m <= INT_MAX /\ INT_MIN <= y <= INT_MAX.
Proof.
  intros H. apply read_date_sscanf, sscanf_date_in_int in H.
  now rewrite !in_int_true in H.
Qed.

Lemma length_append (a b : string) :
  String.length (a ++ b) = (String.length a + String.length b)%nat.
Proof. induction a; cbn; auto. Qed.

Lemma uint_text_length (d : Decimal.uint) :
  String.length (NilEmpty.string_of_uint d) = Decimal.nb_digits d.
Proof. induction d; cbn; auto. Qed.

Lemma pos_uint_head (p : positive) :
  match Pos.to_uint p with
  | Decimal.Nil | Decimal.D0 _ => False
  | _ => True
  end.
Proof.
  pose proof (Unsigned.to_of (Pos.to_uint p)) as H.
  rewrite Unsigned.of_to in H. cbn [N.to_uint] in H.
  pose proof (Unsigned.to_uint_nonzero p) as Hz.
  destruct (Pos.to_uint p) as [|u|u|u|u|u|u|u|u|u|u] eqn:E; try exact I.
  - discriminate H.
  - unfold Decimal.unorm in H. cbn [Decimal.nzhead] in H.
    pose proof (DecimalFacts.nb_digits_nzhead u) as L.
    destruct (Decimal.nzhead u) eqn:N.
    + injection H as ->. now apply Hz.
    + rewrite <- H in L. cbn in L. lia.
    + rewrite <- H in L. cbn in L. lia.
    + rewrite <- H in L. cbn in L. lia.
    + rewrite <- H in L. cbn in L. lia.
    + rewrite <- H in L. cbn in L. lia.
    + rewrite <- H in L. cbn in L. lia.
    + rewrite <- H in L. cbn in L. lia.
    + rewrite <- H in L. cbn in L. lia.
    + rewrite <- H in L. cbn in L. lia.
    + rewrite <- H in L. cbn in L. lia.
Qed.

Lemma digits_value_lower (s : string) (acc : Z) :
  all_chars isdigit s = true -> 0 <= acc ->
  acc * 10 ^ Z.of_nat (String.length s) <= digits_value acc s.
Proof.
  revert acc. induction s as [|c s IH]; intros acc Hd Ha; cbn [digits_value String.length].
  - cbn. lia.
  - cbn [all_chars] in Hd. apply andb_true_iff in Hd as [Hc Hd].
    assert (Hv : 0 <= digit_value c).
    { unfold isdigit in Hc. apply andb_true_iff in Hc as [H1 _]. apply Nat.leb_le in H1.
      unfold digit_value. lia. }
    specialize (IH (10 * acc + digit_value c) Hd ltac:(lia)).
    rewrite Nat2Z.inj_succ, Z.pow_succ_r by lia.
    pose proof (Z.pow_pos_nonneg 10 (Z.of_nat (String.length s)) ltac:(lia) ltac:(lia)).
    nia.
Qed.

(** The decimal text of a positive number below [10 ^ w] has at most [w]
    digits. *)
Lemma pos_text_length (p : positive) (w : nat) :
  Zpos p < 10 ^ Z.of_nat w -> (String.length (pos_text p) <= w)%nat.
Proof.
  intros H. pose proof (pos_text_value p) as V. pose proof (pos_text_digits p) as D.
  pose proof (pos_uint_head p) as Hh. unfold pos_text in *.
  destruct (Pos.to_uint p) as [|u|u|u|u|u|u|u|u|u|u]; try contradiction;
    cbn [NilEmpty.string_of_uint digits_value all_chars String.length] in *;
    apply andb_true_iff in D as [_ D];
    match type of V with
    | digits_value ?a ?s = _ =>
        pose proof (digits_value_lower s a D ltac:(cbv; discriminate)) as L;
        rewrite V in L;
        assert (La : 1 <= a) by (cbv; discriminate)
    end;
    set (n := String.length _) in *;
    pose proof (Z.pow_pos_nonneg 10 (Z.of_nat n) ltac:(lia) ltac:(lia));
    (destruct (Nat.lt_ge_cases n w) as [|Hge]; [lia|]);
    pose proof (Z.pow_le_mono_r 10 (Z.of_nat w) (Z.of_nat n) ltac:(lia) ltac:(lia));
    nia.
Qed.

Lemma to_string_length (z : Z) (w : nat) :
  0 <= z < 10 ^ Z.of_nat w -> (1 <= w)%nat -> (String.length (to_string z) <= w)%nat.
Proof.
  intros H Hw. destruct z as [|p|p]; [exact Hw | | lia].
  rewrite to_string_pos. apply pos_text_length. lia.
Qed.

Lemma length_zeros (n : nat) : String.length (zeros n) = n.
Proof. induction n; cbn; auto. Qed.

(** [%0wd] of a number from 0 to [10 ^ w - 1] has exactly [w]
    characters. *)
Lemma fmt_0d_length (w : nat) (z : Z) :
  0 <= z < 10 ^ Z.of_nat w -> (1 <= w)%nat -> String.length (fmt_0d w z) = w.
Proof.
  intros H Hw. unfold fmt_0d.
  replace (z <? 0) with false by (symmetry; apply Z.ltb_ge; lia).
  rewrite length_append, length_zeros.
  pose proof (to_string_length z w H Hw). lia.
Qed.

Lemma fmt_0d_two (z : Z) : 0 <= z <= 99 -> String.length (fmt_0d 2 z) = 2%nat.
Proof. intros H. apply fmt_0d_length; [change (10 ^ Z.of_nat 2) with 100; lia | lia]. Qed.

Lemma fmt_0d_four (z : Z) : 0 <= z <= 9999 -> String.length (fmt_0d 4 z) = 4%nat.
Proof. intros H. apply fmt_0d_length; [change (10 ^ Z.of_nat 4) with 10000; lia | lia]. Qed.

Lemma format_date_fits (d m y : Z) :
  0 <= d <= 99 -> 0 <= m <= 99 -> 0 <= y <= 9999 ->
  format_date d m y = Returns (date_text d m y).
Proof.
  intros Hd Hm Hy. unfold format_date. fold (date_text d m y).
  replace (String.length (date_text d m y)) with 10%nat; [reflexivity|].
  unfold date_text. rewrite !length_append, fmt_0d_two, fmt_0d_two, fmt_0d_four by assumption.
  reflexivity.
Qed.

Lemma read_date_text (d m y : Z) :
  0 <= d <= 99 -> 0 <= m <= 99 -> 0 <= y <= 9999 ->
  read_date (date_text d m y) = Returns (d, m, y).
Proof.
  intros Hd Hm Hy.
  unfold read_date.
  rewrite sscanf_date_text; try (apply in_int_true; unfold INT_MIN, INT_MAX; lia).
  reflexivity.
Qed.

(* ===================================================================== *)
(** ** Day shifts and the calendar view *)
(* ===================================================================== *)

Lemma civil_from_days_range (n : Z) :
  let '(y, m, d) := civil_from_days n in 1 <= m <= 12 /\ 1 <= d <= 31.
Proof.
  pose proof (localtime_fields (n * 86400)) as H. rewrite localtime_day in H.
  destruct (civil_from_days n) as [[y m] d]. cbn in H. lia.
Qed.

Lemma civil_from_days_inj (y m d y' m' d' : Z) :
  1 <= m <= 12 -> 1 <= d <= days_in_month y m ->
  1 <= m' <= 12 -> 1 <= d' <= days_in_month y' m' ->
  days_from_civil y m d = days_from_civil y' m' d' ->
  (y, m, d) = (y', m', d').
Proof.
  intros Hm Hd Hm' Hd' E.
  rewrite <- (civil_from_days_from_civil y m d), <- (civil_from_days_from_civil y' m' d')
    by assumption.
  now rewrite E.
Qed.

(** The date [civil_from_days] gives is a day that exists. *)
Lemma civil_from_days_valid (n y m d : Z) :
  civil_from_days n = (y, m, d) ->
  1 <= m <= 12 /\ 1 <= d <= days_in_month y m /\ days_from_civil y m d = n.
Proof.
  intros E.
  pose proof (civil_from_days_range n) as R.
  pose proof (days_from_civil_from_days n) as B.
  rewrite E in R, B. destruct R as [Hm Hd].
  split; [assumption|]. split; [|assumption]. split; [lia|].
  destruct (Z.leb_spec d (days_in_month y m)) as [|Hgt]; [assumption|exfalso].
  pose proof (days_in_month_range y m) as Rm.
  pose proof (month_end_next y m Hm) as N.
  set (y2 := y + m / 12) in *. set (m2 := m mod 12 + 1) in *.
  assert (Hm2 : 1 <= m2 <= 12) by (subst m2; Z.to_euclidean_division_equations; lia).
  pose proof (days_in_month_range y2 m2) as Rm2.
  assert (E2 : days_from_civil y2 m2 (d - days_in_month y m) = n).
  { rewrite days_from_civil_day, <- N.
    rewrite (days_from_civil_day y m (days_in_month y m)).
    rewrite (days_from_civil_day y m d) in B. lia. }
  pose proof (civil_from_days_from_civil y2 m2 (d - days_in_month y m) Hm2) as C.
  rewrite E2, E in C. specialize (C ltac:(lia)).
  injection C as Ey Em Ed. lia.
Qed.

Lemma tm_days_of (d m y : Z) :
  1 <= m <= 12 ->
  tm_days (tm_of d (m - 1) (y - 1900)) = days_from_civil y m d.
Proof.
  intros Hm. unfold tm_days, tm_of. cbn [tm_year tm_mon tm_mday].
  replace ((m - 1) / 12) with 0 by (Z.to_euclidean_division_equations; lia).
  replace ((m - 1) mod 12 + 1) with m by (Z.to_euclidean_division_equations; lia).
  replace (y - 1900 + 1900 + 0) with y by lia.
  rewrite (days_from_civil_day y m d). lia.
Qed.

Lemma changeDateByOffset_days (k : Z) (u : UIManager) (d m y d' m' y' : Z) :
  read_date (currentDate u) = Returns (d, m, y) ->
  1 <= m <= 12 ->
  INT_MIN <= d + k <= INT_MAX ->
  INT_MIN <= y - 1900 ->
  civil_from_days (days_from_civil y m d + k) = (y', m', d') ->
  0 <= y' <= 9999 ->
  changeDateByOffset k u = Returns (with_currentDate (date_text d' m' y') u).
Proof.
  intros Hr Hm Hk Hy E Hy'.
  destruct (read_date_in_int _ _ _ _ Hr) as (Id & Im & Iy).
  destruct (civil_from_days_valid _ _ _ _ E) as (Hm' & Hd' & _).
  pose proof (days_in_month_range y' m') as Rm.
  unfold changeDateByOffset. rewrite Hr. cbn [bind].
  unfold mktime. cbn [snd].
  unfold int_add, int_sub.
  rewrite (wrap_id (d + k)), (wrap_id (m - 1)), (wrap_id (y - 1900))
    by (unfold INT_MIN, INT_MAX in *; lia).
  rewrite tm_days_of by assumption.
  replace (days_from_civil y m (d + k)) with (days_from_civil y m d + k)
    by (rewrite (days_from_civil_day y m (d + k)), (days_from_civil_day y m d); lia).
  rewrite localtime_day, E. cbn [tm_mday tm_mon tm_year].
  rewrite (wrap_id (m' - 1 + 1)), (wrap_id (y' - 1900 + 1900))
    by (unfold INT_MIN, INT_MAX in *; lia).
  replace (m' - 1 + 1) with m' by lia. replace (y' - 1900 + 1900) with y' by lia.
  rewrite format_date_fits by lia. reflexivity.
Qed.

(** X8.  [changeDateByOffset] moves the date by exactly [offset] days of the
    Gregorian calendar: the new text reads back as a day that exists and
    lies [offset] days after the old one. *)
Theorem changeDateByOffset_moves_by_days (k : Z) (u : UIManager) (d m y d' m' y' : Z) :
  read_date (currentDate u) = Returns (d, m, y) ->
  1 <= m <= 12 ->
  INT_MIN <= d + k <= INT_MAX ->
  INT_MIN <= y - 1900 ->
  civil_from_days (days_from_civil y m d + k) = (y', m', d') ->
  0 <= y' <= 9999 ->
  exists u',
    changeDateByOffset k u = Returns u'
    /\ read_date (currentDate u') = Returns (d', m', y')
    /\ 1 <= m' <= 12 /\ 1 <= d' <= days_in_month y' m'
    /\ days_from_civil y' m' d' = days_from_civil y m d + k
    /\ u' = with_currentDate (currentDate u') u.
Proof.
  intros Hr Hm Hk Hy E Hy'.
  destruct (civil_from_days_valid _ _ _ _ E) as (Hm' & Hd' & Hn).
  pose proof (days_in_month_range y' m') as Rm.
  exists (with_currentDate (date_text d' m' y') u).
  split; [eapply changeDateByOffset_days; eassumption|].
  split; [destruct u; cbn; apply read_date_text; lia|].
  split; [lia|]. split; [lia|]. split; [lia|]. destruct u; reflexivity.
Qed.

Lemma changeDateByOffset_moves_by_days_witness :
  exists u',
    changeDateByOffset 1 (UIManager_new DataManager_new "28/02/2024") = Returns u'
    /\ read_date (currentDate u') = Returns (29, 2, 2024)
    /\ 1 <= 2 <= 12 /\ 1 <= 29 <= days_in_month 2024 2
    /\ days_from_civil 2024 2 29 = days_from_civil 2024 2 28 + 1
    /\ u' = with_currentDate (currentDate u') (UIManager_new DataManager_new "28/02/2024").
Proof.
  apply (changeDateByOffset_moves_by_days 1 (UIManager_new DataManager_new "28/02/2024")
           28 2 2024 29 2 2024);
    first [reflexivity | unfold INT_MIN, INT_MAX; lia].
Defined.



(* ------------------------------------------------------------------ *)
(** ** The calendar view *)

Lemma month_layout_of (m y : Z) :
  1 <= m <= 12 -> -1000000000 <= y <= 1000000000 ->
  exists sw, month_layout m y = (sw, days_in_month y m) /\ 0 <= sw <= 6.
Proof.
  intros Hm Hy. exists ((days_from_civil y m 1 + 4) mod 7). split.
  - now apply month_layout_gregorian_eq.
  - pose proof (Z.mod_pos_bound (days_from_civil y m 1 + 4) 7). lia.
Qed.

Lemma processCalendarInput_j (u : UIManager) (d m y : Z) :
  sscanf_date (currentDate u) = Some (d, m, y) ->
  processCalendarInput "j" u =
    Returns (with_selectedCalendarDay
               (calendar_down (snd (month_layout m y)) (selectedCalendarDay u)) u).
Proof.
  intros H. unfold processCalendarInput, read_date. rewrite H. cbn [bind].
  destruct (month_layout m y). reflexivity.
Qed.

Lemma processCalendarInput_k (u : UIManager) (d m y : Z) :
  sscanf_date (currentDate u) = Some (d, m, y) ->
  processCalendarInput "k" u =
    Returns (with_selectedCalendarDay (calendar_up (selectedCalendarDay u)) u).
Proof.
  intros H. unfold processCalendarInput, read_date. rewrite H. cbn [bind].
  destruct (month_layout m y). reflexivity.
Qed.

Lemma processCalendarInput_b (u : UIManager) (d m y : Z) :
  sscanf_date (currentDate u) = Some (d, m, y) ->
  processCalendarInput "b" u =
    (let month := int_sub m 1 in
     let (month, year) := if month <? 1 then (12, int_sub y 1) else (month, y) in
     buffer <- format_date d month year ;;
     Returns (with_currentDate buffer (with_selectedCalendarDay 1 u))).
Proof.
  intros H. unfold processCalendarInput, read_date. rewrite H. cbn [bind].
  destruct (month_layout m y). reflexivity.
Qed.

Lemma processCalendarInput_w (u : UIManager) (d m y : Z) :
  sscanf_date (currentDate u) = Some (d, m, y) ->
  processCalendarInput "w" u =
    (let month := int_add m 1 in
     let (month, year) := if 12 <? month then (1, int_add y 1) else (month, y) in
     buffer <- format_date d month year ;;
     Returns (with_currentDate buffer (with_selectedCalendarDay 1 u))).
Proof.
  intros H. unfold processCalendarInput, read_date. rewrite H. cbn [bind].
  destruct (month_layout m y). reflexivity.
Qed.

Lemma processCalendarInput_q (u : UIManager) (dmy : Z * Z * Z) :
  sscanf_date (currentDate u) = Some dmy ->
  processCalendarInput "q" u =
    Returns (with_currentState STATE_MAIN_MENU
               (with_currentDate (calendarOriginalDate u) u)).
Proof.
  intros H. unfold processCalendarInput, read_date. rewrite H.
  destruct dmy as [[d m] y]. cbn [bind].
  destruct (month_layout m y). reflexivity.
Qed.

Lemma processCalendarInput_cr (u : UIManager) (d m y : Z) :
  sscanf_date (currentDate u) = Some (d, m, y) ->
  processCalendarInput cr u =
    (buffer <- format_date (selectedCalendarDay u) m y ;;
     Returns (with_currentState STATE_MAIN_MENU (with_currentDate buffer u))).
Proof.
  intros H. unfold processCalendarInput, read_date. rewrite H. cbn [bind].
  destruct (month_layout m y). reflexivity.
Qed.

Lemma browse_key_cases (key : ascii) :
  browse_key key = true ->
  key = "h"%char \/ key = "l"%char \/ key = "j"%char \/ key = "k"%char
  \/ key = "b"%char \/ key = "w"%char.
Proof.
  unfold browse_key, key_is. rewrite !orb_true_iff, !Ascii.eqb_eq. tauto.
Qed.

(** X16.  In the calendar of a month, with the cursor on a day of it: ['k'] and
    ['j'] move the cursor by a week exactly when that day is in the month,
    and the cursor never leaves its column. *)
Theorem calendar_up_down_stay_in_column (u : UIManager) (d m y : Z) :
  sscanf_date (currentDate u) = Some (d, m, y) ->
  1 <= m <= 12 -> -1000000000 <= y <= 1000000000 ->
  1 <= selectedCalendarDay u <= days_in_month y m ->
  let startWeekday := fst (month_layout m y) in
  let day := selectedCalendarDay u in
  exists up down,
    processCalendarInput "k" u = Returns (with_selectedCalendarDay up u)
    /\ processCalendarInput "j" u = Returns (with_selectedCalendarDay down u)
    /\ up = (if day <=? 7 then day else day - 7)
    /\ down = (if days_in_month y m <? day + 7 then day else day + 7)
    /\ 1 <= up <= days_in_month y m
    /\ 1 <= down <= days_in_month y m
    /\ snd (grid_cell startWeekday up) = snd (grid_cell startWeekday day)
    /\ snd (grid_cell startWeekday down) = snd (grid_cell startWeekday day).
Proof.
  intros Hdate Hm Hy Hday startWeekday day.
  destruct (month_layout_of m y Hm Hy) as (sw & L & Hsw).
  pose proof (days_in_month_range y m) as R.
  subst startWeekday. rewrite (processCalendarInput_k u d m y Hdate),
    (processCalendarInput_j u d m y Hdate), L. cbn [fst snd].
  fold day in Hday |- *. clearbody day.
  exists (calendar_up day), (calendar_down (days_in_month y m) day).
  split; [reflexivity|]. split; [reflexivity|].
  assert (U : calendar_up day = (if day <=? 7 then day else day - 7)).
  { unfold calendar_up, int_sub. rewrite wrap_id by (unfold INT_MIN, INT_MAX; lia).
    destruct (Z.leb_spec 1 (day - 7)), (Z.leb_spec day 7); lia. }
  assert (D : calendar_down (days_in_month y m) day
              = (if days_in_month y m <? day + 7 then day else day + 7)).
  { unfold calendar_down, int_add. rewrite wrap_id by (unfold INT_MIN, INT_MAX; lia).
    destruct (Z.leb_spec (day + 7) (days_in_month y m)),
      (Z.ltb_spec (days_in_month y m) (day + 7)); lia. }
  rewrite U, D.
  split; [reflexivity|]. split; [reflexivity|].
  destruct (Z.leb_spec day 7), (Z.ltb_spec (days_in_month y m) (day + 7));
    rewrite !grid_cell_formula by lia; cbn [snd];
    repeat split; try lia; Z.to_euclidean_division_equations; lia.
Qed.

Lemma calendar_up_down_stay_in_column_witness :
  exists up down,
    processCalendarInput "k" january_2027 = Returns (with_selectedCalendarDay up january_2027)
    /\ processCalendarInput "j" january_2027
       = Returns (with_selectedCalendarDay down january_2027)
    /\ up = 1
    /\ down = 8
    /\ 1 <= up <= 31
    /\ 1 <= down <= 31
    /\ snd (grid_cell 5 up) = 5
    /\ snd (grid_cell 5 down) = 5.
Proof.
  apply (calendar_up_down_stay_in_column january_2027 15 1 2027);
    first [reflexivity | vm_compute; intuition discriminate].
Defined.

(** X17.  The cursor of the calendar stays on a day of the month on display:
    the four cursor keys keep it within the month, and turning the page
    puts it on day 1 of a month that the date text names. *)
Theorem calendar_cursor_stays_on_a_day (key : ascii) (u : UIManager) (d m y : Z) :
  sscanf_date (currentDate u) = Some (d, m, y) ->
  0 <= d <= 99 -> 1 <= m <= 12 -> 1 <= y <= 9998 ->
  1 <= selectedCalendarDay u <= days_in_month y m ->
  browse_key key = true ->
  exists u' m' y',
    processCalendarInput key u = Returns u'
    /\ sscanf_date (currentDate u') = Some (d, m', y')
    /\ 1 <= m' <= 12 /\ 0 <= y' <= 9999
    /\ 1 <= selectedCalendarDay u' <= days_in_month y' m'
    /\ currentState u' = currentState u
    /\ calendarOriginalDate u' = calendarOriginalDate u
    /\ dataManager u' = dataManager u.
Proof.
  intros Hdate Hd Hm Hy Hday Hkey.
  destruct (month_layout_of m y Hm ltac:(lia)) as (sw & L & Hsw).
  pose proof (days_in_month_range y m) as R.
  assert (Same : forall sel, 1 <= sel <= days_in_month y m ->
            exists u' m' y',
              Returns (with_selectedCalendarDay sel u) = Returns u'
              /\ sscanf_date (currentDate u') = Some (d, m', y')
              /\ 1 <= m' <= 12 /\ 0 <= y' <= 9999
              /\ 1 <= selectedCalendarDay u' <= days_in_month y' m'
              /\ currentState u' = currentState u
              /\ calendarOriginalDate u' = calendarOriginalDate u
              /\ dataManager u' = dataManager u).
  { intros sel Hsel. exists (with_selectedCalendarDay sel u), m, y.
    destruct u; cbn in *. repeat split; try assumption; lia. }
  assert (Page : forall m' y', 1 <= m' <= 12 -> 0 <= y' <= 9999 ->
            exists u' m'' y'',
              (buffer <- format_date d m' y' ;;
               Returns (with_currentDate buffer (with_selectedCalendarDay 1 u))) = Returns u'
              /\ sscanf_date (currentDate u') = Some (d, m'', y'')
              /\ 1 <= m'' <= 12 /\ 0 <= y'' <= 9999
              /\ 1 <= selectedCalendarDay u' <= days_in_month y'' m''
              /\ currentState u' = currentState u
              /\ calendarOriginalDate u' = calendarOriginalDate u
              /\ dataManager u' = dataManager u).
  { intros m' y' Hm' Hy'.
    exists (with_currentDate (date_text d m' y') (with_selectedCalendarDay 1 u)), m', y'.
    rewrite format_date_fits by lia. cbn [bind].
    pose proof (days_in_month_range y' m').
    split; [reflexivity|].
    split; [destruct u; cbn; apply read_date_sscanf, read_date_text; lia|].
    destruct u; cbn. repeat split; try assumption; lia. }
  destruct (browse_key_cases key Hkey) as [-> | [-> | [-> | [-> | [-> | ->]]]]].
  - rewrite (processCalendarInput_h u d m y Hdate), L. cbn [fst]. apply Same.
    unfold calendar_left, grid_col, int_rem.
    destruct ((1 <? selectedCalendarDay u) && _) eqn:E; [|assumption].
    apply andb_true_iff in E as [E _]. apply Z.ltb_lt in E.
    unfold int_sub. rewrite wrap_id by (unfold INT_MIN, INT_MAX; lia). lia.
  - rewrite (processCalendarInput_l u d m y Hdate), L. cbn [fst snd]. apply Same.
    unfold calendar_right.
    destruct (_ && (selectedCalendarDay u <? days_in_month y m)) eqn:E; [|assumption].
    apply andb_true_iff in E as [_ E]. apply Z.ltb_lt in E.
    unfold int_add. rewrite wrap_id by (unfold INT_MIN, INT_MAX; lia). lia.
  - rewrite (processCalendarInput_j u d m y Hdate), L. cbn [snd]. apply Same.
    unfold calendar_down, int_add. rewrite wrap_id by (unfold INT_MIN, INT_MAX; lia).
    destruct (Z.leb_spec (selectedCalendarDay u + 7) (days_in_month y m)); lia.
  - rewrite (processCalendarInput_k u d m y Hdate). apply Same.
    unfold calendar_up, int_sub. rewrite wrap_id by (unfold INT_MIN, INT_MAX; lia).
    destruct (Z.leb_spec 1 (selectedCalendarDay u - 7)); lia.
  - rewrite (processCalendarInput_b u d m y Hdate). cbv zeta.
    unfold int_sub. rewrite !wrap_id by (unfold INT_MIN, INT_MAX; lia).
    destruct (Z.ltb_spec (m - 1) 1); apply Page; lia.
  - rewrite (processCalendarInput_w u d m y Hdate). cbv zeta.
    unfold int_add. rewrite !wrap_id by (unfold INT_MIN, INT_MAX; lia).
    destruct (Z.ltb_spec 12 (m + 1)); apply Page; lia.
Qed.

Lemma calendar_cursor_stays_on_a_day_witness :
  exists u' m' y',
    processCalendarInput "w" january_2027 = Returns u'
    /\ sscanf_date (currentDate u') = Some (15, m', y')
    /\ 1 <= m' <= 12 /\ 0 <= y' <= 9999
    /\ 1 <= selectedCalendarDay u' <= days_in_month y' m'
    /\ currentState u' = currentState january_2027
    /\ calendarOriginalDate u' = calendarOriginalDate january_2027
    /\ dataManager u' = dataManager january_2027.
Proof.
  apply (calendar_cursor_stays_on_a_day "w" january_2027 15 1 2027);
    first [reflexivity | vm_compute; intuition discriminate].
Defined.

(** X18.  Turning the calendar one month on and then one month back, or back
    and then on, shows the month it started from, the year included, with
    the cursor on day 1. *)
Theorem calendar_page_there_and_back (u : UIManager) (d m y : Z) :
  currentDate u = date_text d m y ->
  0 <= d <= 99 -> 1 <= m <= 12 -> 1 <= y <= 9998 ->
  (exists u1, processCalendarInput "w" u = Returns u1
              /\ processCalendarInput "b" u1 = Returns (with_selectedCalendarDay 1 u))
  /\ (exists u1, processCalendarInput "b" u = Returns u1
                 /\ processCalendarInput "w" u1 = Returns (with_selectedCalendarDay 1 u)).
Proof.
  intros Hc Hd Hm Hy.
  assert (Hdate : sscanf_date (currentDate u) = Some (d, m, y))
    by (rewrite Hc; apply read_date_sscanf, read_date_text; lia).
  assert (Back : forall m' y',
            with_currentDate (date_text d m y)
              (with_selectedCalendarDay 1
                 (with_currentDate (date_text d m' y') (with_selectedCalendarDay 1 u)))
            = with_selectedCalendarDay 1 u)
    by (intros; destruct u; cbn in *; now subst).
  split.
  - rewrite (processCalendarInput_w u d m y Hdate). cbv zeta.
    unfold int_add. rewrite !wrap_id by (unfold INT_MIN, INT_MAX; lia).
    destruct (Z.ltb_spec 12 (m + 1)).
    + assert (m = 12) by lia. subst m.
      rewrite format_date_fits by lia. cbn [bind]. eexists. split; [reflexivity|].
      erewrite processCalendarInput_b
        by (destruct u; cbn; apply read_date_sscanf, read_date_text; lia).
      cbv zeta. unfold int_sub. rewrite !wrap_id by (unfold INT_MIN, INT_MAX; lia).
      change (1 - 1 <? 1) with true. cbv iota.
      replace (y + 1 - 1) with y by lia.
      rewrite format_date_fits by lia. cbn [bind]. now rewrite Back.
    + rewrite format_date_fits by lia. cbn [bind]. eexists. split; [reflexivity|].
      erewrite processCalendarInput_b
        by (destruct u; cbn; apply read_date_sscanf, read_date_text; lia).
      cbv zeta. unfold int_sub. rewrite !wrap_id by (unfold INT_MIN, INT_MAX; lia).
      replace (m + 1 - 1) with m by lia.
      replace (m <? 1) with false by (symmetry; apply Z.ltb_ge; lia).
      rewrite format_date_fits by lia. cbn [bind]. now rewrite Back.
  - rewrite (processCalendarInput_b u d m y Hdate). cbv zeta.
    unfold int_sub. rewrite !wrap_id by (unfold INT_MIN, INT_MAX; lia).
    destruct (Z.ltb_spec (m - 1) 1).
    + assert (m = 1) by lia. subst m.
      rewrite format_date_fits by lia. cbn [bind]. eexists. split; [reflexivity|].
      erewrite processCalendarInput_w
        by (destruct u; cbn; apply read_date_sscanf, read_date_text; lia).
      cbv zeta. unfold int_add. rewrite !wrap_id by (unfold INT_MIN, INT_MAX; lia).
      change (12 <? 12 + 1) with true. cbv iota.
      replace (y - 1 + 1) with y by lia.
      rewrite format_date_fits by lia. cbn [bind]. now rewrite Back.
    + rewrite format_date_fits by lia. cbn [bind]. eexists. split; [reflexivity|].
      erewrite processCalendarInput_w
        by (destruct u; cbn; apply read_date_sscanf, read_date_text; lia).
      cbv zeta. unfold int_add. rewrite !wrap_id by (unfold INT_MIN, INT_MAX; lia).
      replace (m - 1 + 1) with m by lia.
      replace (12 <? m) with false by (symmetry; apply Z.ltb_ge; lia).
      rewrite format_date_fits by lia. cbn [bind]. now rewrite Back.
Qed.

Lemma calendar_page_there_and_back_witness :
  (exists u1, processCalendarInput "w" january_2027 = Returns u1
              /\ processCalendarInput "b" u1 = Returns january_2027)
  /\ (exists u1, processCalendarInput "b" january_2027 = Returns u1
                 /\ processCalendarInput "w" u1 = Returns january_2027).
Proof.
  apply (calendar_page_there_and_back january_2027 15 1 2027);
    first [reflexivity | lia].
Defined.

(** X19.  Enter in the calendar makes the day under the cursor the current
    date: the main view then reads that day of the month on display. *)
Theorem calendar_enter_selects_day (u : UIManager) (d m y : Z) :
  sscanf_date (currentDate u) = Some (d, m, y) ->
  1 <= m <= 12 -> 0 <= y <= 9999 ->
  1 <= selectedCalendarDay u <= days_in_month y m ->
  exists u',
    processCalendarInput cr u = Returns u'
    /\ currentState u' = STATE_MAIN_MENU
    /\ sscanf_date (currentDate u') = Some (selectedCalendarDay u, m, y)
    /\ u' = with_currentState STATE_MAIN_MENU (with_currentDate (currentDate u') u).
Proof.
  intros Hdate Hm Hy Hsel.
  pose proof (days_in_month_range y m) as R.
  rewrite (processCalendarInput_cr u d m y Hdate).
  rewrite format_date_fits by lia. cbn [bind].
  eexists. split; [reflexivity|].
  split; [destruct u; reflexivity|].
  split; [|destruct u; reflexivity].
  replace (currentDate _) with (date_text (selectedCalendarDay u) m y)
    by (destruct u; reflexivity).
  apply read_date_sscanf, read_date_text; lia.
Qed.

Lemma calendar_enter_selects_day_witness :
  exists u',
    processCalendarInput cr january_2027 = Returns u'
    /\ currentState u' = STATE_MAIN_MENU
    /\ sscanf_date (currentDate u') = Some (1, 1, 2027)
    /\ u' = with_currentState STATE_MAIN_MENU (with_currentDate (currentDate u') january_2027).
Proof.
  apply (calendar_enter_selects_day january_2027 15 1 2027);
    first [reflexivity | vm_compute; intuition discriminate].
Defined.

Lemma browse_step (key : ascii) (u u' : UIManager) (dmy : Z * Z * Z) :
  browse_key key = true ->
  sscanf_date (currentDate u) = Some dmy ->
  processCalendarInput key u = Returns u' ->
  (exists dmy', sscanf_date (currentDate u') = Some dmy')
  /\ calendarOriginalDate u' = calendarOriginalDate u
  /\ currentState u' = currentState u
  /\ dataManager u' = dataManager u
  /\ nav_of u' = nav_of u
  /\ menuItems u' = menuItems u.
Proof.
  intros Hkey Hdate. destruct dmy as [[d m] y].
  destruct (sscanf_date_in_int _ _ _ _ Hdate) as (Id & Im & Iy).
  assert (Same : forall sel, Returns (with_selectedCalendarDay sel u) = Returns u' ->
            (exists dmy', sscanf_date (currentDate u') = Some dmy')
            /\ calendarOriginalDate u' = calendarOriginalDate u
            /\ currentState u' = currentState u
            /\ dataManager u' = dataManager u
            /\ nav_of u' = nav_of u
            /\ menuItems u' = menuItems u).
  { intros sel [= <-]. destruct u; cbn in *. split; [eauto|]. repeat split. }
  assert (Page : forall m' y', in_int m' = true -> in_int y' = true ->
            (buffer <- format_date d m' y' ;;
             Returns (with_currentDate buffer (with_selectedCalendarDay 1 u))) = Returns u' ->
            (exists dmy', sscanf_date (currentDate u') = Some dmy')
            /\ calendarOriginalDate u' = calendarOriginalDate u
            /\ currentState u' = currentState u
            /\ dataManager u' = dataManager u
            /\ nav_of u' = nav_of u
            /\ menuItems u' = menuItems u).
  { intros m' y' Im' Iy'. destruct (format_date d m' y') as [text| | | |] eqn:F;
      cbn [bind]; try discriminate.
    intros [= <-]. apply format_date_read in F; try assumption.
    apply read_date_sscanf in F. destruct u; cbn in *. split; [eauto|]. repeat split. }
  assert (Iw : forall z, in_int (wrap z) = true)
    by (intros; apply in_int_true, wrap_range).
  destruct (browse_key_cases key Hkey) as [-> | [-> | [-> | [-> | [-> | ->]]]]].
  - rewrite (processCalendarInput_h u d m y Hdate). apply Same.
  - rewrite (processCalendarInput_l u d m y Hdate). apply Same.
  - rewrite (processCalendarInput_j u d m y Hdate). apply Same.
  - rewrite (processCalendarInput_k u d m y Hdate). apply Same.
  - rewrite (processCalendarInput_b u d m y Hdate). cbv zeta.
    destruct (int_sub m 1 <? 1); apply Page; unfold int_sub; auto.
  - rewrite (processCalendarInput_w u d m y Hdate). cbv zeta.
    destruct (12 <? int_add m 1); apply Page; unfold int_add; auto.
Qed.

Lemma calendar_turns_keep (ks : list ascii) (u u' : UIManager) (dmy : Z * Z * Z) :
  forallb browse_key ks = true ->
  sscanf_date (currentDate u) = Some dmy ->
  calendar_turns ks u = Returns u' ->
  (exists dmy', sscanf_date (currentDate u') = Some dmy')
  /\ calendarOriginalDate u' = calendarOriginalDate u
  /\ currentState u' = currentState u
  /\ dataManager u' = dataManager u
  /\ nav_of u' = nav_of u
  /\ menuItems u' = menuItems u.
Proof.
  revert u dmy. induction ks as [|key ks IH]; intros u dmy Hks Hdate; cbn [calendar_turns].
  - intros [= <-]. split; [eauto|]. repeat split.
  - cbn [forallb] in Hks. apply andb_true_iff in Hks as [Hk Hks].
    destruct (processCalendarInput key u) as [u1| | | |] eqn:E; cbn [bind]; try discriminate.
    intros Hrest.
    destruct (browse_step key u u1 dmy Hk Hdate E) as ([dmy1 H1] & A & B & C & D & F).
    destruct (IH u1 dmy1 Hks H1 Hrest) as (H' & A' & B' & C' & D' & F').
    split; [assumption|]. repeat split; congruence.
Qed.

(** X20.  Opening the calendar from the main view, moving the cursor and
    turning pages in any order, and leaving with ['q'] shows the day the
    main view was on before, with the same store and the same focus. *)
Theorem calendar_cancel_restores_date (w : World) (ks : list ascii) (dmy : Z * Z * Z) :
  currentState (ui w) = STATE_MAIN_MENU ->
  selectedIndex (ui w) = 2 ->
  menuItems (ui w) = ["Add from templates"; "Add custom food"; "Calendar"; "Reset goals"] ->
  sscanf_date (currentDate (ui w)) = Some dmy ->
  forallb browse_key ks = true ->
  exists w1,
    processInput cr w = Returns w1
    /\ currentState (ui w1) = STATE_CALENDAR
    /\ selectedCalendarDay (ui w1) = 1
    /\ forall u', calendar_turns ks (ui w1) = Returns u' ->
         exists u'',
           processCalendarInput "q" u' = Returns u''
           /\ currentState u'' = STATE_MAIN_MENU
           /\ currentDate u'' = currentDate (ui w)
           /\ dataManager u'' = dataManager (touched (ui w))
           /\ nav_of u'' = nav_of (ui w).
Proof.
  intros Hs Hsel Hitems Hdate Hks.
  unfold processInput.
  destruct (getRecord (currentDate (ui w)) (dataManager (ui w))) as [dm record] eqn:G.
  destruct w as [u tpl dk kk ci]. cbn [ui with_ui] in *.
  destruct u as [orig dm0 st cur sel items off tc tcb tp tf scd]. cbn in Hs, Hsel, Hitems, Hdate, G.
  subst st sel items. cbn [with_dataManager currentState].
  change (key_is cr "j") with false. change (key_is cr "k") with false.
  change (key_is cr cr) with true. cbv iota.
  cbn [selectedIndex menuItems layout_of menuCount].
  change (2 <? size_int _) with true. cbv iota.
  change (2 =? 0) with false. change (2 =? 1) with false. change (2 =? 2) with true.
  cbv iota. eexists. split; [reflexivity|].
  cbn [ui with_ui with_selectedCalendarDay with_currentState with_calendarOriginalDate
       currentState selectedCalendarDay currentDate].
  split; [reflexivity|]. split; [reflexivity|].
  intros u' Hrun.
  eapply calendar_turns_keep in Hrun; [|assumption|cbn; eassumption].
  destruct Hrun as ([dmy' H'] & A & B & C & D & F).
  rewrite (processCalendarInput_q u' dmy' H').
  eexists. split; [reflexivity|].
  destruct u'; unfold touched, nav_of in *; cbn in *. rewrite G. cbn.
  repeat split; congruence.
Qed.

Lemma calendar_cancel_restores_date_witness :
  (exists w1,
     processInput cr (with_ui (with_selectedIndex 2 (ui one_food_world)) one_food_world)
       = Returns w1
     /\ currentState (ui w1) = STATE_CALENDAR
     /\ selectedCalendarDay (ui w1) = 1
     /\ forall u', calendar_turns ["w"; "j"; "l"; "b"; "b"]%char (ui w1) = Returns u' ->
          exists u'',
            processCalendarInput "q" u' = Returns u''
            /\ currentState u'' = STATE_MAIN_MENU
            /\ currentDate u'' = "01/01/2025"
            /\ dataManager u'' = one_apple
            /\ nav_of u'' = (2, 0))
  /\ match calendar_turns ["w"; "j"; "l"; "b"; "b"]%char
             (with_selectedCalendarDay 1
                (with_currentState STATE_CALENDAR
                   (with_calendarOriginalDate "01/01/2025"
                      (with_selectedIndex 2 (ui one_food_world))))) with
     | Returns u' => currentDate u' = "01/12/2024"
     | _ => False
     end.
Proof.
  split.
  - apply (calendar_cancel_restores_date
             (with_ui (with_selectedIndex 2 (ui one_food_world)) one_food_world)
             ["w"; "j"; "l"; "b"; "b"]%char (1, 1, 2025));
      reflexivity.
  - vm_compute. reflexivity.
Defined.

(* ===================================================================== *)
(** ** What the main view draws *)
(* ===================================================================== *)

(* ===================================================================== *)
(** ** The viewport of the food table *)
(* ===================================================================== *)

Section Viewport.
Variable l : Layout.
Hypothesis menu_pos : 1 <= menuCount l.
Hypothesis food_nonneg : 0 <= foodCount l.
Hypothesis slots_pos : 1 <= visibleSlots l.
Hypothesis total_fits : menuCount l + foodCount l <= INT_MAX.
Hypothesis window_fits : foodCount l + visibleSlots l <= INT_MAX.

Lemma press_j_viewport (nav : Z * Z) :
  focus_in_viewport l nav -> focus_in_viewport l (press_j l nav).
Proof.
  destruct nav as [sel off]. unfold focus_in_viewport, nav_ok, press_j, totalSelectable.
  cbn [fst snd]. unfold INT_MAX in *. intros [[Hs Ho] [Hm Hf]].
  int_cases; cbn [fst snd]; lia.
Qed.

Lemma press_k_viewport (nav : Z * Z) :
  focus_in_viewport l nav -> focus_in_viewport l (press_k l nav).
Proof.
  destruct nav as [sel off]. unfold focus_in_viewport, nav_ok, press_k, totalSelectable.
  cbn [fst snd]. unfold INT_MAX in *. intros [[Hs Ho] [Hm Hf]].
  int_cases; cbn [fst snd]; lia.
Qed.

Lemma render_clamp_viewport (nav : Z * Z) :
  focus_in_viewport l nav -> focus_in_viewport l (fst nav, render_clamp l (snd nav)).
Proof.
  destruct nav as [sel off]. unfold focus_in_viewport, nav_ok, render_clamp.
  cbn [fst snd]. unfold INT_MAX in *. intros [[Hs Ho] [Hm Hf]].
  int_cases; cbn [fst snd]; lia.
Qed.

Lemma presses_viewport (ms : list move) (nav : Z * Z) :
  focus_in_viewport l nav -> focus_in_viewport l (presses l ms nav).
Proof.
  revert nav. induction ms as [| m ms IH]; intros nav H; [exact H |].
  apply IH. destruct m; cbn [press];
    auto using press_j_viewport, press_k_viewport, render_clamp_viewport.
Qed.

Lemma food_rows_spec (start off : Z) (fuel : nat) (j i r : Z) :
  0 <= off <= j -> off <= foodCount l ->
  0 <= start -> start + foodCount l <= INT_MAX ->
  In (i, r) (food_rows fuel l start off j) <->
  (j <= i < j + Z.of_nat fuel /\ i < foodCount l /\ i < off + visibleSlots l
   /\ r = start + (i - off)).
Proof.
  intros Ho Hoc Hs Hf. revert j Ho. induction fuel as [|fuel IH]; intros j Ho.
  - cbn. lia.
  - cbn [food_rows]. unfold int_add, int_sub.
    rewrite (wrap_id (off + visibleSlots l)) by (unfold INT_MIN, INT_MAX in *; lia).
    destruct (Z.ltb_spec j (foodCount l)), (Z.ltb_spec j (off + visibleSlots l));
      cbn [andb In]; try lia.
    rewrite (wrap_id (start + j)), (wrap_id (start + j - off)), (wrap_id (j + 1))
      by (unfold INT_MIN, INT_MAX in *; lia).
    rewrite IH by lia. split.
    + intros [[= <- <-] | H']; lia.
    + intros H'. destruct (Z.eq_dec i j) as [-> | Hne]; [left; f_equal; lia | right; lia].
Qed.

Lemma drawn_foods_spec (start off i r : Z) :
  0 <= off <= foodCount l -> 0 <= start -> start + foodCount l <= INT_MAX ->
  In (i, r) (drawn_foods l start off) <->
  (off <= i < foodCount l /\ i < off + visibleSlots l /\ r = start + (i - off)).
Proof.
  intros Ho Hs Hf. unfold drawn_foods. rewrite food_rows_spec by lia.
  rewrite Z2Nat.id by lia. lia.
Qed.
End Viewport.

Lemma layout_of_slots (items : list string) (fs : list Food) :
  1 <= Z.of_nat (List.length items) <= 13 ->
  Z.of_nat (List.length fs) <= INT_MAX - 30 ->
  menuCount (layout_of items fs) = Z.of_nat (List.length items)
  /\ foodCount (layout_of items fs) = Z.of_nat (List.length fs)
  /\ visibleSlots (layout_of items fs) = 14 - Z.of_nat (List.length items)
  /\ foodListStartY items = 7 + Z.of_nat (List.length items).
Proof.
  intros Hi Hf. unfold layout_of, foodListStartY, CONSOLE_HEIGHT.
  cbn [menuCount foodCount visibleSlots]. unfold INT_MAX in *.
  rewrite !size_int_length by (unfold INT_MAX; lia).
  split; [reflexivity |]. split; [reflexivity |].
  int_cases; lia.
Qed.

Lemma viewport_rows (u : UIManager) :
  1 <= Z.of_nat (List.length (menuItems u)) <= 13 ->
  Z.of_nat (List.length (day_foods u)) <= INT_MAX - 30 ->
  focus_in_viewport (day_layout u) (nav_of u) ->
  (forall i r, In (i, r) (rows_drawn u) ->
     0 <= i < Z.of_nat (List.length (day_foods u))
     /\ foodListStartY (menuItems u) <= r < CONSOLE_HEIGHT - 3)
  /\ (Z.of_nat (List.length (menuItems u)) <= selectedIndex u ->
      exists r, In (selectedIndex u - Z.of_nat (List.length (menuItems u)), r)
                  (rows_drawn u)).
Proof.
  intros Hi Hf V.
  destruct (layout_of_slots (menuItems u) (day_foods u) Hi Hf) as (Em & Ef & Ev & Es).
  fold (day_layout u) in Em, Ef, Ev.
  apply render_clamp_viewport in V;
    [| rewrite ?Em, ?Ef, ?Ev; unfold INT_MAX in *; lia ..].
  destruct V as [[Hn Ho] [_ Hfoc]].
  unfold rows_drawn, nav_of in *. cbv zeta. cbn [fst snd] in *.
  set (off := render_clamp (day_layout u) (foodScrollOffset u)) in *. clearbody off.
  unfold CONSOLE_HEIGHT, INT_MAX in *.
  split.
  - intros i r Hin. apply drawn_foods_spec in Hin; unfold INT_MAX; lia.
  - intros Hfood. eexists. apply drawn_foods_spec; unfold INT_MAX; try lia.
    split; [|split; [|reflexivity]]; lia.
Qed.

(** X12.  From a state of the main view in which the focused food, if any, is
    in the viewport: whatever ['j'], ['k'] and redraws follow, the rows
    drawn show foods of the day between the menu and the tips, and a
    focused food is among them. *)
Theorem main_view_draws_the_focused_food (ms : list move) (w : World) (dmy : Z * Z * Z) :
  currentState (ui w) = STATE_MAIN_MENU ->
  sscanf_date (currentDate (ui w)) = Some dmy ->
  1 <= Z.of_nat (List.length (menuItems (ui w))) <= 13 ->
  Z.of_nat (List.length (day_foods (ui w))) <= INT_MAX - 30 ->
  focus_in_viewport (day_layout (ui w)) (nav_of (ui w)) ->
  exists w',
    steps ms w = Returns w'
    /\ view (ui w') = view (ui w)
    /\ (forall i r, In (i, r) (rows_drawn (ui w')) ->
          0 <= i < Z.of_nat (List.length (day_foods (ui w')))
          /\ foodListStartY (menuItems (ui w')) <= r < CONSOLE_HEIGHT - 3)
    /\ (Z.of_nat (List.length (menuItems (ui w'))) <= selectedIndex (ui w') ->
        exists r, In (selectedIndex (ui w') - Z.of_nat (List.length (menuItems (ui w'))), r)
                    (rows_drawn (ui w'))).
Proof.
  intros Hs Hd Hi Hf Hv.
  destruct (steps_refine ms w dmy Hs Hd) as [w' [S [N V]]].
  exists w'. split; [exact S |]. split; [exact V |].
  assert (Ei : menuItems (ui w') = menuItems (ui w)) by (unfold view in V; congruence).
  assert (Efs : day_foods (ui w') = day_foods (ui w)) by (unfold view in V; congruence).
  apply viewport_rows; rewrite ?Ei, ?Efs; try assumption.
  rewrite (day_layout_view _ _ V), N.
  destruct (layout_of_slots (menuItems (ui w)) (day_foods (ui w)) Hi Hf) as (Em & Ef & Ev & _).
  fold (day_layout (ui w)) in Em, Ef, Ev.
  unfold INT_MAX in *.
  apply presses_viewport; try assumption; rewrite ?Em, ?Ef, ?Ev; unfold INT_MAX; lia.
Qed.

(** X14.  When the scroll bar is drawn, its block is on the bar: on the first
    row with the list unscrolled, on the last row with the list scrolled
    to its end, and between them otherwise. *)
Theorem scroll_indicator_on_the_bar (l : Layout) (start offset : Z) :
  1 <= visibleSlots l < foodCount l ->
  foodCount l * visibleSlots l <= INT_MAX ->
  0 <= start -> start + visibleSlots l <= INT_MAX ->
  0 <= offset ->
  let clamped := render_clamp l offset in
  exists row,
    indicatorRow l start clamped = Some row
    /\ start <= row <= start + visibleSlots l - 1
    /\ (clamped = 0 -> row = start)
    /\ (clamped = foodCount l - visibleSlots l -> row = start + visibleSlots l - 1).
Proof.
  intros Hv Hp Hs Hsf Ho clamped.
  assert (Hn : foodCount l <= INT_MAX) by nia.
  assert (Hc : 0 <= clamped <= foodCount l - visibleSlots l).
  { subst clamped. unfold render_clamp, INT_MAX in *. int_cases; lia. }
  clearbody clamped. unfold indicatorRow.
  replace (visibleSlots l <? foodCount l) with true by (symmetry; apply Z.ltb_lt; lia).
  unfold int_sub, int_add, int_mul, int_div, INT_MAX in *.
  rewrite (wrap_id (visibleSlots l - 1)), (wrap_id (foodCount l - visibleSlots l))
    by (unfold INT_MIN, INT_MAX; nia).
  replace (0 <? foodCount l - visibleSlots l) with true by (symmetry; apply Z.ltb_lt; lia).
  set (range := foodCount l - visibleSlots l) in *.
  set (top := visibleSlots l - 1) in *.
  assert (Hq : 0 <= Z.quot (clamped * top) range <= top).
  { split.
    - apply Z.quot_pos; nia.
    - apply Z.quot_le_upper_bound; nia. }
  rewrite (wrap_id (clamped * top)) by (unfold INT_MIN, INT_MAX; nia).
  rewrite (wrap_id (Z.quot _ _)) by (unfold INT_MIN, INT_MAX; nia).
  rewrite wrap_id by (unfold INT_MIN, INT_MAX; nia).
  eexists. split; [reflexivity|]. split; [lia|]. split.
  - intros ->. rewrite Z.mul_0_l, Z.quot_0_l by lia. lia.
  - intros ->. rewrite Z.mul_comm, Z.quot_mul by lia. lia.
Qed.

Lemma scroll_indicator_on_the_bar_witness :
  exists row,
    indicatorRow (mkLayout 4 12 10) 11 (render_clamp (mkLayout 4 12 10) 1) = Some row
    /\ 11 <= row <= 11 + 10 - 1
    /\ (render_clamp (mkLayout 4 12 10) 1 = 0 -> row = 11)
    /\ (render_clamp (mkLayout 4 12 10) 1 = 12 - 10 -> row = 11 + 10 - 1).
Proof.
  apply (scroll_indicator_on_the_bar (mkLayout 4 12 10) 11 1); cbn; unfold INT_MAX; lia.
Defined.

Lemma main_view_draws_the_focused_food_witness :
  exists w',
    steps [Redraw; Retreat; Advance] one_food_world = Returns w'
    /\ view (ui w') = view (ui one_food_world)
    /\ (forall i r, In (i, r) (rows_drawn (ui w')) ->
          0 <= i < Z.of_nat (List.length (day_foods (ui w')))
          /\ foodListStartY (menuItems (ui w')) <= r < CONSOLE_HEIGHT - 3)
    /\ (Z.of_nat (List.length (menuItems (ui w'))) <= selectedIndex (ui w') ->
        exists r, In (selectedIndex (ui w') - Z.of_nat (List.length (menuItems (ui w'))), r)
                    (rows_drawn (ui w'))).
Proof.
  apply (main_view_draws_the_focused_food [Redraw; Retreat; Advance] one_food_world
           (1, 1, 2025));
    first [reflexivity | vm_compute; intuition discriminate].
Defined.

(** X13.  Deleting the focused food and redrawing leaves the focus on an entry
    whose row is drawn: the clamp of the redraw pulls the viewport back
    over the shorter list. *)
Theorem delete_then_redraw_keeps_focus_in_viewport (w : World) (dmy : Z * Z * Z) :
  let menu := Z.of_nat (List.length (menuItems (ui w))) in
  let fs := day_foods (ui w) in
  let sel := selectedIndex (ui w) in
  currentState (ui w) = STATE_MAIN_MENU ->
  sscanf_date (currentDate (ui w)) = Some dmy ->
  1 <= menu <= 13 ->
  Z.of_nat (List.length fs) <= INT_MAX - 30 ->
  focus_in_viewport (day_layout (ui w)) (nav_of (ui w)) ->
  menu <= sel ->
  exists w1 u2,
    processInput "x" w = Returns w1
    /\ renderMainMenu (ui w1) = Returns u2
    /\ day_foods u2 = erase_nth (Z.to_nat (sel - menu)) fs
    /\ focus_in_viewport (day_layout u2) (nav_of u2).
Proof.
  intros menu fs sel Hst Hd Hm Hn Hv Hfood.
  destruct (layout_of_slots (menuItems (ui w)) fs Hm Hn) as (Em & Ef & Ev & _).
  fold menu in Em, Ev.
  change (day_layout (ui w)) with (layout_of (menuItems (ui w)) fs) in Hv.
  destruct Hv as [[Hs Ho] [_ Hfoc]]. unfold nav_of in Hs, Ho, Hfoc.
  cbn [fst snd] in Hs, Ho, Hfoc.
  fold sel in Hs, Hfoc. rewrite Em, Ef in Hs. rewrite Ef, Ev in Ho. rewrite Em, Ev in Hfoc.
  rewrite processInput_x by exact Hst.
  rewrite size_int_length by (fold menu; unfold INT_MAX; lia).
  fold menu fs sel. rewrite press_x_focused by (unfold INT_MAX in *; lia).
  pose proof (day_foods_written (ui w) (erase_nth (Z.to_nat (sel - menu)) fs)) as W.
  destruct (getRecord (currentDate (ui w)) (dataManager (ui w))) as [dm record].
  set (sel' := if sel =? menu + Z.of_nat (List.length fs) - 1 then sel - 1 else sel).
  set (u1 := with_selectedIndex sel'
               (with_dataManager
                  (set_foods_at record (erase_nth (Z.to_nat (sel - menu)) fs) dm) (ui w))).
  assert (D : day_foods u1 = erase_nth (Z.to_nat (sel - menu)) fs) by exact W.
  assert (L : List.length (erase_nth (Z.to_nat (sel - menu)) fs)
              = (List.length fs - 1)%nat) by (apply erase_nth_length; lia).
  assert (Hd1 : sscanf_date (currentDate u1) = Some dmy) by exact Hd.
  destruct (renderMainMenu_effect u1 dmy Hd1) as (u2 & R & N & V).
  exists (save (with_ui u1 w)), u2.
  split; [reflexivity|]. split; [exact R|].
  assert (Efs : day_foods u2 = day_foods u1) by (unfold view in V; congruence).
  split; [now rewrite Efs|].
  rewrite (day_layout_view _ _ V), N.
  assert (Hi1 : 1 <= Z.of_nat (List.length (menuItems u1)) <= 13) by exact Hm.
  assert (Hn1 : Z.of_nat (List.length (day_foods u1)) <= INT_MAX - 30)
    by (rewrite D, L; unfold INT_MAX in *; lia).
  destruct (layout_of_slots (menuItems u1) (day_foods u1) Hi1 Hn1) as (Em1 & Ef1 & Ev1 & _).
  fold (day_layout u1) in Em1, Ef1, Ev1.
  change (menuItems u1) with (menuItems (ui w)) in Em1, Ev1. fold menu in Em1, Ev1.
  rewrite D, L in Ef1.
  change (selectedIndex u1) with sel'. change (foodScrollOffset u1) with (foodScrollOffset (ui w)).
  unfold focus_in_viewport, nav_ok, render_clamp. cbn [fst snd].
  rewrite Em1, Ef1, Ev1. subst sel'. unfold INT_MAX in *.
  destruct (Z.eqb_spec sel (menu + Z.of_nat (List.length fs) - 1));
    int_cases; lia.
Qed.

Lemma delete_then_redraw_keeps_focus_in_viewport_witness :
  exists w1 u2,
    processInput "x" one_food_world = Returns w1
    /\ renderMainMenu (ui w1) = Returns u2
    /\ day_foods u2 = []
    /\ focus_in_viewport (day_layout u2) (nav_of u2).
Proof.
  apply (delete_then_redraw_keeps_focus_in_viewport one_food_world (1, 1, 2025));
    first [reflexivity | vm_compute; intuition discriminate].
Defined.

(* ===================================================================== *)
(** ** The texts of a row, the totals and the header *)
(* ===================================================================== *)

Lemma setw_fill0_fmt (w : nat) (z : Z) : 0 <= z -> setw_fill0 w z = fmt_0d w z.
Proof.
  intros H. unfold setw_fill0, fmt_0d.
  now replace (z <? 0) with false by (symmetry; apply Z.ltb_ge; lia).
Qed.

Lemma fmt_0d_three (z : Z) : 0 <= z <= 999 -> String.length (fmt_0d 3 z) = 3%nat.
Proof. intros H. apply fmt_0d_length; [change (10 ^ Z.of_nat 3) with 1000; lia | lia]. Qed.

Lemma shown_four (v : Z) :
  0 <= v -> String.length (setw_fill0 4 (at_most 9999 v)) = 4%nat.
Proof.
  intros H. unfold at_most.
  destruct (Z.ltb_spec 9999 v); rewrite setw_fill0_fmt, fmt_0d_four; lia.
Qed.

Lemma shown_three (v : Z) :
  0 <= v -> String.length (setw_fill0 3 (at_most 999 v)) = 3%nat.
Proof.
  intros H. unfold at_most.
  destruct (Z.ltb_spec 999 v); rewrite setw_fill0_fmt, fmt_0d_three; lia.
Qed.

Lemma nonneg_food_fields (f : Food) :
  nonneg_food f = true ->
  0 <= calories f /\ 0 <= carbs f /\ 0 <= protein f /\ 0 <= fat f /\ 0 <= grams f.
Proof. unfold nonneg_food. rewrite !andb_true_iff, !Z.leb_le. tauto. Qed.

Lemma length_spaces (n : nat) : String.length (spaces n) = n.
Proof. induction n; cbn; auto. Qed.

(** X15.  A row of the food table whose name has at most [maxNameLen]
    characters and whose numbers are not negative: the name fills
    columns 0 to 20, the details fill columns 25 to 78, and column 79
    stays free for the scroll bar. *)
Theorem food_row_columns (f : Food) :
  (String.length (name f) <= maxNameLen)%nat ->
  nonneg_food f = true ->
  String.length (formattedName f) = maxNameLen
  /\ String.length (detailsCombined f) = 54%nat
  /\ detailsPrintX f = 25
  /\ detailsPrintX f + Z.of_nat (String.length (detailsCombined f)) = CONSOLE_WIDTH - 1.
Proof.
  intros Hn H. apply nonneg_food_fields in H as (Hc & Hb & Hp & Hf & Hg).
  assert (L : String.length (detailsCombined f) = 54%nat).
  { unfold detailsCombined. cbv zeta.
    rewrite !length_append, !shown_four, !shown_three by assumption. reflexivity. }
  split.
  - unfold formattedName. rewrite length_append, length_spaces. lia.
  - split; [exact L|].
    assert (X : detailsPrintX f = 25) by (unfold detailsPrintX; rewrite L; reflexivity).
    rewrite X, L. repeat split.
Qed.

Lemma food_row_columns_witness :
  String.length (formattedName apple) = maxNameLen
  /\ String.length (detailsCombined apple) = 54%nat
  /\ detailsPrintX apple = 25
  /\ detailsPrintX apple + Z.of_nat (String.length (detailsCombined apple))
     = CONSOLE_WIDTH - 1.
Proof.
  apply (food_row_columns apple); [vm_compute; lia | reflexivity].
Defined.

Lemma fold_sum (g : Food -> Z) (fs : list Food) (acc : Z) :
  Forall (fun f => 0 <= g f) fs -> 0 <= acc -> acc + sum_of g fs <= INT_MAX ->
  fold_left (fun t f => int_add t (g f)) fs acc = acc + sum_of g fs.
Proof.
  revert acc. induction fs as [|f fs IH]; intros acc Hall Ha Hs; cbn [fold_left sum_of fold_right].
  - lia.
  - inversion Hall as [|? ? Hf Hrest]; subst.
    assert (Hsum : 0 <= sum_of g fs).
    { clear -Hrest. induction Hrest; cbn; [lia|]. fold (sum_of g l). lia. }
    cbn [sum_of fold_right] in Hs. fold (sum_of g fs) in Hs |- *.
    unfold int_add. rewrite wrap_id by (unfold INT_MIN, INT_MAX in *; lia).
    rewrite IH; try assumption; lia.
Qed.

Lemma day_foods_updateTotals (u : UIManager) :
  day_foods (updateTotals u) = day_foods u
  /\ currentDate (updateTotals u) = currentDate u
  /\ dataManager (updateTotals u) = dataManager (touched u).
Proof.
  unfold updateTotals, touched.
  pose proof (day_foods_touched u) as T. unfold touched in T.
  destruct (getRecord (currentDate u) (dataManager u)) as [dm record] eqn:G.
  cbn [fst] in *. split; [|split; destruct u; reflexivity].
  rewrite <- T. destruct u; reflexivity.
Qed.

(** X11.  [updateTotals] shows the sums of the day: with no negative number
    among the foods of the day and sums that fit an [int], each total is
    the sum of its field over these foods, and the foods themselves are
    left as they are. *)
Theorem updateTotals_sums (u : UIManager) :
  forallb nonneg_food (day_foods u) = true ->
  sum_of calories (day_foods u) <= INT_MAX ->
  sum_of carbs (day_foods u) <= INT_MAX ->
  sum_of protein (day_foods u) <= INT_MAX ->
  sum_of fat (day_foods u) <= INT_MAX ->
  totalCalories (updateTotals u) = sum_of calories (day_foods u)
  /\ totalCarbs (updateTotals u) = sum_of carbs (day_foods u)
  /\ totalProtein (updateTotals u) = sum_of protein (day_foods u)
  /\ totalFat (updateTotals u) = sum_of fat (day_foods u)
  /\ day_foods (updateTotals u) = day_foods u.
Proof.
  intros Hall Hc Hb Hp Hf.
  destruct (day_foods_updateTotals u) as (Efs & _ & _).
  unfold updateTotals, day_foods in *.
  destruct (getRecord (currentDate u) (dataManager u)) as [dm record].
  set (fs := foods_at record dm) in *.
  assert (A : forall g, (forall f, nonneg_food f = true -> 0 <= g f) ->
                Forall (fun f => 0 <= g f) fs).
  { intros g Hg. apply Forall_forall. intros f Hin. apply Hg.
    rewrite forallb_forall in Hall. now apply Hall. }
  repeat split.
  - destruct u; cbn. rewrite fold_sum; try lia. apply A. intros f H; apply nonneg_food_fields in H; tauto.
  - destruct u; cbn. rewrite fold_sum; try lia. apply A. intros f H; apply nonneg_food_fields in H; tauto.
  - destruct u; cbn. rewrite fold_sum; try lia. apply A. intros f H; apply nonneg_food_fields in H; tauto.
  - destruct u; cbn. rewrite fold_sum; try lia. apply A. intros f H; apply nonneg_food_fields in H; tauto.
  - exact Efs.
Qed.

Lemma updateTotals_sums_witness :
  totalCalories (updateTotals (ui one_food_world)) = 52
  /\ totalCarbs (updateTotals (ui one_food_world)) = 14
  /\ totalProtein (updateTotals (ui one_food_world)) = 0
  /\ totalFat (updateTotals (ui one_food_world)) = 0
  /\ day_foods (updateTotals (ui one_food_world)) = [apple].
Proof.
  apply (updateTotals_sums (ui one_food_world));
    first [reflexivity | vm_compute; intuition discriminate].
Defined.

(** X10.  The header of the main view names the weekday of the Gregorian
    calendar: for a date text that reads back with a month between 1 and
    12, [getDisplayDate] returns the text followed by the day name whose
    index is the day number (counted from Thursday 01/01/1970) plus 4,
    modulo 7. *)
Theorem getDisplayDate_names_the_weekday (u : UIManager) (d m y : Z) :
  read_date (currentDate u) = Returns (d, m, y) ->
  1 <= m <= 12 ->
  INT_MIN <= y - 1900 ->
  exists dayName,
    getDisplayDate u = Returns (currentDate u ++ " - " ++ dayName)
    /\ nth_error days (Z.to_nat ((days_from_civil y m d + 4) mod 7)) = Some dayName.
Proof.
  intros Hr Hm Hy.
  destruct (read_date_in_int _ _ _ _ Hr) as (Id & Im & Iy).
  unfold getDisplayDate. rewrite Hr. cbn [bind].
  unfold mktime. cbn [snd]. unfold int_sub.
  rewrite (wrap_id (m - 1)), (wrap_id (y - 1900)) by (unfold INT_MIN, INT_MAX in *; lia).
  rewrite tm_days_of by assumption. rewrite localtime_day.
  destruct (civil_from_days (days_from_civil y m d)) as [[y' m'] d'].
  unfold getDayOfWeek. cbn [tm_wday].
  set (k := (days_from_civil y m d + 4) mod 7).
  assert (Hk : 0 <= k < 7) by (apply Z.mod_pos_bound; lia).
  replace ((0 <=? k) && (k <? 7)) with true
    by (symmetry; apply andb_true_iff; rewrite Z.leb_le, Z.ltb_lt; lia).
  cbn [bind]. eexists. split; [reflexivity|].
  assert (C : k = 0 \/ k = 1 \/ k = 2 \/ k = 3 \/ k = 4 \/ k = 5 \/ k = 6) by lia.
  clearbody k.
  destruct C as [-> | [-> | [-> | [-> | [-> | [-> | ->]]]]]]; reflexivity.
Qed.

Lemma getDisplayDate_names_the_weekday_witness :
  exists dayName,
    getDisplayDate (ui one_food_world) = Returns ("01/01/2025" ++ " - " ++ dayName)
    /\ nth_error days 3 = Some dayName.
Proof.
  apply (getDisplayDate_names_the_weekday (ui one_food_world) 1 1 2025);
    first [reflexivity | unfold INT_MIN; lia].
Defined.

(** X30.  [center] puts a text of at most 80 characters in the middle of an
    80-column line, the left margin equal to the right one or one column
    narrower, and leaves a longer text as it is. *)
Theorem center_is_centred (text : string) :
  let n := Z.of_nat (String.length text) in
  n <= INT_MAX ->
  exists pad,
    center text = spaces pad ++ text
    /\ (n <= 80 -> 0 <= 80 - n - 2 * Z.of_nat pad <= 1)
    /\ (80 < n -> pad = O).
Proof.
  intros n Hn. unfold center. cbv zeta.
  fold n. unfold int_sub, int_div.
  rewrite (wrap_id n) by (unfold INT_MIN, INT_MAX in *; lia).
  rewrite (wrap_id (80 - n)) by (unfold INT_MIN, INT_MAX in *; lia).
  assert (Hq : INT_MIN <= Z.quot (80 - n) 2 <= INT_MAX)
    by (unfold INT_MIN, INT_MAX in *; Z.to_euclidean_division_equations; lia).
  rewrite wrap_id by assumption.
  eexists. split; [reflexivity|].
  destruct (Z.ltb_spec (Z.quot (80 - n) 2) 0); split; intros H';
    try reflexivity; Z.to_euclidean_division_equations; lia.
Qed.

Lemma center_is_centred_witness :
  exists pad,
    center "Calories" = spaces pad ++ "Calories"
    /\ (8 <= 80 -> 0 <= 80 - 8 - 2 * Z.of_nat pad <= 1)
    /\ (80 < 8 -> pad = O).
Proof.
  apply (center_is_centred "Calories"). vm_compute. discriminate.
Defined.

(* ===================================================================== *)
(** ** The store and its file *)
(* ===================================================================== *)

(* ===================================================================== *)
(** ** The store: one record per date *)
(* ===================================================================== *)

Lemma nth_error_snoc {A : Type} (l : list A) (x : A) :
  nth_error (l ++ [x]) (List.length l) = Some x.
Proof. induction l; cbn; auto. Qed.

Lemma nth_error_prefix {A : Type} (l m : list A) (j : nat) (x : A) :
  nth_error l j = Some x -> nth_error (l ++ m) j = Some x.
Proof.
  revert j. induction l as [|a l IH]; intros [|j] H; cbn in *; try discriminate; auto.
Qed.

(** X1.  [getRecord] only ever adds: the records at hand keep their places
    and their foods, at most one empty record of the date asked for is
    appended, and the reference returned is to a record of that date;
    asking again gives the same reference and changes nothing. *)
Theorem getRecord_only_appends (d : string) (dm : DataManager) :
  let dm' := fst (getRecord d dm) in
  let i := snd (getRecord d dm) in
  (records dm' = records dm \/ records dm' = (records dm ++ [mkDailyRecord d []])%list)
  /\ (forall j r, nth_error (records dm) j = Some r -> nth_error (records dm') j = Some r)
  /\ (exists r, nth_error (records dm') i = Some r /\ date r = d)
  /\ (forall j r, nth_error (records dm') j = Some r -> date r = d -> (i <= j)%nat)
  /\ getRecord d dm' = (dm', i)
  /\ dailyGoals dm' = dailyGoals dm /\ firstRun dm' = firstRun dm.
Proof.
  cbv zeta.
  pose proof (getRecord_valid d dm) as V.
  pose proof (getRecord_again d dm) as A.
  assert (First : forall rs j r, nth_error rs j = Some r -> date r = d ->
            exists i, find_record d rs = Some i /\ (i <= j)%nat).
  { induction rs as [|r0 rs IH]; intros [|j] r Hn Hd; cbn in Hn; try discriminate.
    - injection Hn as ->. cbn. rewrite Hd, String.eqb_refl. exists O. split; [reflexivity|lia].
    - cbn. destruct (String.eqb (date r0) d); [exists O; split; [reflexivity|lia]|].
      destruct (IH j r Hn Hd) as (i & -> & Hi). exists (S i). split; [reflexivity|lia]. }
  unfold getRecord in *.
  destruct (find_record d (records dm)) as [i|] eqn:F; cbn [fst snd records dailyGoals firstRun] in *.
  - split; [now left|]. split; [auto|]. split; [exact V|].
    split; [|split; [now rewrite F | split; reflexivity]].
    intros j r Hn Hd. destruct (First _ _ _ Hn Hd) as (i' & E & Hi). congruence.
  - split; [now right|]. split; [intros j r; apply nth_error_prefix|].
    split; [exact V|]. split; [|split; [exact A | split; reflexivity]].
    intros j r Hn Hd. destruct (First _ _ _ Hn Hd) as (i' & E & Hi).
    rewrite find_record_new in E by assumption. injection E as <-. exact Hi.
Qed.

Lemma getRecord_distinct (d : string) (dm : DataManager) :
  distinct (map date (records dm)) = true ->
  distinct (map date (records (fst (getRecord d dm)))) = true.
Proof.
  intros H. unfold getRecord.
  destruct (find_record d (records dm)) eqn:F; cbn [fst records]; [exact H|].
  rewrite map_app. cbn [map date]. apply distinct_snoc; [exact H|].
  now apply find_record_present.
Qed.

Lemma set_foods_at_distinct (i : nat) (fs : list Food) (dm : DataManager) :
  distinct (map date (records dm)) = true ->
  distinct (map date (records (set_foods_at i fs dm))) = true.
Proof. intros H. unfold set_foods_at. cbn [records]. now rewrite map_date_update. Qed.

Lemma apply_mutation_distinct (m : mutation) (dm : DataManager) :
  distinct (map date (records dm)) = true ->
  distinct (map date (records (apply_mutation m dm))) = true.
Proof.
  intros H. destruct m as [g | d | d f | d i f | d i]; cbn [apply_mutation].
  - exact H.
  - now apply getRecord_distinct.
  - pose proof (getRecord_distinct d dm H) as G.
    destruct (getRecord d dm) as [dm' r]. now apply set_foods_at_distinct.
  - pose proof (getRecord_distinct d dm H) as G.
    destruct (getRecord d dm) as [dm' r]. now apply set_foods_at_distinct.
  - pose proof (getRecord_distinct d dm H) as G.
    destruct (getRecord d dm) as [dm' r]. now apply set_foods_at_distinct.
Qed.

Lemma load_line_distinct (line : string) (dm dm' : DataManager) (cur cur' : option nat) :
  distinct (map date (records dm)) = true ->
  load_line line (dm, cur) = Returns (dm', cur') ->
  distinct (map date (records dm')) = true.
Proof.
  intros H. unfold load_line.
  destruct (starts_with "DAILY_GOALS:" line).
  { intros [= <- _]. exact H. }
  destruct (starts_with "DATE:" line).
  { pose proof (getRecord_distinct (trim_leading (substr_from 5 line)) dm H) as G.
    destruct (getRecord _ dm) as [dm1 i]. intros [= <- _]. exact G. }
  destruct (starts_with "FOOD:" line); [|intros [= <- _]; exact H].
  destruct cur as [i|]; [|intros [= <- _]; exact H].
  destruct (parse_food _) as [food| | | |]; cbn [bind]; try discriminate.
  intros [= <- _]. now apply set_foods_at_distinct.
Qed.

Lemma load_lines_distinct (ls : list string) (dm dm' : DataManager) (cur cur' : option nat) :
  distinct (map date (records dm)) = true ->
  load_lines ls (dm, cur) = Returns (dm', cur') ->
  distinct (map date (records dm')) = true.
Proof.
  revert dm cur. induction ls as [|line ls IH]; intros dm cur H; cbn [load_lines].
  - intros [= <- _]. exact H.
  - destruct (load_line line (dm, cur)) as [[dm1 cur1]| | | |] eqn:E; cbn [bind];
      try discriminate.
    apply IH. eapply load_line_distinct; eassumption.
Qed.

(** X2.  No two records of the store share a date: whatever file [loadData]
    has read into a store with that property, and whatever the interface
    then does through [getRecord] and the foods of a record. *)
Theorem store_dates_stay_distinct (disk : Disk) (dm0 dm : DataManager) (b : bool)
    (ms : list mutation) :
  distinct (map date (records dm0)) = true ->
  loadData disk dm0 = Returns (b, dm) ->
  distinct (map date (records (fold_left (fun dm m => apply_mutation m dm) ms dm))) = true.
Proof.
  intros H L.
  assert (D : distinct (map date (records dm)) = true).
  { unfold loadData in L. destruct (content disk) as [text|].
    - destruct (load_lines (file_lines text) (dm0, None)) as [[dm1 cur]| | | |] eqn:E;
        cbn [bind] in L; try discriminate.
      injection L as _ <-. eapply load_lines_distinct; eassumption.
    - injection L as _ <-. exact H. }
  clear L H. revert dm D. induction ms as [|m ms IH]; intros dm D; cbn [fold_left].
  - exact D.
  - apply IH. now apply apply_mutation_distinct.
Qed.

Lemma store_dates_stay_distinct_witness :
  distinct (map date (records
    (fold_left (fun dm m => apply_mutation m dm)
       [AddFood "02/01/2025" apple; GetRecord "01/01/2025"; DeleteFood "02/01/2025" 0]
       (mkDataManager (DailyGoals.mk 2000 250 150 70)
          [mkDailyRecord "01/01/2025" [mkFood "Pear" 57 15 0 0 100]] false)))) = true.
Proof.
  apply (store_dates_stay_distinct
           (mkDisk (Some ("DATE: 01/01/2025" ++ endl ++ "FOOD:Pear|57|15|0|0|100" ++ endl
                          ++ "DATE:01/01/2025" ++ endl)) true)
           DataManager_new _ true); reflexivity.
Defined.

(* ===================================================================== *)
(** ** Reading a file *)
(* ===================================================================== *)

Lemma load_line_no_record (line : string) (dm : DataManager) :
  starts_with "DATE:" line = false ->
  exists g, load_line line (dm, None)
            = Returns (mkDataManager g (records dm) (firstRun dm), None).
Proof.
  intros H. unfold load_line. rewrite H.
  destruct (starts_with "DAILY_GOALS:" line).
  - eexists. reflexivity.
  - exists (dailyGoals dm). destruct dm. destruct (starts_with "FOOD:" line); reflexivity.
Qed.

(** X4.  A file without a [DATE:] line stores no food and never makes
    [loadData] throw: its [FOOD:] lines are skipped unread, whatever they
    hold, and only the goals can change. *)
Theorem load_without_date_keeps_records (text : string) (wr : bool) (dm : DataManager) :
  forallb (fun line => negb (starts_with "DATE:" line)) (file_lines text) = true ->
  exists g,
    loadData (mkDisk (Some text) wr) dm
      = Returns (true, mkDataManager g (records dm) (firstRun dm)).
Proof.
  intros H. unfold loadData. cbn [content].
  assert (A : forall ls dm, forallb (fun line => negb (starts_with "DATE:" line)) ls = true ->
            exists g, load_lines ls (dm, None)
                      = Returns (mkDataManager g (records dm) (firstRun dm), None)).
  { clear. induction ls as [|line ls IH]; intros dm H; cbn [load_lines].
    - exists (dailyGoals dm). destruct dm; reflexivity.
    - cbn [forallb] in H. apply andb_true_iff in H as [Hl Hls].
      apply negb_true_iff in Hl.
      destruct (load_line_no_record line dm Hl) as [g ->]. cbn [bind].
      destruct (IH (mkDataManager g (records dm) (firstRun dm)) Hls) as [g' ->].
      exists g'. reflexivity. }
  destruct (A _ dm H) as [g ->]. exists g. reflexivity.
Qed.

Lemma load_without_date_keeps_records_witness :
  exists g,
    loadData (mkDisk (Some ("FOOD: Apple|abc|10|0|0|100" ++ endl
                            ++ "DAILY_GOALS: 1800,200,120,60" ++ endl)) true)
             DataManager_new
      = Returns (true, mkDataManager g [] false).
Proof.
  apply (load_without_date_keeps_records _ true DataManager_new). reflexivity.
Defined.

Lemma getline_nothing (d : ascii) : getline d "" = None.
Proof. reflexivity. Qed.

Lemma to_string_no_bar (z : Z) : no_char "|" (to_string z) = true.
Proof. apply to_string_no_char; [reflexivity | discriminate]. Qed.

Ltac read_number :=
  unfold food_field at 1;
  first [ rewrite getline_field by apply to_string_no_bar
        | rewrite getline_all
            by (first [apply to_string_nonempty | apply to_string_no_bar])
        | rewrite getline_nothing ];
  cbv beta delta [store_calories store_carbs store_protein store_fat store_grams];
  rewrite ?stoi_to_string by assumption;
  cbn [bind name calories carbs protein fat grams fst].

(** X5.  A [FOOD:] line may stop early: with a name and at most five numbers
    on it, the food read has these numbers in file order and 0 for each
    number that is missing; nothing throws. *)
Theorem parse_food_missing_fields (nm : string) (zs : list Z) :
  no_char "|" nm = true ->
  forallb in_int zs = true ->
  (List.length zs <= 5)%nat ->
  parse_food (fields_text nm zs) = Returns (food_of_fields nm zs).
Proof.
  intros Hn Hz Hl. unfold fields_text, food_of_fields, parse_food.
  destruct zs as [|a zs].
  { cbn [map String.concat]. rewrite append_empty.
    unfold food_field at 1. destruct nm as [|c nm].
    - cbn [getline bind]. repeat read_number. reflexivity.
    - rewrite getline_all by (first [discriminate | assumption]).
      cbn [store_name bind calories carbs protein fat grams Food_default].
      repeat read_number. reflexivity. }
  cbn [forallb] in Hz. apply andb_true_iff in Hz as [Ha Hz].
  rewrite !map_cons, concat_cons.
  change (("|" ++ to_string a) ++ ?r) with (String "|" "" ++ to_string a ++ r).
  unfold food_field at 1. rewrite getline_field by assumption.
  cbn [store_name bind calories carbs protein fat grams Food_default nth].
  destruct zs as [|b zs].
  { cbn [map String.concat]. rewrite append_empty. repeat read_number. reflexivity. }
  cbn [forallb] in Hz. apply andb_true_iff in Hz as [Hb Hz].
  rewrite !map_cons, concat_cons.
  change (("|" ++ to_string b) ++ ?r) with (String "|" "" ++ to_string b ++ r).
  read_number. cbn [nth].
  destruct zs as [|c zs].
  { cbn [map String.concat]. rewrite append_empty. repeat read_number. reflexivity. }
  cbn [forallb] in Hz. apply andb_true_iff in Hz as [Hc Hz].
  rewrite !map_cons, concat_cons.
  change (("|" ++ to_string c) ++ ?r) with (String "|" "" ++ to_string c ++ r).
  read_number. cbn [nth].
  destruct zs as [|d zs].
  { cbn [map String.concat]. rewrite append_empty. repeat read_number. reflexivity. }
  cbn [forallb] in Hz. apply andb_true_iff in Hz as [Hd Hz].
  rewrite !map_cons, concat_cons.
  change (("|" ++ to_string d) ++ ?r) with (String "|" "" ++ to_string d ++ r).
  read_number. cbn [nth].
  destruct zs as [|e zs].
  { cbn [map String.concat]. rewrite append_empty. repeat read_number. reflexivity. }
  cbn [forallb] in Hz. apply andb_true_iff in Hz as [He Hz].
  destruct zs; [|cbn in Hl; lia].
  cbn [map String.concat].
  change (("|" ++ to_string e)) with (String "|" "" ++ to_string e).
  read_number. cbn [nth]. read_number. reflexivity.
Qed.

Lemma parse_food_missing_fields_witness :
  parse_food "Apple|52|14" = Returns (mkFood "Apple" 52 14 0 0 0).
Proof.
  apply (parse_food_missing_fields "Apple" [52; 14]); first [reflexivity | cbn; lia].
Defined.

(* ===================================================================== *)
(** ** The month layout, and repeated reloads *)
(* ===================================================================== *)

(** X7.  The month the calendar lays out is the Gregorian one: the length
    that [renderCalendar] and [processCalendarInput] compute, by going to
    the first of the next month and one day back, is 31 or 30 days, and
    28 or 29 for February by the leap-year rule, December included; the
    column of day 1 is its weekday, counted from Sunday. *)
Theorem month_layout_is_gregorian (month year : Z) :
  1 <= month <= 12 -> -1000000000 <= year <= 1000000000 ->
  snd (month_layout month year) = days_in_month year month
  /\ fst (month_layout month year) = (days_from_civil year month 1 + 4) mod 7
  /\ 0 <= fst (month_layout month year) <= 6.
Proof.
  intros Hm Hy. rewrite month_layout_gregorian_eq by assumption. cbn [fst snd].
  split; [reflexivity|]. split; [reflexivity|].
  pose proof (Z.mod_pos_bound (days_from_civil year month 1 + 4) 7). lia.
Qed.

Lemma month_layout_is_gregorian_witness :
  snd (month_layout 2 2024) = 29
  /\ fst (month_layout 2 2024) = 4
  /\ 0 <= fst (month_layout 2 2024) <= 6.
Proof.
  apply (month_layout_is_gregorian 2 2024); lia.
Defined.

Lemma blank_name_wf (f : Food) : food_wf f = true -> food_wf (blank_name f) = true.
Proof.
  unfold food_wf, blank_name. cbn [name calories carbs protein fat grams no_char].
  change (negb (Ascii.eqb " " "|")) with true.
  change (negb (Ascii.eqb " " newline)) with true.
  cbn [andb]. exact (fun H => H).
Qed.

Lemma blank_names_wf (r : DailyRecord) : record_wf r = true -> record_wf (blank_names r) = true.
Proof.
  unfold record_wf, blank_names. cbn [date foods]. rewrite !andb_true_iff.
  intros [Hd Hf]. split; [exact Hd|].
  rewrite forallb_forall in *. intros f Hin. apply in_map_iff in Hin as (f0 & <- & Hin).
  apply blank_name_wf, Hf, Hin.
Qed.

Lemma reloaded_store_wf (dm : DataManager) :
  store_wf dm = true ->
  store_wf (mkDataManager (dailyGoals dm) (map blank_names (records dm)) false) = true.
Proof.
  unfold store_wf. cbn [dailyGoals records]. rewrite !andb_true_iff.
  intros [[Hg Hr] Hd]. split; [split; [exact Hg|]|].
  - rewrite forallb_forall in *. intros r Hin. apply in_map_iff in Hin as (r0 & <- & Hin).
    apply blank_names_wf, Hr, Hin.
  - now rewrite map_date_blank.
Qed.

Lemma pad_names_step (k : nat) (rs : list DailyRecord) :
  map (pad_names k) (map blank_names rs) = map (pad_names (S k)) rs.
Proof.
  rewrite map_map. apply map_ext. intros [d fs]. unfold pad_names, blank_names.
  cbn [date foods]. f_equal. rewrite map_map. apply map_ext. intros f.
  unfold pad_name, blank_name. cbn [name calories carbs protein fat grams]. f_equal.
  induction k as [|k IH]; [reflexivity|].
  cbn [spaces append]. f_equal. exact IH.
Qed.

Lemma pad_names_zero (rs : list DailyRecord) : map (pad_names 0) rs = rs.
Proof.
  rewrite <- (map_id rs) at 2. apply map_ext. intros [d fs]. unfold pad_names.
  cbn [date foods]. f_equal. rewrite <- (map_id fs) at 2. apply map_ext.
  intros []; reflexivity.
Qed.

(** X3.  Every cycle of saving and loading puts one more blank in front of
    every food name: a store that the line format can hold comes back
    from [k] cycles with its goals, dates, numbers and order, and with
    [k] blanks in front of each food name. *)
Theorem reload_pads_names (k : nat) (dm : DataManager) :
  store_wf dm = true ->
  exists dm',
    reload k dm = Returns dm'
    /\ dailyGoals dm' = dailyGoals dm
    /\ records dm' = map (pad_names k) (records dm).
Proof.
  revert dm. induction k as [|k IH]; intros dm H; cbn [reload].
  - exists dm. split; [reflexivity|]. split; [reflexivity|]. now rewrite pad_names_zero.
  - rewrite save_then_load_blanks_names by exact H. cbn [bind].
    destruct (IH _ (reloaded_store_wf dm H)) as (dm' & R & G & Rs).
    exists dm'. split; [exact R|]. split; [exact G|].
    rewrite Rs. cbn [records]. apply pad_names_step.
Qed.

Lemma reload_pads_names_witness :
  exists dm',
    reload 3 one_apple = Returns dm'
    /\ dailyGoals dm' = DailyGoals.mk 2000 250 150 70
    /\ records dm' = [mkDailyRecord "01/01/2025" [mkFood "   Apple" 52 14 0 0 100]].
Proof.
  apply (reload_pads_names 3 one_apple). reflexivity.
Defined.

(* ===================================================================== *)
(** ** Templates and forms *)
(* ===================================================================== *)

(* ===================================================================== *)
(** ** Templates: search and order *)
(* ===================================================================== *)

Lemma prefix_spec (p s : string) :
  String.prefix p s = true <-> exists post, s = p ++ post.
Proof.
  revert s. induction p as [|c p IH]; intros s.
  - split; [intros _; exists s; reflexivity | intros _; destruct s; reflexivity].
  - destruct s as [|c' s]; cbn [String.prefix].
    + split; [discriminate | intros [post H]; discriminate].
    + destruct (ascii_dec c c') as [<- | Hne].
      * rewrite IH. split; intros [post H]; exists post; cbn; [now rewrite H | now injection H].
      * split; [discriminate | intros [post H]; cbn in H; congruence].
Qed.

Lemma contains_spec (needle hay : string) :
  contains needle hay = true <-> exists pre post, hay = pre ++ needle ++ post.
Proof.
  induction hay as [|c hay IH].
  - cbn [contains]. rewrite orb_false_r, prefix_spec. split.
    + intros [post H]. exists "", post. exact H.
    + intros [pre [post H]]. destruct pre; [exists post; exact H | discriminate].
  - cbn [contains]. rewrite orb_true_iff, prefix_spec, IH. split.
    + intros [[post H] | [pre [post H]]].
      * exists "", post. exact H.
      * exists (String c pre), post. cbn. now rewrite H.
    + intros [pre [post H]]. destruct pre as [|c' pre].
      * left. exists post. exact H.
      * right. cbn in H. injection H as _ H. exists pre, post. exact H.
Qed.

(** X25.  The template list is filtered by substring: a template is listed
    exactly when its name has the search term somewhere in it, letter
    case included; the listed ones keep their order, and the empty term
    lists all. *)
Theorem matching_is_substring_search (term : string) (templates : list Food) :
  (forall tpl, In tpl (matching term templates) <->
     In tpl templates /\ exists pre post, name tpl = pre ++ term ++ post)
  /\ matching "" templates = templates
  /\ (forall a b, matching term (a ++ b) = matching term a ++ matching term b)%list.
Proof.
  unfold matching. split; [|split].
  - intros tpl. rewrite filter_In, contains_spec. reflexivity.
  - induction templates as [|t ts IH]; cbn [filter]; [reflexivity|].
    replace (contains "" (name t)) with true; [now rewrite IH|].
    symmetry. apply contains_spec. exists "", (name t). reflexivity.
  - intros a b. apply filter_app.
Qed.

Lemma string_ltb_irrefl (a : string) : string_ltb a a = false.
Proof.
  induction a as [|c a IH]; cbn [string_ltb]; [reflexivity|].
  now rewrite Nat.ltb_irrefl.
Qed.

Lemma string_ltb_asym (a b : string) : string_ltb a b = true -> string_ltb b a = false.
Proof.
  revert b. induction a as [|x a IH]; intros [|y b]; cbn [string_ltb]; try congruence.
  destruct (Nat.ltb_spec (nat_of_ascii x) (nat_of_ascii y)) as [Hlt | Hge].
  - intros _. destruct (Nat.ltb_spec (nat_of_ascii y) (nat_of_ascii x)); [lia | reflexivity].
  - destruct (Nat.ltb_spec (nat_of_ascii y) (nat_of_ascii x)); [discriminate|].
    apply IH.
Qed.

Lemma insert_by_name_perm (f : Food) (l : list Food) :
  Permutation (f :: l) (insert_by_name f l).
Proof.
  induction l as [|g l IH]; cbn [insert_by_name]; [reflexivity|].
  destruct (string_ltb (name f) (name g)); [reflexivity|].
  rewrite perm_swap. now apply perm_skip.
Qed.

Lemma insert_by_name_hd (f : Food) (l : list Food) (g : Food) :
  name_le g f -> HdRel name_le g l -> HdRel name_le g (insert_by_name f l).
Proof.
  intros Hf Hl. destruct l as [|h l]; cbn [insert_by_name].
  - now constructor.
  - destruct (string_ltb (name f) (name h)); constructor; [exact Hf|].
    now inversion Hl.
Qed.

Lemma insert_by_name_sorted (f : Food) (l : list Food) :
  Sorted name_le l -> Sorted name_le (insert_by_name f l).
Proof.
  induction 1 as [|g l Hs IH Hh]; cbn [insert_by_name].
  - repeat constructor.
  - destruct (string_ltb (name f) (name g)) eqn:E.
    + constructor; [now constructor|]. constructor.
      unfold name_le. now apply string_ltb_asym.
    + constructor; [exact IH|]. apply insert_by_name_hd; [exact E | exact Hh].
Qed.

Lemma sort_by_name_acc (l acc : list Food) :
  Sorted name_le acc ->
  Sorted name_le (fold_left (fun acc f => insert_by_name f acc) l acc)
  /\ Permutation (l ++ acc) (fold_left (fun acc f => insert_by_name f acc) l acc).
Proof.
  revert acc. induction l as [|f l IH]; intros acc H; cbn [fold_left app].
  - split; [exact H | reflexivity].
  - destruct (IH (insert_by_name f acc) (insert_by_name_sorted f acc H)) as [S P].
    split; [exact S|].
    rewrite <- P. rewrite <- insert_by_name_perm.
    apply Permutation_middle.
Qed.

(** X26.  A new template goes into a list that is sorted by name and stays so:
    committing the "create new template" form leaves the templates in
    non-decreasing order of name, with the new one among the old ones and
    nothing else of the world changed. *)
Theorem createTemplate_keeps_templates_sorted (f : TemplateForm.t) (w : World) :
  TemplateForm.editSelection f = 5 ->
  let newTpl := mkFood (TemplateForm.tplName f) (TemplateForm.cal f) (TemplateForm.carbs f)
                  (TemplateForm.prot f) (TemplateForm.fat f) 0 in
  exists sorted,
    createTemplate_turn cr f w = Returns (with_templates sorted w, None)
    /\ Sorted name_le sorted
    /\ Permutation (newTpl :: g_foodTemplates w) sorted.
Proof.
  intros Hsel newTpl. unfold createTemplate_turn.
  change (key_is cr "j") with false. change (key_is cr "k") with false.
  change (key_is cr cr) with true. cbv iota. rewrite Hsel.
  change (5 <? 5) with false. cbv iota.
  fold newTpl. eexists. split; [reflexivity|].
  destruct (sort_by_name_acc (g_foodTemplates w ++ [newTpl]) []) as [S P];
    [constructor|].
  split; [exact S|].
  unfold sort_by_name. rewrite <- P, app_nil_r.
  apply Permutation_cons_append.
Qed.

Lemma createTemplate_keeps_templates_sorted_witness :
  exists sorted,
    createTemplate_turn cr (TemplateForm.mk 5 "Bread" 265 49 9 3)
      (with_templates [mkFood "Apple" 52 14 0 0 0; mkFood "Pear" 57 15 0 0 0] (typed ""))
    = Returns (with_templates sorted
                 (with_templates [mkFood "Apple" 52 14 0 0 0; mkFood "Pear" 57 15 0 0 0]
                    (typed "")), None)
    /\ Sorted name_le sorted
    /\ Permutation
         (mkFood "Bread" 265 49 9 3 0
            :: [mkFood "Apple" 52 14 0 0 0; mkFood "Pear" 57 15 0 0 0]) sorted.
Proof.
  apply (createTemplate_keeps_templates_sorted (TemplateForm.mk 5 "Bread" 265 49 9 3)
           (with_templates [mkFood "Apple" 52 14 0 0 0; mkFood "Pear" 57 15 0 0 0] (typed ""))).
  reflexivity.
Defined.

(* ===================================================================== *)
(** ** The forms: moving between the fields *)
(* ===================================================================== *)

(** X21.  ['j'] and ['k'] in the three kinds of form go round the fields and
    the button: from a field of the form, each stays on the form, each
    undoes the other, and they wrap between the last entry and the
    first. *)
Theorem form_selection_goes_round :
  (forall f, 0 <= FoodForm.localSelection f <= 6 ->
     0 <= FoodForm.localSelection (FoodForm.next f) <= 6
     /\ 0 <= FoodForm.localSelection (FoodForm.prev f) <= 6
     /\ FoodForm.prev (FoodForm.next f) = f
     /\ FoodForm.next (FoodForm.prev f) = f
     /\ FoodForm.localSelection (FoodForm.next f) = (FoodForm.localSelection f + 1) mod 7)
  /\ (forall f, 0 <= GoalsForm.localSelection f <= 4 ->
        0 <= GoalsForm.localSelection (GoalsForm.next f) <= 4
        /\ 0 <= GoalsForm.localSelection (GoalsForm.prev f) <= 4
        /\ GoalsForm.prev (GoalsForm.next f) = f
        /\ GoalsForm.next (GoalsForm.prev f) = f
        /\ GoalsForm.localSelection (GoalsForm.next f)
           = (GoalsForm.localSelection f + 1) mod 5)
  /\ (forall f, 0 <= TemplateForm.editSelection f <= 5 ->
        0 <= TemplateForm.editSelection (TemplateForm.next f) <= 5
        /\ 0 <= TemplateForm.editSelection (TemplateForm.prev f) <= 5
        /\ TemplateForm.prev (TemplateForm.next f) = f
        /\ TemplateForm.next (TemplateForm.prev f) = f
        /\ TemplateForm.editSelection (TemplateForm.next f)
           = (TemplateForm.editSelection f + 1) mod 6).
Proof.
  split; [|split].
  - intros [i nm a b c d e] H. cbn in H.
    unfold FoodForm.next, FoodForm.prev, FoodForm.with_localSelection.
    cbn [FoodForm.localSelection FoodForm.foodName FoodForm.calories FoodForm.carbs
         FoodForm.protein FoodForm.fat FoodForm.grams].
    assert (C : i = 0 \/ i = 1 \/ i = 2 \/ i = 3 \/ i = 4 \/ i = 5 \/ i = 6) by lia.
    destruct C as [-> | [-> | [-> | [-> | [-> | [-> | ->]]]]]];
      cbv -[Z.le Z.lt]; repeat split; first [reflexivity | lia].
  - intros [i vs] H. cbn in H. unfold GoalsForm.next, GoalsForm.prev.
    cbn [GoalsForm.localSelection GoalsForm.fieldValues].
    assert (C : i = 0 \/ i = 1 \/ i = 2 \/ i = 3 \/ i = 4) by lia.
    destruct C as [-> | [-> | [-> | [-> | ->]]]];
      cbv -[Z.le Z.lt]; repeat split; first [reflexivity | lia].
  - intros [i nm a b c d] H. cbn in H.
    unfold TemplateForm.next, TemplateForm.prev, TemplateForm.with_editSelection.
    cbn [TemplateForm.editSelection TemplateForm.tplName TemplateForm.cal
         TemplateForm.carbs TemplateForm.prot TemplateForm.fat].
    assert (C : i = 0 \/ i = 1 \/ i = 2 \/ i = 3 \/ i = 4 \/ i = 5) by lia.
    destruct C as [-> | [-> | [-> | [-> | [-> | ->]]]]];
      cbv -[Z.le Z.lt]; repeat split; first [reflexivity | lia].
Qed.

(* ===================================================================== *)
(** ** The forms: what a whole session of a form can do *)
(* ===================================================================== *)

(** A property [P] of the world that every turn of a loop keeps while the
    loop goes on, and that gives [Q] on the turn that leaves the loop,
    gives [Q] for the loop. *)
Lemma key_loop_inv {S : Type} (body : ascii -> S -> World -> outcome (World * option S))
    (P Q : World -> Prop) :
  (forall w ks, P w -> P (with_keys ks w)) ->
  (forall key st w w' next, P w -> body key st w = Returns (w', next) ->
     match next with Some _ => P w' | None => Q w' end) ->
  forall fuel st w w', P w -> key_loop body fuel st w = Returns w' -> Q w'.
Proof.
  intros Hkeys Hbody. induction fuel as [|fuel IH]; intros st w w' HP; cbn [key_loop].
  - discriminate.
  - unfold getch. destruct (keys w) as [|k ks] eqn:K; cbn [bind]; [discriminate|].
    destruct (body k st (with_keys ks w)) as [[w1 next]| | | |] eqn:B; cbn [bind];
      try discriminate.
    pose proof (Hbody k st _ w1 next (Hkeys w ks HP) B) as H1.
    destruct next as [st'|].
    + apply IH. exact H1.
    + intros [= <-]. exact H1.
Qed.

Lemma cin_getline_keeps (w w' : World) (input : string) :
  cin_getline w = Returns (input, w') ->
  ui w' = ui w /\ g_foodTemplates w' = g_foodTemplates w /\ disk w' = disk w.
Proof.
  unfold cin_getline. destruct (is_fail (cin w)).
  - intros [= _ <-]. repeat split.
  - destruct (has_newline (is_buf (cin w))); [|discriminate].
    destruct (split_at newline (is_buf (cin w))) as [inp rest].
    intros [= _ <-]. destruct w; repeat split.
Qed.


Lemma form_open_keys (u : UIManager) (tpl : list Food) (d : Disk) (w : World)
    (ks : list ascii) :
  form_open u tpl d w -> form_open u tpl d (with_keys ks w).
Proof. destruct w; exact (fun H => H). Qed.

Lemma form_open_line (u : UIManager) (tpl : list Food) (d : Disk) (w w' : World)
    (input : string) :
  form_open u tpl d w -> cin_getline w = Returns (input, w') -> form_open u tpl d w'.
Proof.
  intros (A & B & C) H. destruct (cin_getline_keeps _ _ _ H) as (A' & B' & C').
  unfold form_open. repeat split; congruence.
Qed.









Lemma goals_turn_step (capture : string -> GoalsForm.t -> outcome GoalsForm.t)
    (u : UIManager) (tpl : list Food) (d : Disk) (key : ascii)
    (f : GoalsForm.t) (w w' : World) (next : option GoalsForm.t) :
  form_open u tpl d w ->
  goals_turn capture key f w = Returns (w', next) ->
  match next with
  | Some _ => form_open u tpl d w'
  | None =>
      g_foodTemplates w' = tpl
      /\ ((ui w' = u /\ disk w' = d)
          \/ exists g,
               ui w' = with_dataManager (setDailyGoals g (dataManager u)) u
               /\ disk w' = snd (saveData (dataManager (ui w')) d))
  end.
Proof.
  intros HP. unfold goals_turn.
  destruct (key_is key "j"); [intros [= <- <-]; exact HP|].
  destruct (key_is key "k"); [intros [= <- <-]; exact HP|].
  destruct (key_is key cr).
  - destruct (GoalsForm.localSelection f <? 4).
    + destruct (cin_getline w) as [[input w1]| | | |] eqn:L; cbn [bind]; try discriminate.
      destruct (capture input f) as [f'| | | |]; cbn [bind]; try discriminate.
      intros [= <- <-]. eapply form_open_line; eassumption.
    + destruct HP as (A & B & C).
      destruct w as [u0 t0 d0 k0 c0]. cbn in A, B, C. subst u0 t0 d0.
      intros [= <- <-]. split; [reflexivity|]. right.
      eexists. split; reflexivity.
  - destruct (key_is key "q"); intros [= <- <-]; [|exact HP].
    destruct HP as (A & B & C). split; [exact B|]. left. split; assumption.
Qed.

Lemma day_foods_goals (u : UIManager) (g : DailyGoals.t) :
  day_foods (with_dataManager (setDailyGoals g (dataManager u)) u) = day_foods u.
Proof.
  unfold day_foods, getRecord. destruct u as [o dm st cur sel items off a b c d e].
  cbn [with_dataManager currentDate dataManager setDailyGoals records].
  destruct (find_record cur (records dm)); unfold foods_at; reflexivity.
Qed.

(** X24.  The two goals forms never touch a record: whether the first-run form
    or the reset form, left with ['q'] or committed, the records of the
    store, the date, the focus and the templates are what they were;
    committed, the goals are replaced and the store is saved. *)
Theorem goals_forms_keep_the_records (w w' : World) :
  handleStartGoals w = Returns w' \/ handleResetGoals w = Returns w' ->
  g_foodTemplates w' = g_foodTemplates w
  /\ records (dataManager (ui w')) = records (dataManager (ui w))
  /\ view (ui w') = view (ui w)
  /\ nav_of (ui w') = nav_of (ui w)
  /\ ((ui w' = ui w /\ disk w' = disk w)
      \/ (exists g, dataManager (ui w') = setDailyGoals g (dataManager (ui w)))
         /\ disk w' = snd (saveData (dataManager (ui w')) (disk w))).
Proof.
  intros Hloop.
  pose (Q := fun w' : World =>
    g_foodTemplates w' = g_foodTemplates w
    /\ ((ui w' = ui w /\ disk w' = disk w)
        \/ exists g,
             ui w' = with_dataManager (setDailyGoals g (dataManager (ui w))) (ui w)
             /\ disk w' = snd (saveData (dataManager (ui w')) (disk w)))).
  assert (HQ : Q w').
  { destruct Hloop as [Hloop | Hloop];
      unfold handleStartGoals, handleResetGoals, startGoals_turn, resetGoals_turn in Hloop;
      (eapply (key_loop_inv _ (form_open (ui w) (g_foodTemplates w) (disk w)) Q);
        [apply form_open_keys | | | exact Hloop];
        [intros key st w0 w1 next HP Hb;
         exact (goals_turn_step _ (ui w) _ _ key st w0 w1 next HP Hb)
        | repeat split]). }
  destruct HQ as [T [[A B] | (g & A & B)]].
  - split; [exact T|]. rewrite A. repeat split. left. split; [reflexivity | exact B].
  - split; [exact T|]. rewrite A.
    split; [destruct (ui w); reflexivity|].
    split; [unfold view; rewrite day_foods_goals; destruct (ui w); reflexivity|].
    split; [destruct (ui w); reflexivity|].
    right. split; [|rewrite <- A; exact B].
    exists g. destruct (ui w); reflexivity.
Qed.

Lemma goals_forms_keep_the_records_witness :
  exists w',
    handleResetGoals
      (with_cin (mk_istream ("1800" ++ endl) false)
         (with_keys [cr; "k"; cr]%char one_food_world)) = Returns w'
    /\ g_foodTemplates w' = []
    /\ records (dataManager (ui w')) = records one_apple
    /\ view (ui w') = view (ui one_food_world)
    /\ nav_of (ui w') = (4, 0)
    /\ ((ui w' = ui one_food_world /\ disk w' = mkDisk None true)
        \/ (exists g, dataManager (ui w') = setDailyGoals g one_apple)
           /\ disk w' = snd (saveData (dataManager (ui w')) (mkDisk None true))).
Proof.
  eexists. split; [reflexivity|].
  apply (goals_forms_keep_the_records
           (with_cin (mk_istream ("1800" ++ endl) false)
              (with_keys [cr; "k"; cr]%char one_food_world))).
  right. reflexivity.
Defined.

(* ===================================================================== *)
(** ** The template picker *)
(* ===================================================================== *)

(* ===================================================================== *)
(** ** The template picker: what is drawn and what Enter takes *)
(* ===================================================================== *)

Lemma visibleRows_value : visibleRows = 10.
Proof. reflexivity. Qed.

Lemma size_t_small (z : Z) : 0 <= z <= INT_MAX -> size_t_of_int z = z.
Proof. intros H. unfold size_t_of_int, INT_MAX in *. apply Z.mod_small. lia. Qed.

Lemma template_rows_spec (count off : Z) (fuel : nat) (i j r : Z) :
  0 <= off <= i -> off + 10 <= INT_MAX -> i <= count -> count <= INT_MAX ->
  count <= i + Z.of_nat fuel ->
  In (j, r) (template_rows fuel count off i) <->
  (i <= j < count /\ j < off + 10 /\ r = 2 + (j - off)).
Proof.
  intros Ho Hf Hi Hc. revert i Ho Hi. induction fuel as [|fuel IH]; intros i Ho Hi Hfuel.
  - cbn. lia.
  - cbn [template_rows]. rewrite visibleRows_value. unfold int_add.
    rewrite (wrap_id (off + 10)) by (unfold INT_MIN, INT_MAX in *; lia).
    rewrite (size_t_small (off + 10)), (size_t_small off) by (unfold INT_MAX in *; lia).
    destruct (Z.ltb_spec i count), (Z.ltb_spec i (off + 10)); cbn [andb In]; try lia.
    rewrite (size_t_small (i - off)), (size_t_small (i + 1)) by (unfold INT_MAX in *; lia).
    rewrite (wrap_id (i - off)), (wrap_id (2 + (i - off)))
      by (unfold INT_MIN, INT_MAX in *; lia).
    rewrite IH by lia. split.
    + intros [E | H']; [apply pair_equal_spec in E as [E1 E2]; lia | lia].
    + intros H'. destruct (Z.eq_dec j i) as [-> | Hne]; [left; f_equal; lia | right; lia].
Qed.

Lemma picker_scroll_fields (p : Picker.t) :
  Picker.searchTerm (picker_scroll p) = Picker.searchTerm p
  /\ Picker.localSelection (picker_scroll p) = Picker.localSelection p
  /\ Picker.searchEditing (picker_scroll p) = Picker.searchEditing p.
Proof.
  unfold picker_scroll.
  destruct (2 <=? Picker.localSelection p); [|repeat split].
  destruct (_ <? Picker.templateScrollOffset p); [repeat split|].
  destruct (visibleRows <=? _); repeat split.
Qed.

Lemma picker_scroll_offset (p : Picker.t) :
  2 <= Picker.localSelection p <= INT_MAX ->
  0 <= Picker.templateScrollOffset p ->
  let rel := Picker.localSelection p - 2 in
  Picker.templateScrollOffset (picker_scroll p)
    = (if rel <? Picker.templateScrollOffset p then rel
       else if 10 <=? rel then rel - 9 else Picker.templateScrollOffset p).
Proof.
  intros Hs Ho rel. unfold picker_scroll. rewrite visibleRows_value.
  replace (2 <=? Picker.localSelection p) with true by (symmetry; apply Z.leb_le; lia).
  unfold int_sub, int_add.
  rewrite (wrap_id (Picker.localSelection p - 2)) by (unfold INT_MIN, INT_MAX in *; lia).
  fold rel.
  destruct (Z.ltb_spec rel (Picker.templateScrollOffset p)); [reflexivity|].
  destruct (Z.leb_spec 10 rel); [|reflexivity].
  cbn [Picker.templateScrollOffset].
  rewrite (wrap_id (rel - 10)), (wrap_id (rel - 10 + 1))
    by (subst rel; unfold INT_MIN, INT_MAX in *; lia).
  lia.
Qed.

Lemma picker_rows_spec (p : Picker.t) (matches : list Food) (j r : Z) :
  2 <= Picker.localSelection p <= INT_MAX - 10 ->
  0 <= Picker.templateScrollOffset p <= INT_MAX - 10 ->
  Z.of_nat (List.length matches) <= INT_MAX ->
  let off := Picker.templateScrollOffset (picker_scroll p) in
  0 <= off <= INT_MAX - 10
  /\ (In (j, r) (picker_rows p matches) <->
      (off <= j < Z.of_nat (List.length matches) /\ j < off + 10 /\ r = 2 + (j - off))).
Proof.
  intros Hs Ho Hc off.
  assert (Hoff : 0 <= off <= INT_MAX - 10).
  { subst off. rewrite picker_scroll_offset by (unfold INT_MAX in *; lia).
    unfold INT_MAX in *.
    destruct (Z.ltb_spec (Picker.localSelection p - 2) (Picker.templateScrollOffset p));
      [lia|]. destruct (Z.leb_spec 10 (Picker.localSelection p - 2)); lia. }
  split; [exact Hoff|].
  unfold picker_rows. fold off. rewrite size_t_small by (unfold INT_MAX in *; lia).
  destruct (Z.leb_spec off (Z.of_nat (List.length matches))) as [Hle | Hgt].
  - apply template_rows_spec; unfold INT_MAX in *; lia.
  - split; [|lia].
    destruct (List.length matches) as [|n] eqn:E; cbn [template_rows]; [intros []|].
    rewrite <- E.
    replace (off <? Z.of_nat (List.length matches)) with false
      by (symmetry; apply Z.ltb_ge; lia).
    intros [].
Qed.

Lemma highlighted_some (p : Picker.t) (matches : list Food) (i : Z) :
  highlighted p matches = Some i -> In (i, Picker.localSelection p) (picker_rows p matches).
Proof.
  unfold highlighted.
  destruct (filter _ (picker_rows p matches)) as [|[j r] rest] eqn:F; [discriminate|].
  intros [= <-].
  assert (Hin : In (j, r) (filter (fun row => snd row =? Picker.localSelection p)
                             (picker_rows p matches))) by (rewrite F; now left).
  apply filter_In in Hin as [Hin Hr]. cbn [snd] in Hr. apply Z.eqb_eq in Hr. now subst r.
Qed.

Lemma highlighted_none (p : Picker.t) (matches : list Food) :
  (forall j, ~ In (j, Picker.localSelection p) (picker_rows p matches)) ->
  highlighted p matches = None.
Proof.
  intros H. unfold highlighted.
  destruct (filter _ (picker_rows p matches)) as [|[j r] rest] eqn:F; [reflexivity|].
  exfalso.
  assert (Hin : In (j, r) (filter (fun row => snd row =? Picker.localSelection p)
                             (picker_rows p matches))) by (rewrite F; now left).
  apply filter_In in Hin as [Hin Hr]. cbn [snd] in Hr. apply Z.eqb_eq in Hr. subst r.
  exact (H j Hin).
Qed.

Lemma picker_search_template (key : ascii) (p : Picker.t) :
  2 <= Picker.localSelection p -> picker_search key (picker_scroll p) = None.
Proof.
  intros H. unfold picker_search.
  destruct (picker_scroll_fields p) as (_ & -> & _).
  now replace (Picker.localSelection p =? 0) with false by (symmetry; apply Z.eqb_neq; lia).
Qed.

(** Enter on a template row of the picker: the index the code takes, and
    what it does with it. *)
Lemma addFromTemplate_turn_enter (p : Picker.t) (w : World) :
  2 <= Picker.localSelection p <= INT_MAX - 10 ->
  0 <= Picker.templateScrollOffset p <= INT_MAX - 10 ->
  let matches := matching (Picker.searchTerm p) (g_foodTemplates w) in
  Z.of_nat (List.length matches) <= INT_MAX ->
  let index := Picker.localSelection p - 2 + Picker.templateScrollOffset (picker_scroll p) in
  forall tpl, nth_error matches (Z.to_nat index) = Some tpl ->
  addFromTemplate_turn cr p w = pick_template tpl w
  /\ addFromTemplate_turn "x" p w
     = Returns (with_templates
                  (filter (fun t => negb (String.eqb (name t) (name tpl))) (g_foodTemplates w))
                  w,
                Some (Picker.mk "" 0 (Picker.searchEditing p) 0)).
Proof.
  intros Hs Ho matches Hc index tpl Hn.
  destruct (picker_rows_spec p matches 0 0 Hs Ho Hc) as [Hoff _].
  destruct (picker_scroll_fields p) as (Et & Es & Ee).
  assert (Hi : (Z.to_nat index < List.length matches)%nat)
    by (apply nth_error_Some; congruence).
  assert (Hidx : 0 <= index < Z.of_nat (List.length matches)) by (subst index; lia).
  unfold addFromTemplate_turn. cbv zeta.
  rewrite !picker_search_template by lia.
  rewrite Et, Es, Ee. fold matches.
  unfold int_sub, int_add.
  rewrite (wrap_id (Picker.localSelection p - 2)) by (unfold INT_MIN, INT_MAX in *; lia).
  rewrite (wrap_id (Z.of_nat (List.length matches))) by (unfold INT_MIN, INT_MAX in *; lia).
  rewrite (wrap_id (Picker.localSelection p - 2 + _))
    by (unfold INT_MIN, INT_MAX in *; lia).
  fold index.
  replace ((0 <=? index) && (index <? Z.of_nat (List.length matches))) with true
    by (symmetry; apply andb_true_iff; rewrite Z.leb_le, Z.ltb_lt; lia).
  rewrite Hn.
  replace (Picker.localSelection p =? 0) with false by (symmetry; apply Z.eqb_neq; lia).
  replace (Picker.localSelection p =? 1) with false by (symmetry; apply Z.eqb_neq; lia).
  replace (2 <=? Picker.localSelection p) with true by (symmetry; apply Z.leb_le; lia).
  split.
  - change (key_is cr "j") with false. change (key_is cr "k") with false.
    change (key_is cr cr) with true. cbv iota. reflexivity.
  - change (key_is "x" "j") with false. change (key_is "x" "k") with false.
    change (key_is "x" cr) with false. change (key_is "x" "x") with true.
    cbv iota. reflexivity.
Qed.

(** X27.  In the template picker, Enter and ['x'] act on the template of the
    highlighted row: when a row is highlighted, Enter makes the food from
    the template that row shows, and ['x'] deletes the templates of that
    name. *)
Theorem picker_acts_on_the_highlighted_template (p : Picker.t) (w : World) (i : Z) :
  2 <= Picker.localSelection p <= INT_MAX - 10 ->
  0 <= Picker.templateScrollOffset p <= INT_MAX - 10 ->
  let matches := matching (Picker.searchTerm p) (g_foodTemplates w) in
  Z.of_nat (List.length matches) <= INT_MAX ->
  highlighted p matches = Some i ->
  exists tpl,
    nth_error matches (Z.to_nat i) = Some tpl
    /\ addFromTemplate_turn cr p w = pick_template tpl w
    /\ addFromTemplate_turn "x" p w
       = Returns (with_templates
                    (filter (fun t => negb (String.eqb (name t) (name tpl)))
                       (g_foodTemplates w)) w,
                  Some (Picker.mk "" 0 (Picker.searchEditing p) 0)).
Proof.
  intros Hs Ho matches Hc Hh.
  apply highlighted_some in Hh.
  destruct (picker_rows_spec p matches i (Picker.localSelection p) Hs Ho Hc) as [Hoff Spec].
  apply Spec in Hh as (Hi & Hw & Hr).
  assert (Ei : i = Picker.localSelection p - 2
                   + Picker.templateScrollOffset (picker_scroll p)) by lia.
  destruct (nth_error matches (Z.to_nat i)) as [tpl|] eqn:Hn.
  2:{ apply nth_error_None in Hn. lia. }
  exists tpl. split; [reflexivity|].
  rewrite Ei in Hn. now apply addFromTemplate_turn_enter.
Qed.

(** X28.  With the focus below the tenth template of the list, no row of the
    picker is highlighted, and the template that Enter takes is not among
    the rows drawn. *)
Theorem picker_focus_below_the_window (p : Picker.t) (w : World) :
  2 + visibleRows <= Picker.localSelection p <= INT_MAX - 10 ->
  0 <= Picker.templateScrollOffset p <= 1000000000 ->
  Picker.localSelection p <= 1000000000 ->
  let matches := matching (Picker.searchTerm p) (g_foodTemplates w) in
  Z.of_nat (List.length matches) <= INT_MAX ->
  let index := Picker.localSelection p - 2 + Picker.templateScrollOffset (picker_scroll p) in
  highlighted p matches = None
  /\ (forall r, ~ In (index, r) (picker_rows p matches))
  /\ (forall tpl, nth_error matches (Z.to_nat index) = Some tpl ->
        addFromTemplate_turn cr p w = pick_template tpl w).
Proof.
  rewrite visibleRows_value. intros Hs Ho Hs' matches Hc index.
  assert (Hs2 : 2 <= Picker.localSelection p <= INT_MAX - 10) by lia.
  assert (Ho2 : 0 <= Picker.templateScrollOffset p <= INT_MAX - 10)
    by (unfold INT_MAX; lia).
  pose proof (picker_scroll_offset p ltac:(unfold INT_MAX in *; lia) ltac:(lia)) as Eo.
  cbv zeta in Eo.
  assert (Hlow : Picker.localSelection p - 11
                 <= Picker.templateScrollOffset (picker_scroll p)).
  { rewrite Eo.
    destruct (Z.ltb_spec (Picker.localSelection p - 2) (Picker.templateScrollOffset p));
      [lia|]. destruct (Z.leb_spec 10 (Picker.localSelection p - 2)); lia. }
  assert (Hup : 1 <= Picker.templateScrollOffset (picker_scroll p)).
  { rewrite Eo.
    destruct (Z.ltb_spec (Picker.localSelection p - 2) (Picker.templateScrollOffset p));
      [lia|]. destruct (Z.leb_spec 10 (Picker.localSelection p - 2)); lia. }
  split; [|split].
  - apply highlighted_none. intros j Hin.
    destruct (picker_rows_spec p matches j (Picker.localSelection p) Hs2 Ho2 Hc) as [_ Spec].
    apply Spec in Hin. lia.
  - intros r Hin.
    destruct (picker_rows_spec p matches index r Hs2 Ho2 Hc) as [_ Spec].
    apply Spec in Hin. subst index. lia.
  - intros tpl Hn. now apply addFromTemplate_turn_enter.
Qed.

Lemma picker_acts_on_the_highlighted_template_witness :
  exists tpl,
    nth_error [mkFood "Apple" 52 14 0 0 0; mkFood "Pear" 57 15 0 0 0] (Z.to_nat 1) = Some tpl
    /\ addFromTemplate_turn cr (Picker.mk "" 3 false 0)
         (with_templates [mkFood "Apple" 52 14 0 0 0; mkFood "Pear" 57 15 0 0 0] (typed "150"))
       = pick_template tpl
           (with_templates [mkFood "Apple" 52 14 0 0 0; mkFood "Pear" 57 15 0 0 0]
              (typed "150"))
    /\ addFromTemplate_turn "x" (Picker.mk "" 3 false 0)
         (with_templates [mkFood "Apple" 52 14 0 0 0; mkFood "Pear" 57 15 0 0 0] (typed "150"))
       = Returns (with_templates
                    (filter (fun t => negb (String.eqb (name t) (name tpl)))
                       [mkFood "Apple" 52 14 0 0 0; mkFood "Pear" 57 15 0 0 0])
                    (with_templates [mkFood "Apple" 52 14 0 0 0; mkFood "Pear" 57 15 0 0 0]
                       (typed "150")),
                  Some (Picker.mk "" 0 false 0)).
Proof.
  apply (picker_acts_on_the_highlighted_template (Picker.mk "" 3 false 0)
           (with_templates [mkFood "Apple" 52 14 0 0 0; mkFood "Pear" 57 15 0 0 0]
              (typed "150")) 1);
    first [reflexivity | vm_compute; intuition discriminate].
Defined.

Lemma picker_focus_below_the_window_witness :
  highlighted (Picker.mk "" 12 false 0) (repeat apple 12) = None
  /\ (forall r, ~ In (11, r) (picker_rows (Picker.mk "" 12 false 0) (repeat apple 12)))
  /\ (forall tpl, nth_error (repeat apple 12) (Z.to_nat 11) = Some tpl ->
        addFromTemplate_turn cr (Picker.mk "" 12 false 0)
          (with_templates (repeat apple 12) (typed "150"))
        = pick_template tpl (with_templates (repeat apple 12) (typed "150"))).
Proof.
  apply (picker_focus_below_the_window (Picker.mk "" 12 false 0)
           (with_templates (repeat apple 12) (typed "150")));
    vm_compute; intuition discriminate.
Defined.

Lemma pop_back_push_back (c : ascii) (s : string) : pop_back (push_back c s) = s.
Proof.
  unfold push_back. induction s as [|x s IH]; [reflexivity|].
  cbn [append pop_back]. rewrite IH.
  destruct s; reflexivity.
Qed.

Lemma push_back_not_empty (c : ascii) (s : string) : empty (push_back c s) = false.
Proof. destruct s; reflexivity. Qed.

(** X29.  While the search field of the picker is being edited, a printable
    key goes into the search term, whatever the key does elsewhere (['q'],
    ['j'], ['k'] and ['x'] included), nothing else changes, and Backspace
    takes it out again. *)
Theorem picker_search_typing (key : ascii) (p : Picker.t) (w : World) :
  Picker.localSelection p = 0 ->
  Picker.searchEditing p = true ->
  (32 <= nat_of_ascii key <= 126)%nat ->
  exists p1,
    addFromTemplate_turn key p w = Returns (w, Some p1)
    /\ Picker.searchTerm p1 = Picker.searchTerm p ++ String key ""
    /\ addFromTemplate_turn "008" p1 w = Returns (w, Some p).
Proof.
  intros Hsel Hed Hkey. destruct p as [term sel ed off]. cbn in Hsel, Hed. subst sel ed.
  assert (Hcr : key_is key cr = false).
  { unfold key_is. destruct (Ascii.eqb_spec key cr) as [-> |]; [|reflexivity].
    cbn in Hkey. lia. }
  assert (Hbs : key_is key "008" = false).
  { unfold key_is. destruct (Ascii.eqb_spec key "008") as [-> |]; [|reflexivity].
    cbn in Hkey. lia. }
  assert (Hpr : Nat.leb 32 (nat_of_ascii key) && Nat.leb (nat_of_ascii key) 126 = true)
    by (apply andb_true_iff; split; apply Nat.leb_le; lia).
  exists (Picker.mk (push_back key term) 0 true off).
  unfold addFromTemplate_turn, picker_scroll, picker_search.
  cbn [Picker.localSelection Picker.searchEditing Picker.searchTerm
       Picker.templateScrollOffset].
  change (2 <=? 0) with false. cbv iota.
  cbn [Picker.localSelection Picker.searchEditing Picker.searchTerm
       Picker.templateScrollOffset].
  change (0 =? 0) with true. cbn [negb]. cbv iota.
  rewrite Hcr, Hbs, Hpr.
  split; [reflexivity|]. split; [reflexivity|].
  change (key_is "008" cr) with false. change (key_is "008" "008") with true. cbv iota.
  rewrite push_back_not_empty, pop_back_push_back. reflexivity.
Qed.

Lemma picker_search_typing_witness :
  exists p1,
    addFromTemplate_turn "q" (Picker.mk "App" 0 true 0) (typed "") =
      Returns (typed "", Some p1)
    /\ Picker.searchTerm p1 = "App" ++ String "q" ""
    /\ addFromTemplate_turn "008" p1 (typed "") =
         Returns (typed "", Some (Picker.mk "App" 0 true 0)).
Proof.
  apply (picker_search_typing "q" (Picker.mk "App" 0 true 0) (typed ""));
    first [reflexivity | cbn; lia].
Defined.
